(** * X12 837P / 835 decoding core: delimiter detection, composite splitting,
      adjustment decoding, payment extraction and claim matching.

    Shallow embedding of [scripts/edi_utils.py], [scripts/claim_matching.py],
    [scripts/pipeline_models.py], [scripts/parse_835.py] and the diagnosis
    path of [scripts/parse_837p.py], followed by the properties proved of
    them.

    A Python [str] is a [string]; its characters are the code points below
    256.  A Python list is a [list]; [None] is [None]. *)

From Stdlib Require Import String Ascii List ZArith QArith Lia Bool Arith FinFun.
Import ListNotations.
Local Open Scope string_scope.
Local Open Scope list_scope.
Local Open Scope nat_scope.

(* ================================================================== *)
(** * Python string primitives used by the scripts                     *)
(* ================================================================== *)

Module Py.

Definition code (c : ascii) : nat := nat_of_ascii c.

Definition between (lo hi n : nat) : bool := Nat.leb lo n && Nat.leb n hi.

(** [str.isspace] on one character: TAB..CR, FS..US, SPACE, NEL, NBSP. *)
Definition isspace (c : ascii) : bool :=
  between 9 13 (code c) || between 28 32 (code c)
  || Nat.eqb (code c) 133 || Nat.eqb (code c) 160.

(** [str.isprintable] on one character. *)
Definition isprintable (c : ascii) : bool :=
  between 32 126 (code c)
  || (between 161 255 (code c) && negb (Nat.eqb (code c) 173)).

(** [str.isdigit] on one character: 0..9 and the superscripts 1, 2, 3. *)
Definition isdigit_char (c : ascii) : bool :=
  between 48 57 (code c)
  || Nat.eqb (code c) 178 || Nat.eqb (code c) 179 || Nat.eqb (code c) 185.

(** [bool(s)] for a string. *)
Definition truthy (s : string) : bool := negb (s =? "")%string.

Fixpoint lstrip (s : string) : string :=
  match s with
  | String c s' => if isspace c then lstrip s' else s
  | EmptyString => EmptyString
  end.

Fixpoint rstrip (s : string) : string :=
  match s with
  | EmptyString => EmptyString
  | String c s' =>
      match rstrip s' with
      | EmptyString => if isspace c then EmptyString else String c EmptyString
      | r => String c r
      end
  end.

(** [s.strip()] *)
Definition strip (s : string) : string := rstrip (lstrip s).

(** [s.lstrip(z)] for a one-character [z]. *)
Fixpoint lstrip_char (z : ascii) (s : string) : string :=
  match s with
  | String c s' => if Ascii.eqb c z then lstrip_char z s' else s
  | EmptyString => EmptyString
  end.

(** [c.upper()].  The sharp s becomes "SS".  The capitals of the micro sign
    and of y-diaeresis lie beyond code point 255; both characters are left
    as they are. *)
Definition upper_char (c : ascii) : string :=
  let n := code c in
  if between 97 122 n then String (ascii_of_nat (n - 32)) ""
  else if Nat.eqb n 223 then "SS"
  else if between 224 254 n && negb (Nat.eqb n 247)
       then String (ascii_of_nat (n - 32)) ""
  else String c "".

Fixpoint upper (s : string) : string :=
  match s with
  | EmptyString => EmptyString
  | String c s' => upper_char c ++ upper s'
  end.

Fixpoint filter_chars (keep : ascii -> bool) (s : string) : string :=
  match s with
  | EmptyString => EmptyString
  | String c s' =>
      if keep c then String c (filter_chars keep s') else filter_chars keep s'
  end.

Fixpoint all_chars (p : ascii -> bool) (s : string) : bool :=
  match s with
  | EmptyString => true
  | String c s' => p c && all_chars p s'
  end.

(** [s.isdigit()] *)
Definition isdigit (s : string) : bool :=
  negb (s =? "")%string && all_chars isdigit_char s.

(** [s.find(sub)]; [None] stands for -1. *)
Definition find (s sub : string) : option nat := index 0 sub s.

(** [sub in s] *)
Definition contains (sub s : string) : bool :=
  match find s sub with Some _ => true | None => false end.

(** [s[i]] for an index within range. *)
Definition char_at (s : string) (i : nat) : string := substring i 1 s.

(** [s.split(sep)] for a non-empty [sep]: [skip] counts the characters of a
    separator occurrence still to pass over, [cur] is the piece being read. *)
Fixpoint split_from (sep : string) (skip : nat) (cur : string) (s : string)
  : list string :=
  match s with
  | EmptyString => [cur]
  | String c s' =>
      match skip with
      | S k => split_from sep k cur s'
      | O =>
          if prefix sep s
          then cur :: split_from sep (String.length sep - 1) "" s'
          else split_from sep 0 (cur ++ String c "") s'
      end
  end.

Definition split (s sep : string) : list string := split_from sep 0 "" s.

(** [s.replace(c, "")] for a one-character [c]. *)
Definition remove_char (c : ascii) (s : string) : string :=
  filter_chars (fun x => negb (Ascii.eqb x c)) s.

(** [d.get(k, default)] over a literal table. *)
Fixpoint dict_get (d : list (string * string)) (k : string) (default : string)
  : string :=
  match d with
  | [] => default
  | (k', v) :: d' => if (k' =? k)%string then v else dict_get d' k default
  end.

(** [k in d] *)
Fixpoint dict_mem (d : list (string * string)) (k : string) : bool :=
  match d with
  | [] => false
  | (k', _) :: d' => (k' =? k)%string || dict_mem d' k
  end.

(** [x in lst] for strings. *)
Definition list_mem (x : string) (l : list string) : bool :=
  existsb (fun y => (y =? x)%string) l.

End Py.

(* ================================================================== *)
(** * scripts/edi_utils.py                                             *)
(* ================================================================== *)

Module EdiUtils.

Record Delimiters : Type := mkDelimiters {
  segment : string;
  element : string;
  component : string;
  repetition : string
}.

Definition defaults : Delimiters :=
  {| segment := "~"; element := "*"; component := ":"; repetition := "^" |}.

Definition detect_delimiters (content : string) : Delimiters :=
  if negb (Py.truthy content) then defaults
  else
    match Py.find content "ISA" with
    | None => defaults
    | Some isa_pos =>
        if Nat.ltb (String.length content) (isa_pos + 106) then defaults
        else
          let element_sep := Py.char_at content (isa_pos + 3) in
          let component_sep := Py.char_at content (isa_pos + 104) in
          let segment_term := Py.char_at content (isa_pos + 105) in
          if negb (Py.truthy (Py.strip element_sep))
             || negb (Py.truthy (Py.strip segment_term))
          then defaults
          else
            {| segment := segment_term;
               element := element_sep;
               component := if Py.truthy (Py.strip component_sep)
                            then component_sep else component defaults;
               repetition := "^" |}
    end.

(** Loop body of [parse_edi_content]: one raw segment. *)
Definition clean_segment (seg : string) : string :=
  Py.remove_char "013" (Py.remove_char "010" (Py.strip seg)).

Fixpoint collect_segments (element_sep : string) (raw_segments : list string)
  : list (list string) :=
  match raw_segments with
  | [] => []
  | seg :: rest =>
      let cleaned := clean_segment seg in
      if Py.truthy cleaned
      then Py.split cleaned element_sep :: collect_segments element_sep rest
      else collect_segments element_sep rest
  end.

Definition parse_edi_content (content : string)
  : list (list string) * Delimiters :=
  let delimiters := detect_delimiters content in
  let segment_sep := segment delimiters in
  let element_sep := element delimiters in
  let raw_segments := Py.split content segment_sep in
  (collect_segments element_sep raw_segments, delimiters).

Definition split_composite (value component_sep : string) : list string :=
  if negb (Py.truthy value) then []
  else if Py.truthy component_sep && Py.contains component_sep value
  then Py.split value component_sep
  else if Py.contains ":" value then Py.split value ":"
  else if Py.contains ">" value then Py.split value ">"
  else [value].

(** ** Vocabulary of the delimiter properties *)

(** The first marker is at [p], the document holds the 106 characters of
    the envelope from there, and [e], [c], [s] stand at its offsets 3, 104
    and 105. *)
Definition envelope_at (content : string) (p : nat) (e c s : ascii) : Prop :=
  Py.find content "ISA" = Some p
  /\ p + 106 <= String.length content
  /\ get (p + 3) content = Some e
  /\ get (p + 104) content = Some c
  /\ get (p + 105) content = Some s.

Definition one (c : ascii) : string := String c "".

(** The Delimiter Set invariant: four distinct printable characters. *)
Definition delimiter_invariant (d : Delimiters) : Prop :=
  NoDup [segment d; element d; component d; repetition d]
  /\ Forall (fun x => exists c, x = one c /\ Py.isprintable c = true)
       [segment d; element d; component d; repetition d].

End EdiUtils.

(* ================================================================== *)
(** * scripts/pipeline_models.py                                       *)
(* ================================================================== *)

Module PipelineModels.

Definition MATCH_STRATEGY_KEYS : list string :=
  ["clp01"; "clp07_original_claim_id"; "clp07_ref"; "unmatched"].

Record MatchResult : Type := mkMatchResult {
  claim_header_id : option Z;
  strategy : string;
  reason_code : string
}.

End PipelineModels.

(* ================================================================== *)
(** * scripts/claim_matching.py                                        *)
(* ================================================================== *)

Module ClaimMatching.
Import PipelineModels.

(** The claim store as [match_claim_header] sees it.  Each field is one of
    the four queries the function issues, ending in [.limit(1).execute()];
    the result is the [data] list of the answer, reduced to the column the
    function reads ([id] or [claim_header_id]). *)
Record Client : Type := mkClient {
  (** [table("claim_headers").select("id").eq("claim_id", c)] *)
  headers_by_claim_id : string -> list Z;
  (** [table("claim_headers").select("id").eq("original_claim_id", c)] *)
  headers_by_original_claim_id : string -> list Z;
  (** [table("claim_references").select("claim_header_id")
       .eq("reference_qualifier", q).eq("reference_value", c)] *)
  references_by_qualifier_and_value : string -> string -> list Z;
  (** [table("claim_references").select("claim_header_id")
       .eq("reference_value", c)] *)
  references_by_value : string -> list Z
}.

(** [bool(v)] for a value that is [None] or a string. *)
Definition truthy (v : option string) : bool :=
  match v with
  | Some s => Py.truthy s
  | None => false
  end.

Definition is_key_char (c : ascii) : bool :=
  Py.between 65 90 (Py.code c) || Py.between 48 57 (Py.code c).

(** [re.sub(r"[^A-Z0-9]", "", token)] *)
Definition re_sub_non_key (token : string) : string :=
  Py.filter_chars is_key_char token.

Definition normalize_claim_key (value : option string) : string :=
  match value with
  | None => ""
  | Some v =>
      let token := Py.upper (Py.strip v) in
      re_sub_non_key token
  end.

Definition claim_key_candidates (value : option string) : list string :=
  match value with
  | None => []
  | Some v =>
      let key := Py.strip v in
      if negb (Py.truthy key) then []
      else
        let candidates := [key] in
        let normalized := normalize_claim_key (Some key) in
        let candidates :=
          if Py.truthy normalized && negb (Py.list_mem normalized candidates)
          then candidates ++ [normalized] else candidates in
        let no_leading_zeros := Py.lstrip_char "0" key in
        if Py.truthy no_leading_zeros
           && negb (no_leading_zeros =? key)%string
        then
          let candidates := candidates ++ [no_leading_zeros] in
          let normalized_no_zeros :=
            normalize_claim_key (Some no_leading_zeros) in
          if Py.truthy normalized_no_zeros
             && negb (Py.list_mem normalized_no_zeros candidates)
          then candidates ++ [normalized_no_zeros] else candidates
        else candidates
  end.

(** [load_matching_config()["reference_qualifier_priority"]] when no
    configuration file is found. *)
Definition default_reference_qualifier_priority : list string :=
  ["1K"; "D9"; "F8"; "9A"].

(** First loop of [match_claim_header]. *)
Fixpoint match_by_claim_id (client : Client) (candidates : list string)
  : option MatchResult :=
  match candidates with
  | [] => None
  | candidate :: rest =>
      match headers_by_claim_id client candidate with
      | id :: _ => Some (mkMatchResult (Some id) "clp01" "MATCHED_CLAIM_ID")
      | [] => match_by_claim_id client rest
      end
  end.

(** Fallback 1. *)
Fixpoint match_by_original_claim_id (client : Client)
  (candidates : list string) : option MatchResult :=
  match candidates with
  | [] => None
  | candidate :: rest =>
      match headers_by_original_claim_id client candidate with
      | id :: _ =>
          Some (mkMatchResult (Some id) "clp07_original_claim_id"
                  "MATCHED_ORIGINAL_CLAIM_ID")
      | [] => match_by_original_claim_id client rest
      end
  end.

(** Fallback 2, inner loop over the qualifiers. *)
Fixpoint match_by_qualifiers (client : Client) (candidate : string)
  (qualifier_priority : list string) : option MatchResult :=
  match qualifier_priority with
  | [] => None
  | qualifier :: rest =>
      match references_by_qualifier_and_value client qualifier candidate with
      | id :: _ =>
          Some (mkMatchResult (Some id) "clp07_ref"
                  ("MATCHED_REF_" ++ qualifier))
      | [] => match_by_qualifiers client candidate rest
      end
  end.

(** Fallback 2, outer loop over the candidates. *)
Fixpoint match_by_prioritized_ref (client : Client)
  (qualifier_priority candidates : list string) : option MatchResult :=
  match candidates with
  | [] => None
  | candidate :: rest =>
      match match_by_qualifiers client candidate qualifier_priority with
      | Some r => Some r
      | None => match_by_prioritized_ref client qualifier_priority rest
      end
  end.

(** Fallback 3. *)
Fixpoint match_by_any_ref (client : Client) (candidates : list string)
  : option MatchResult :=
  match candidates with
  | [] => None
  | candidate :: rest =>
      match references_by_value client candidate with
      | id :: _ => Some (mkMatchResult (Some id) "clp07_ref" "MATCHED_REF_ANY")
      | [] => match_by_any_ref client rest
      end
  end.

(** The closing chain of [if]s. *)
Definition unmatched (pcn payer_claim_control_number : option string)
  (normalized_pcn_candidates normalized_clp07_candidates : list string)
  : MatchResult :=
  if truthy pcn && Nat.eqb (List.length normalized_pcn_candidates) 0
  then mkMatchResult None "unmatched" "UNUSABLE_CLP01"
  else if truthy payer_claim_control_number
          && Nat.eqb (List.length normalized_clp07_candidates) 0
  then mkMatchResult None "unmatched" "UNUSABLE_CLP07"
  else if truthy pcn
  then mkMatchResult None "unmatched" "NO_MATCH_CLP01_CLP07"
  else if truthy payer_claim_control_number
  then mkMatchResult None "unmatched" "NO_MATCH_CLP07"
  else mkMatchResult None "unmatched" "NO_KEYS".

(** [qualifier_priority] is what [load_matching_config()] yields for
    ["reference_qualifier_priority"]. *)
Definition match_claim_header (client : Client)
  (qualifier_priority : list string)
  (pcn payer_claim_control_number : option string) : MatchResult :=
  let normalized_pcn_candidates := claim_key_candidates pcn in
  match match_by_claim_id client normalized_pcn_candidates with
  | Some r => r
  | None =>
  let normalized_clp07_candidates :=
    claim_key_candidates payer_claim_control_number in
  match match_by_original_claim_id client normalized_clp07_candidates with
  | Some r => r
  | None =>
  match match_by_prioritized_ref client qualifier_priority
          normalized_clp07_candidates with
  | Some r => r
  | None =>
  match match_by_any_ref client normalized_clp07_candidates with
  | Some r => r
  | None =>
      unmatched pcn payer_claim_control_number
        normalized_pcn_candidates normalized_clp07_candidates
  end end end end.

(** ** A claim store held in two tables, as the unit tests build it *)

Record HeaderRow : Type := mkHeaderRow {
  row_id : Z;
  claim_id : string;
  original_claim_id : option string
}.

Record ReferenceRow : Type := mkReferenceRow {
  ref_claim_header_id : Z;
  reference_qualifier : string;
  reference_value : string
}.

Definition opt_eqb (o : option string) (s : string) : bool :=
  match o with
  | Some x => (x =? s)%string
  | None => false
  end.

Definition table_client (claim_headers : list HeaderRow)
  (claim_references : list ReferenceRow) : Client :=
  {| headers_by_claim_id := fun c =>
       map row_id (filter (fun r => (claim_id r =? c)%string) claim_headers);
     headers_by_original_claim_id := fun c =>
       map row_id (filter (fun r => opt_eqb (original_claim_id r) c) claim_headers);
     references_by_qualifier_and_value := fun q c =>
       map ref_claim_header_id
         (filter (fun r => (reference_qualifier r =? q)%string
                           && (reference_value r =? c)%string)
            claim_references);
     references_by_value := fun c =>
       map ref_claim_header_id
         (filter (fun r => (reference_value r =? c)%string) claim_references)
  |}.

(** ** The candidate list as the specification words it *)

(** Kept at its first occurrence only. *)
Fixpoint dedup_from (seen l : list string) : list string :=
  match l with
  | [] => []
  | x :: rest =>
      if Py.list_mem x seen then dedup_from seen rest
      else x :: dedup_from (x :: seen) rest
  end.

Definition dedup (l : list string) : list string := dedup_from [] l.

(** Raw trimmed value; its normalized form; the zero-stripped value when it
    differs from the raw one; the normalized form of the zero-stripped
    value. *)
Definition specified_candidates (value : option string) : list string :=
  match value with
  | None => []
  | Some v =>
      let raw := Py.strip v in
      let stripped := Py.lstrip_char "0" raw in
      [raw; normalize_claim_key (Some raw)]
      ++ (if (stripped =? raw)%string then []
          else [stripped; normalize_claim_key (Some stripped)])
  end.

(** ** Vocabulary of the matching properties *)

(** The query [q] answers no row for any of the candidates. *)
Definition misses (q : string -> list Z) (candidates : list string) : Prop :=
  Forall (fun c => q c = []) candidates.

(** [c] is the first of the candidates for which [q] answers a row, and
    [found] is the first row of that answer. *)
Definition first_hit (q : string -> list Z) (candidates : list string)
  (c : string) (found : Z) : Prop :=
  exists before after more,
    candidates = before ++ c :: after
    /\ misses q before
    /\ q c = found :: more.

(** No candidate has a reference entry under a qualifier of the priority
    list. *)
Definition no_qualified_ref (client : Client)
  (qualifier_priority candidates : list string) : Prop :=
  Forall (fun c =>
            misses (fun q => references_by_qualifier_and_value client q c)
              qualifier_priority)
    candidates.

(** [c] is the first candidate with a reference entry under a qualifier of
    the priority list, and [qualifier] the first such qualifier for [c]. *)
Definition first_qualified_ref (client : Client)
  (qualifier_priority candidates : list string)
  (c qualifier : string) (found : Z) : Prop :=
  exists before after,
    candidates = before ++ c :: after
    /\ no_qualified_ref client qualifier_priority before
    /\ first_hit (fun q => references_by_qualifier_and_value client q c)
         qualifier_priority qualifier found.

(** None of the four strategies finds a row. *)
Definition no_strategy_hits (client : Client) (qualifier_priority : list string)
  (pcn payer_claim_control_number : option string) : Prop :=
  misses (headers_by_claim_id client) (claim_key_candidates pcn)
  /\ misses (headers_by_original_claim_id client)
       (claim_key_candidates payer_claim_control_number)
  /\ no_qualified_ref client qualifier_priority
       (claim_key_candidates payer_claim_control_number)
  /\ misses (references_by_value client)
       (claim_key_candidates payer_claim_control_number).

(** A key is absent ([None] or empty), unusable (not empty, but blank) or
    usable. *)
Definition absent (v : option string) : Prop := v = None \/ v = Some "".

Definition unusable (v : option string) : Prop :=
  exists s, v = Some s /\ s <> "" /\ Py.strip s = "".

Definition usable (v : option string) : Prop :=
  exists s, v = Some s /\ Py.strip s <> "".

End ClaimMatching.

(* ================================================================== *)
(** * Built-ins of the Python runtime the parsers call                 *)
(* ================================================================== *)

(** [float], [int] and [datetime.strptime] are not code of the scripts: the
    parsers are embedded over any functions standing for them.  [None] is the
    [ValueError] the scripts catch at each call where they catch it. *)
Class Builtins : Type := mkBuiltins {
  pyfloat : Type;
  (** [float(s)] *)
  float_of_string : string -> option pyfloat;
  (** [int(s)] *)
  int_of_string : string -> option Z;
  (** [datetime.strptime(s, '%Y%m%d').strftime('%Y-%m-%d')] *)
  strptime_ymd : string -> option string
}.

Inductive exn : Type :=
| IndexError
| ValueError.

(** Outcome of a function that may raise. *)
Inductive result (A : Type) : Type :=
| Ok (a : A)
| Raise (e : exn).

Arguments Ok {A} a.
Arguments Raise {A} e.

Definition bind {A B : Type} (r : result A) (k : A -> result B) : result B :=
  match r with
  | Ok a => k a
  | Raise e => Raise e
  end.

Notation "x <- r ;; k" := (bind r (fun x => k))
  (at level 61, r at next level, right associativity).

(** A Python [set] of strings, held without repetition; [sorted] below makes
    the order it is read in canonical. *)
Definition set_add (x : string) (s : list string) : list string :=
  if Py.list_mem x s then s else s ++ [x].

Fixpoint insert_sorted (x : string) (l : list string) : list string :=
  match l with
  | [] => [x]
  | y :: rest => if String.leb x y then x :: l else y :: insert_sorted x rest
  end.

(** [sorted(s)] *)
Definition sorted (s : list string) : list string :=
  fold_right insert_sorted [] s.

(* ================================================================== *)
(** * scripts/parse_835.py                                             *)
(* ================================================================== *)

Module Parse835.
Import EdiUtils.

Definition CLP_STATUS_MAP : list (string * string) :=
  [ ("1", "Processed as Primary");
    ("2", "Processed as Secondary");
    ("3", "Processed as Tertiary");
    ("4", "Denied");
    ("19", "Processed as Primary, Forwarded to Additional Payer(s)");
    ("20", "Processed as Secondary, Forwarded to Additional Payer(s)");
    ("21", "Processed as Tertiary, Forwarded to Additional Payer(s)");
    ("22", "Reversal of Previous Payment");
    ("23", "Not Our Claim, Forwarded to Additional Payer(s)");
    ("25", "Reject into payment cycle") ].

Definition ADJUSTMENT_GROUP_MAP : list (string * string) :=
  [ ("CO", "Contractual Obligation");
    ("PR", "Patient Responsibility");
    ("OA", "Other Adjustment");
    ("PI", "Payer Initiated Reduction");
    ("CR", "Correction/Reversal") ].

Definition CARC_MAP : list (string * string) :=
  [ ("1", "Deductible Amount");
    ("2", "Coinsurance Amount");
    ("3", "Copayment Amount");
    ("4", "Procedure code inconsistent with modifier");
    ("5", "Procedure code inconsistent with place of service");
    ("6", "Procedure/revenue code inconsistent with diagnosis");
    ("9", "Services not authorized");
    ("16", "Claim lacks information needed for adjudication");
    ("18", "Exact duplicate claim/service");
    ("22", "Care may be covered by another payer");
    ("23", "Charges included in allowance for another service");
    ("24", "Charges covered under capitation");
    ("26", "Expenses incurred prior to coverage");
    ("27", "Expenses incurred after coverage");
    ("29", "Time limit for filing has expired");
    ("31", "Patient not eligible for service on date of service");
    ("35", "Lifetime benefit maximum has been reached");
    ("39", "Services denied at the time authorization/pre-certification was requested");
    ("45", "Charges exceed contracted/legislated fee arrangement");
    ("49", "Non-covered because it is a routine/preventive exam");
    ("50", "Non-covered services");
    ("55", "Procedure requires prior authorization");
    ("96", "Non-covered charge(s)");
    ("97", "Benefit not included in current contract/plan");
    ("109", "Not covered by this payer/contractor");
    ("119", "Benefit maximum for this time period/occurrence has been reached");
    ("167", "Diagnosis is not covered");
    ("197", "Precertification/authorization/notification absent");
    ("204", "Service not covered/authorized");
    ("242", "Services not provided by designated provider");
    ("252", "Service not on approved list");
    ("A1", "Claim/service denied (Claim PPS)");
    ("A6", "Prior hospitalization or 30-day transfer requirement not met");
    ("B7", "Provider not certified/eligible to be paid for this procedure");
    ("B15", "Coverage not in effect at the time the service was provided") ].

Definition safe_get (lst : list string) (idx : nat) (default : string)
  : string :=
  match nth_error lst idx with
  | Some x => x
  | None => default
  end.

Section WithBuiltins.
Context {B : Builtins}.

Definition parse_date (date_str : string) : option string :=
  if negb (Py.truthy date_str) || Nat.ltb (String.length date_str) 8
  then None
  else strptime_ymd (substring 0 8 date_str).

Definition parse_amount (amount_str : string) : option pyfloat :=
  if negb (Py.truthy amount_str) then None
  else float_of_string amount_str.

(** One adjustment dictionary; [level] is the key [extract_payments]
    adds. *)
Record Adjustment : Type := mkAdjustment {
  adjustment_group_code : string;
  adjustment_group_desc : string;
  carc_code : string;
  carc_description : string;
  adjustment_amount : option pyfloat;
  adjustment_quantity : option Z;
  level : option string
}.

(** The [summary] dictionary of [extract_payments]. *)
Record Summary : Type := mkSummary {
  warnings : list string;
  unknown_adjustment_groups : list string;
  unknown_carc_codes : list string;
  unknown_clp_status_codes : list string;
  invalid_dates : nat
}.

Definition add_unknown_group (g : string) (s : Summary) : Summary :=
  {| warnings := warnings s;
     unknown_adjustment_groups := set_add g (unknown_adjustment_groups s);
     unknown_carc_codes := unknown_carc_codes s;
     unknown_clp_status_codes := unknown_clp_status_codes s;
     invalid_dates := invalid_dates s |}.

Definition add_unknown_carc (c : string) (s : Summary) : Summary :=
  {| warnings := warnings s;
     unknown_adjustment_groups := unknown_adjustment_groups s;
     unknown_carc_codes := set_add c (unknown_carc_codes s);
     unknown_clp_status_codes := unknown_clp_status_codes s;
     invalid_dates := invalid_dates s |}.

Definition add_unknown_status (c : string) (s : Summary) : Summary :=
  {| warnings := warnings s;
     unknown_adjustment_groups := unknown_adjustment_groups s;
     unknown_carc_codes := unknown_carc_codes s;
     unknown_clp_status_codes := set_add c (unknown_clp_status_codes s);
     invalid_dates := invalid_dates s |}.

Definition count_invalid_date (s : Summary) : Summary :=
  {| warnings := warnings s;
     unknown_adjustment_groups := unknown_adjustment_groups s;
     unknown_carc_codes := unknown_carc_codes s;
     unknown_clp_status_codes := unknown_clp_status_codes s;
     invalid_dates := invalid_dates s + 1 |}.

(** The [while idx < len(seg)] loop of [parse_cas_adjustments]; [fuel]
    bounds the number of iterations. *)
Fixpoint cas_loop (fuel : nat) (seg : list string)
  (group_code group_desc : string) (idx : nat)
  (adjustments : list Adjustment) (summary : option Summary)
  : list Adjustment * option Summary :=
  match fuel with
  | O => (adjustments, summary)
  | S fuel' =>
      if negb (Nat.ltb idx (List.length seg)) then (adjustments, summary)
      else
        let carc := safe_get seg idx "" in
        if negb (Py.truthy carc) then (adjustments, summary)
        else if Py.dict_mem ADJUSTMENT_GROUP_MAP carc && negb (Nat.eqb idx 2)
        then (adjustments, summary)
        else
          let amount :=
            if Nat.ltb (idx + 1) (List.length seg)
            then parse_amount (safe_get seg (idx + 1) "") else None in
          let '(qty, idx') :=
            if Nat.ltb (idx + 2) (List.length seg)
            then
              let qty_token := safe_get seg (idx + 2) "" in
              if negb (Py.dict_mem ADJUSTMENT_GROUP_MAP qty_token)
              then (int_of_string qty_token, idx + 3)
              else (None, idx + 2)
            else (None, idx + 2) in
          let adjustments :=
            adjustments ++
            [ {| adjustment_group_code := group_code;
                 adjustment_group_desc := group_desc;
                 carc_code := carc;
                 carc_description := Py.dict_get CARC_MAP carc "";
                 adjustment_amount := amount;
                 adjustment_quantity := qty;
                 level := None |} ] in
          let summary :=
            match summary with
            | Some s =>
                if Py.truthy carc && negb (Py.dict_mem CARC_MAP carc)
                then Some (add_unknown_carc carc s) else Some s
            | None => None
            end in
          cas_loop fuel' seg group_code group_desc idx' adjustments summary
  end.

(** Returns the adjustments and the [summary] as the call leaves it. *)
Definition parse_cas_adjustments (seg : list string)
  (summary : option Summary) : list Adjustment * option Summary :=
  if Nat.ltb (List.length seg) 4 then ([], summary)
  else
    let group_code := safe_get seg 1 "" in
    let group_desc := Py.dict_get ADJUSTMENT_GROUP_MAP group_code "Unknown" in
    let summary :=
      match summary with
      | Some s =>
          if Py.truthy group_code
             && negb (Py.dict_mem ADJUSTMENT_GROUP_MAP group_code)
          then Some (add_unknown_group group_code s) else Some s
      | None => None
      end in
    cas_loop (List.length seg) seg group_code group_desc 2 [] summary.

(** The dictionary [payer_info]; an absent key is [None]. *)
Record PayerInfo : Type := mkPayerInfo {
  info_payer_name : option string;
  info_payer_id : option string
}.

(** The dictionary [check_info].  [payment_date_bpr] and
    [production_date] are only read with [.get]: an absent key and a key
    holding [None] are both [None]. *)
Record CheckInfo : Type := mkCheckInfo {
  info_payment_method_code : option string;
  info_payment_date_bpr : option string;
  info_check_number : option string;
  info_production_date : option string
}.

(** The keys of [current_payment['payment']] written by the CLP branch
    and by no later one. *)
Record ClaimPayment : Type := mkClaimPayment {
  patient_control_number : string;
  claim_status_code : string;
  claim_status_desc : string;
  total_charge_amount : option pyfloat;
  paid_amount : option pyfloat;
  patient_responsibility : option pyfloat;
  claim_filing_indicator_code : string;
  payer_claim_control_number : string;
  payer_id : string;
  payer_name : string;
  check_number : string;
  payment_method_code : string;
  file_name : string
}.

(** [current_payment['payment']].  For the four keys later segments add,
    the outer [None] is the absent key. *)
Record Payment : Type := mkPayment {
  clp : ClaimPayment;
  payment_date : option string;
  statement_start : option (option string);
  statement_end : option (option string);
  patient_last_name : option string;
  patient_first_name : option string
}.

Record ServiceLine : Type := mkServiceLine {
  procedure_code : string;
  modifier_1 : option string;
  charge_amount : option pyfloat;
  svc_paid_amount : option pyfloat;
  revenue_code : option string;
  units_paid : option pyfloat;
  svc_adjustments : list Adjustment
}.

Record PaymentRecord : Type := mkPaymentRecord {
  payment : Payment;
  service_lines : list ServiceLine;
  adjustments : list Adjustment
}.

(** The variables of the loop of [extract_payments].  [current_svc], when
    it is not [None], is the dictionary last appended to
    [current_payment['service_lines']]: the state keeps whether it is set,
    and a write through it is a write to that last element. *)
Record State : Type := mkState {
  payments : list PaymentRecord;
  current_payment : option PaymentRecord;
  current_svc : bool;
  payer_info : PayerInfo;
  check_info : CheckInfo;
  summary : Summary
}.

Definition initial_state : State :=
  {| payments := [];
     current_payment := None;
     current_svc := false;
     payer_info := mkPayerInfo None None;
     check_info := mkCheckInfo None None None None;
     summary := mkSummary [] [] [] [] 0 |}.

Definition set_level (l : string) (adj : Adjustment) : Adjustment :=
  {| adjustment_group_code := adjustment_group_code adj;
     adjustment_group_desc := adjustment_group_desc adj;
     carc_code := carc_code adj;
     carc_description := carc_description adj;
     adjustment_amount := adjustment_amount adj;
     adjustment_quantity := adjustment_quantity adj;
     level := Some l |}.

Definition append_svc_adjustments (adjs : list Adjustment)
  (svc : ServiceLine) : ServiceLine :=
  {| procedure_code := procedure_code svc;
     modifier_1 := modifier_1 svc;
     charge_amount := charge_amount svc;
     svc_paid_amount := svc_paid_amount svc;
     revenue_code := revenue_code svc;
     units_paid := units_paid svc;
     svc_adjustments := svc_adjustments svc ++ adjs |}.

Fixpoint update_last {A : Type} (f : A -> A) (l : list A) : list A :=
  match l with
  | [] => []
  | [x] => [f x]
  | x :: rest => x :: update_last f rest
  end.

Definition with_payment (f : Payment -> Payment) (cp : PaymentRecord)
  : PaymentRecord :=
  {| payment := f (payment cp);
     service_lines := service_lines cp;
     adjustments := adjustments cp |}.

Definition set_payment_date (d : option string) (p : Payment) : Payment :=
  {| clp := clp p; payment_date := d;
     statement_start := statement_start p;
     statement_end := statement_end p;
     patient_last_name := patient_last_name p;
     patient_first_name := patient_first_name p |}.

Definition set_statement_start (d : option string) (p : Payment) : Payment :=
  {| clp := clp p; payment_date := payment_date p;
     statement_start := Some d;
     statement_end := statement_end p;
     patient_last_name := patient_last_name p;
     patient_first_name := patient_first_name p |}.

Definition set_statement_end (d : option string) (p : Payment) : Payment :=
  {| clp := clp p; payment_date := payment_date p;
     statement_start := statement_start p;
     statement_end := Some d;
     patient_last_name := patient_last_name p;
     patient_first_name := patient_first_name p |}.

Definition set_patient_name (last first : string) (p : Payment) : Payment :=
  {| clp := clp p; payment_date := payment_date p;
     statement_start := statement_start p;
     statement_end := statement_end p;
     patient_last_name := Some last;
     patient_first_name := Some first |}.

(** [a or b] where [a] is [None] or a string. *)
Definition py_or (a b : option string) : option string :=
  match a with
  | Some s => if Py.truthy s then a else b
  | None => b
  end.

Definition is_some {A : Type} (o : option A) : bool :=
  match o with
  | Some _ => true
  | None => false
  end.

Definition opt_default (o : option string) (d : string) : string :=
  match o with
  | Some x => x
  | None => d
  end.

(** Body of the CLP branch. *)
Definition open_payment (file : string) (st : State) (seg : list string)
  : State :=
  let payments :=
    match current_payment st with
    | Some cp => payments st ++ [cp]
    | None => payments st
    end in
  let status_code := safe_get seg 2 "" in
  let filing_code := safe_get seg 6 "" in
  let control_number := safe_get seg 7 "" in
  let summary :=
    if Py.truthy status_code && negb (Py.dict_mem CLP_STATUS_MAP status_code)
    then add_unknown_status status_code (summary st) else summary st in
  {| payments := payments;
     current_payment := Some
       {| payment :=
            {| clp :=
                 {| patient_control_number := safe_get seg 1 "";
                    claim_status_code := status_code;
                    claim_status_desc :=
                      Py.dict_get CLP_STATUS_MAP status_code "";
                    total_charge_amount := parse_amount (safe_get seg 3 "");
                    paid_amount := parse_amount (safe_get seg 4 "");
                    patient_responsibility :=
                      parse_amount (safe_get seg 5 "");
                    claim_filing_indicator_code := filing_code;
                    payer_claim_control_number := control_number;
                    payer_id :=
                      opt_default (info_payer_id (payer_info st)) "";
                    payer_name :=
                      opt_default (info_payer_name (payer_info st)) "";
                    check_number :=
                      opt_default (info_check_number (check_info st)) "";
                    payment_method_code :=
                      opt_default
                        (info_payment_method_code (check_info st)) "";
                    file_name := file |};
               payment_date := info_payment_date_bpr (check_info st);
               statement_start := None;
               statement_end := None;
               patient_last_name := None;
               patient_first_name := None |};
          service_lines := [];
          adjustments := [] |};
     current_svc := false;
     payer_info := payer_info st;
     check_info := check_info st;
     summary := summary |}.

(** Body of the SVC branch; [proc_parts[0]] raises on an empty list. *)
Definition open_service_line (component_sep : string) (st : State)
  (cp : PaymentRecord) (seg : list string) : result State :=
  let proc_info := safe_get seg 1 "" in
  let proc_parts := split_composite proc_info component_sep in
  code <- (if Nat.leb 2 (List.length proc_parts)
           then Ok (nth 1 proc_parts "")
           else match proc_parts with
                | first :: _ => Ok first
                | [] => Raise IndexError
                end) ;;
  let svc :=
    {| procedure_code := code;
       modifier_1 := if Nat.leb 3 (List.length proc_parts)
                     then nth_error proc_parts 2 else None;
       charge_amount := parse_amount (safe_get seg 2 "");
       svc_paid_amount := parse_amount (safe_get seg 3 "");
       revenue_code := if Nat.leb 5 (List.length seg)
                       then nth_error seg 4 else None;
       units_paid := if Nat.leb 6 (List.length seg)
                     then parse_amount (safe_get seg 5 "") else None;
       svc_adjustments := [] |} in
  Ok {| payments := payments st;
        current_payment := Some
          {| payment := payment cp;
             service_lines := service_lines cp ++ [svc];
             adjustments := adjustments cp |};
        current_svc := true;
        payer_info := payer_info st;
        check_info := check_info st;
        summary := summary st |}.

(** Body of the DTM branch taken while a payment is open. *)
Definition payment_dates (st : State) (cp : PaymentRecord)
  (seg : list string) : State :=
  let qual := safe_get seg 1 "" in
  let date_val := parse_date (safe_get seg 2 "") in
  let summary :=
    if Py.truthy (safe_get seg 2 "") && negb (is_some date_val)
    then count_invalid_date (summary st) else summary st in
  let cp :=
    if (qual =? "573")%string || (qual =? "050")%string
    then with_payment
           (fun p => set_payment_date (py_or date_val (payment_date p)) p) cp
    else if (qual =? "232")%string
    then with_payment (set_statement_start date_val) cp
    else if (qual =? "233")%string
    then with_payment (set_statement_end date_val) cp
    else cp in
  {| payments := payments st;
     current_payment := Some cp;
     current_svc := current_svc st;
     payer_info := payer_info st;
     check_info := check_info st;
     summary := summary |}.

Definition with_current (st : State) (cp : PaymentRecord) (s : Summary)
  : State :=
  {| payments := payments st;
     current_payment := Some cp;
     current_svc := current_svc st;
     payer_info := payer_info st;
     check_info := check_info st;
     summary := s |}.

Definition with_infos (st : State) (p : PayerInfo) (c : CheckInfo) : State :=
  {| payments := payments st;
     current_payment := current_payment st;
     current_svc := current_svc st;
     payer_info := p;
     check_info := c;
     summary := summary st |}.

(** [parse_cas_adjustments(seg, summary)] as [extract_payments] calls it:
    the adjustments, and [summary] after the call. *)
Definition cas_of (st : State) (seg : list string)
  : list Adjustment * Summary :=
  let r := parse_cas_adjustments seg (Some (summary st)) in
  (fst r, match snd r with Some s => s | None => summary st end).

(** One iteration of the [for seg in segments] loop: the [if]/[elif]
    chain, in the order of the source.  In a branch whose guard holds only
    with [current_payment] set, the [None] case is never reached. *)
Definition step (file component_sep : string) (st : State)
  (seg : list string) : result State :=
  match seg with
  | [] => Raise IndexError
  | seg_id :: _ =>
      let len := List.length seg in
      let open := is_some (current_payment st) in
      if (seg_id =? "ISA")%string && Nat.leb 16 len then Ok st
      else if (seg_id =? "N1")%string && (safe_get seg 1 "" =? "PR")%string
              && Nat.leb 4 len
      then Ok (with_infos st
                 {| info_payer_name := Some (safe_get seg 2 "");
                    info_payer_id :=
                      if Nat.leb 5 len then Some (safe_get seg 4 "")
                      else info_payer_id (payer_info st) |}
                 (check_info st))
      else if (seg_id =? "N1")%string && (safe_get seg 1 "" =? "PE")%string
      then Ok st
      else if (seg_id =? "BPR")%string && Nat.leb 2 len
      then Ok (with_infos st (payer_info st)
                 {| info_payment_method_code := Some (safe_get seg 4 "");
                    info_payment_date_bpr :=
                      if Nat.leb 16 len then parse_date (safe_get seg 16 "")
                      else info_payment_date_bpr (check_info st);
                    info_check_number := info_check_number (check_info st);
                    info_production_date :=
                      info_production_date (check_info st) |})
      else if (seg_id =? "TRN")%string && Nat.leb 3 len
      then Ok (with_infos st (payer_info st)
                 {| info_payment_method_code :=
                      info_payment_method_code (check_info st);
                    info_payment_date_bpr :=
                      info_payment_date_bpr (check_info st);
                    info_check_number := Some (safe_get seg 2 "");
                    info_production_date :=
                      info_production_date (check_info st) |})
      else if (seg_id =? "DTM")%string && negb open && Nat.leb 3 len
      then
        if (safe_get seg 1 "" =? "405")%string
        then Ok (with_infos st (payer_info st)
                   {| info_payment_method_code :=
                        info_payment_method_code (check_info st);
                      info_payment_date_bpr :=
                        info_payment_date_bpr (check_info st);
                      info_check_number := info_check_number (check_info st);
                      info_production_date :=
                        parse_date (safe_get seg 2 "") |})
        else Ok st
      else if (seg_id =? "CLP")%string && Nat.leb 5 len
      then Ok (open_payment file st seg)
      else if (seg_id =? "CAS")%string && open && negb (current_svc st)
              && Nat.leb 4 len
      then
        match current_payment st with
        | Some cp =>
            let '(adjs, s) := cas_of st seg in
            Ok (with_current st
                  {| payment := payment cp;
                     service_lines := service_lines cp;
                     adjustments :=
                       adjustments cp ++ map (set_level "claim") adjs |}
                  s)
        | None => Ok st
        end
      else if (seg_id =? "SVC")%string && open && Nat.leb 4 len
      then
        match current_payment st with
        | Some cp => open_service_line component_sep st cp seg
        | None => Ok st
        end
      else if (seg_id =? "CAS")%string && current_svc st && Nat.leb 4 len
      then
        match current_payment st with
        | Some cp =>
            let '(adjs, s) := cas_of st seg in
            Ok (with_current st
                  {| payment := payment cp;
                     service_lines :=
                       update_last
                         (append_svc_adjustments (map (set_level "line") adjs))
                         (service_lines cp);
                     adjustments := adjustments cp |}
                  s)
        | None => Ok st
        end
      else if (seg_id =? "DTM")%string && open && Nat.leb 3 len
      then
        match current_payment st with
        | Some cp => Ok (payment_dates st cp seg)
        | None => Ok st
        end
      else if (seg_id =? "NM1")%string && (safe_get seg 1 "" =? "QC")%string
              && open && Nat.leb 4 len
      then
        match current_payment st with
        | Some cp =>
            Ok (with_current st
                  (with_payment
                     (set_patient_name (safe_get seg 3 "") (safe_get seg 4 ""))
                     cp)
                  (summary st))
        | None => Ok st
        end
      else Ok st
  end.

(** The [for] loop. *)
Fixpoint run (file component_sep : string) (st : State)
  (segments : list (list string)) : result State :=
  match segments with
  | [] => Ok st
  | seg :: rest =>
      st' <- step file component_sep st seg ;;
      run file component_sep st' rest
  end.

(** What follows the loop: the last payment, then [parse_summary]. *)
Definition finish (st : State) : list PaymentRecord * Summary :=
  let payments :=
    match current_payment st with
    | Some cp => payments st ++ [cp]
    | None => payments st
    end in
  (payments,
   {| warnings := warnings (summary st);
      unknown_adjustment_groups :=
        sorted (unknown_adjustment_groups (summary st));
      unknown_carc_codes := sorted (unknown_carc_codes (summary st));
      unknown_clp_status_codes :=
        sorted (unknown_clp_status_codes (summary st));
      invalid_dates := invalid_dates (summary st) |}).

Definition extract_payments (segments : list (list string))
  (file component_sep : string) : result (list PaymentRecord * Summary) :=
  st <- run file component_sep initial_state segments ;;
  Ok (finish st).

(** ** Vocabulary of the adjustment and payment properties *)

Definition adjustment_entry (group_code group_desc carc : string)
  (amount : option pyfloat) (qty : option Z) : Adjustment :=
  {| adjustment_group_code := group_code;
     adjustment_group_desc := group_desc;
     carc_code := carc;
     carc_description := Py.dict_get CARC_MAP carc "";
     adjustment_amount := amount;
     adjustment_quantity := qty;
     level := None |}.

(** Group code, reason code, amount and quantity of an entry. *)
Definition adjustment_key (a : Adjustment)
  : string * string * option pyfloat * option Z :=
  (adjustment_group_code a, carc_code a, adjustment_amount a,
   adjustment_quantity a).

(** The walk over the elements that follow the group code.  Each turn reads a
    reason and an amount.  A third element that is a group code is left out
    and ends the walk; any other third element is read as the quantity, and
    the walk goes on after it.  An empty reason ends the walk, and so does a
    reason that is a group code, unless it is the first. *)
Fixpoint walk_triplets (group_code group_desc : string) (first : bool)
  (elements : list string) : list Adjustment :=
  match elements with
  | [] => []
  | reason :: after_reason =>
      if negb (Py.truthy reason) then []
      else if Py.dict_mem ADJUSTMENT_GROUP_MAP reason && negb first then []
      else
        match after_reason with
        | [] => [adjustment_entry group_code group_desc reason None None]
        | [amount] =>
            [adjustment_entry group_code group_desc reason
               (parse_amount amount) None]
        | amount :: third :: rest =>
            if Py.dict_mem ADJUSTMENT_GROUP_MAP third
            then [adjustment_entry group_code group_desc reason
                    (parse_amount amount) None]
            else adjustment_entry group_code group_desc reason
                   (parse_amount amount) (int_of_string third)
                 :: walk_triplets group_code group_desc false rest
        end
  end.

(** The payment list of a call that returned. *)
Definition returned_payments (r : result (list PaymentRecord * Summary))
  : option (list PaymentRecord) :=
  match r with
  | Ok (ps, _) => Some ps
  | Raise _ => None
  end.

(** A CLP segment that opens a payment. *)
Definition opens_payment (seg : list string) : bool :=
  (hd "" seg =? "CLP")%string && Nat.leb 5 (List.length seg).

(** A segment on which [step] raises nothing: it has an identifier, and it is
    no SVC segment of four elements or more with an empty first element. *)
Definition harmless (seg : list string) : bool :=
  match seg with
  | [] => false
  | seg_id :: _ =>
      negb ((seg_id =? "SVC")%string && Nat.leb 4 (List.length seg)
            && negb (Py.truthy (safe_get seg 1 "")))
  end.

End WithBuiltins.

End Parse835.

(* ================================================================== *)
(** * scripts/parse_837p.py: the diagnoses of a claim block            *)
(* ================================================================== *)

Module Parse837p.
Import EdiUtils.

Definition DIAGNOSIS_TYPE_MAP : list (string * string) :=
  [ ("ABK", "principal"); ("ABJ", "principal"); ("ABF", "other");
    ("APR", "reason_for_visit"); ("ABN", "reason_for_visit");
    ("BBR", "admitting"); ("BBQ", "other");
    ("BP", "external_cause"); ("BG", "drg"); ("DR", "drg") ].

Record Diagnosis : Type := mkDiagnosis {
  diagnosis_code : string;
  diagnosis_type : string;
  code_qualifier : string;
  sequence_number : nat
}.

(** The loop [for i in range(1, len(seg))] of the HI branch, over the
    elements [seg[1:]]. *)
Fixpoint hi_elements (component_sep : string) (elements : list string)
  (diagnoses : list Diagnosis) : list Diagnosis :=
  match elements with
  | [] => diagnoses
  | element :: rest =>
      let parts := split_composite element component_sep in
      if Nat.leb 2 (List.length parts)
      then
        let qualifier := nth 0 parts "" in
        let code := nth 1 parts "" in
        hi_elements component_sep rest
          (diagnoses ++
           [ {| diagnosis_code := code;
                diagnosis_type :=
                  Py.dict_get DIAGNOSIS_TYPE_MAP qualifier "other";
                code_qualifier := qualifier;
                sequence_number := List.length diagnoses + 1 |} ])
      else hi_elements component_sep rest diagnoses
  end.

(** The variables of the loop of [extract_claim] that decide its
    [diagnoses]: the list itself, [in_header], which guards the HI branch,
    and [current_line_number], on which the SV1 and line-level DTP branches
    call [int]. *)
Record State : Type := mkState {
  in_header : bool;
  current_line_number : option string;
  diagnoses : list Diagnosis
}.

Definition initial_state : State :=
  {| in_header := true; current_line_number := None; diagnoses := [] |}.

Section WithBuiltins.
Context {B : Builtins}.

(** [int(current_line_number) if current_line_number.isdigit() else 1] *)
Definition line_number (current : string) : result Z :=
  if Py.isdigit current
  then match int_of_string current with
       | Some n => Ok n
       | None => Raise ValueError
       end
  else Ok 1%Z.

(** One iteration of the loop of [extract_claim], restricted to [State].
    The branches for CLM, SBR, NM1, PRV, REF and header-level DTP test
    [seg_id] against their own identifier, write none of the three
    variables and raise nothing: each leaves [State] as it is. *)
Definition step (component_sep : string) (st : State) (seg : list string)
  : result State :=
  match seg with
  | [] => Raise IndexError
  | seg_id :: elements =>
      let len := List.length seg in
      let line_open :=
        match current_line_number st with
        | Some n => Py.truthy n
        | None => false
        end in
      if (seg_id =? "HI")%string && in_header st
      then Ok {| in_header := in_header st;
                 current_line_number := current_line_number st;
                 diagnoses :=
                   hi_elements component_sep elements (diagnoses st) |}
      else if (seg_id =? "LX")%string && Nat.leb 2 len
      then Ok {| in_header := false;
                 current_line_number := Some (Parse835.safe_get seg 1 "");
                 diagnoses := diagnoses st |}
      else if ((seg_id =? "SV1")%string && line_open && Nat.leb 5 len)
              || ((seg_id =? "DTP")%string && negb (in_header st)
                  && line_open && Nat.leb 4 len)
      then
        match current_line_number st with
        | Some n => _ <- line_number n ;; Ok st
        | None => Ok st
        end
      else Ok st
  end.

Fixpoint run (component_sep : string) (st : State)
  (block : list (list string)) : result State :=
  match block with
  | [] => Ok st
  | seg :: rest =>
      st' <- step component_sep st seg ;;
      run component_sep st' rest
  end.

(** [extract_claim(block, file_name, component_sep)['diagnoses']] *)
Definition extract_claim_diagnoses (block : list (list string))
  (component_sep : string) : result (list Diagnosis) :=
  st <- run component_sep initial_state block ;;
  Ok (diagnoses st).

End WithBuiltins.

(** ** The entries of an HI segment, read off its composites *)

(** Qualifier and code of each composite with at least two components. *)
Definition composites (component_sep : string) (elements : list string)
  : list (string * string) :=
  flat_map
    (fun element =>
       let parts := split_composite element component_sep in
       if Nat.leb 2 (List.length parts)
       then [(nth 0 parts "", nth 1 parts "")] else [])
    elements.

(** Entries numbered in order, after [n] earlier ones. *)
Fixpoint entries_after (n : nat) (l : list (string * string))
  : list Diagnosis :=
  match l with
  | [] => []
  | (qualifier, code) :: rest =>
      {| diagnosis_code := code;
         diagnosis_type := Py.dict_get DIAGNOSIS_TYPE_MAP qualifier "other";
         code_qualifier := qualifier;
         sequence_number := n + 1 |} :: entries_after (S n) rest
  end.

(** Type of the first entry. *)
Definition first_type (ds : list Diagnosis) : option string :=
  option_map diagnosis_type (hd_error ds).

End Parse837p.

(* ================================================================== *)
(** * A runtime to evaluate the parsers on sample documents            *)
(* ================================================================== *)

(** Plain ASCII literals only: signed decimals for [float], signed digit
    strings for [int], and eight digits naming a calendar day of the years
    1000 to 9999 for [strptime].  On these Python computes the same values (a
    [float] is here the rational the literal denotes); everything else is
    refused. *)
Module Sample.

Definition digit (c : ascii) : option Z :=
  if Py.between 48 57 (Py.code c)
  then Some (Z.of_nat (Py.code c - 48)) else None.

Fixpoint digits_from (acc : Z) (s : string) : option Z :=
  match s with
  | EmptyString => Some acc
  | String c s' =>
      match digit c with
      | Some d => digits_from (10 * acc + d)%Z s'
      | None => None
      end
  end.

Definition digits (s : string) : option Z :=
  if Py.truthy s then digits_from 0%Z s else None.

Definition signed (s : string) : bool * string :=
  match s with
  | String "-" r => (true, r)
  | String "+" r => (false, r)
  | _ => (false, s)
  end.

Definition int_literal (s : string) : option Z :=
  let '(neg, body) := signed s in
  option_map (fun n => if neg then (- n)%Z else n) (digits body).

Definition float_literal (s : string) : option Q :=
  let '(neg, body) := signed s in
  let sign := fun n : Z => if neg then (- n)%Z else n in
  match Py.split body "." with
  | [whole] => option_map (fun n => Qmake (sign n) 1) (digits whole)
  | [whole; frac] =>
      match digits whole, digits frac with
      | Some w, Some f =>
          let scale := Z.pow 10 (Z.of_nat (String.length frac)) in
          Some (Qred (Qmake (sign (w * scale + f)%Z) (Z.to_pos scale)))
      | _, _ => None
      end
  | _ => None
  end.

Definition leap (y : Z) : bool :=
  (Z.eqb (y mod 4) 0 && negb (Z.eqb (y mod 100) 0)) || Z.eqb (y mod 400) 0.

Definition days_in (y m : Z) : Z :=
  if Z.eqb m 2 then (if leap y then 29 else 28)%Z
  else if Z.eqb m 4 || Z.eqb m 6 || Z.eqb m 9 || Z.eqb m 11 then 30%Z
  else 31%Z.

Definition ymd (s : string) : option string :=
  if negb (Nat.eqb (String.length s) 8) then None
  else
    match digits (substring 0 4 s), digits (substring 4 2 s),
          digits (substring 6 2 s) with
    | Some y, Some m, Some d =>
        if Z.leb 1000 y && Z.leb 1 m && Z.leb m 12
           && Z.leb 1 d && Z.leb d (days_in y m)
        then Some (substring 0 4 s ++ "-" ++ substring 4 2 s ++ "-"
                   ++ substring 6 2 s)%string
        else None
    | _, _, _ => None
    end.

(** The envelope the unit tests build, with [|] between elements. *)
Definition isa_bar : string :=
  "ISA|00|          |00|          |ZZ|SENDERID       |ZZ|RECEIVERID     |260221|1230|^|00501|000000001|0|P|:~".

(** The same envelope with [^] between elements. *)
Definition isa_caret : string :=
  "ISA^00^          ^00^          ^ZZ^SENDERID       ^ZZ^RECEIVERID     ^260221^1230^^^00501^000000001^0^P^:~".

(** The same envelope with a space for component separator. *)
Definition isa_blank_component : string :=
  "ISA|00|          |00|          |ZZ|SENDERID       |ZZ|RECEIVERID     |260221|1230|^|00501|000000001|0|P| ~".

(** A claim-payment segment. *)
Definition clp_segment : list string :=
  ["CLP"; "PCN1"; "1"; "100.00"; "80.00"; "20.00"; "MC"; "CTRL7"].

Definition runtime : Builtins :=
  {| pyfloat := Q;
     float_of_string := float_literal;
     int_of_string := int_literal;
     strptime_ymd := ymd |}.

End Sample.

(* ================================================================== *)
(** * Further vocabulary of the tokenizer properties                   *)
(* ================================================================== *)

Module Tokens.
Import EdiUtils.

(** [sep.join(parts)] *)
Definition join (sep : string) (parts : list string) : string :=
  String.concat sep parts.

(** The character [c] does not occur in [s]. *)
Definition free_of (c : ascii) (s : string) : bool :=
  Py.all_chars (fun x => negb (Ascii.eqb x c)) s.

(** The text of a document: each segment's elements joined by [e], each
    segment followed by the terminator [t]. *)
Fixpoint document (t e : ascii) (segments : list (list string)) : string :=
  match segments with
  | [] => ""
  | seg :: rest => join (one e) seg ++ String t (document t e rest)
  end.

(** A segment the tokenizer gives back as it is: it has an element, none of
    its elements holds a separator, and cleaning leaves its text, which is
    not empty, unchanged. *)
Definition plain_segment (t e : ascii) (seg : list string) : Prop :=
  seg <> []
  /\ Forall (fun x => free_of t x = true /\ free_of e x = true) seg
  /\ clean_segment (join (one e) seg) = join (one e) seg
  /\ join (one e) seg <> "".

End Tokens.

(* ================================================================== *)
(** * Further vocabulary of the matching properties                    *)
(* ================================================================== *)

Module Matches.
Import PipelineModels ClaimMatching.

(** [found] is the first row the query [q] answers for one of the
    candidates. *)
Definition answered (q : string -> list Z) (candidates : list string)
  (found : Z) : Prop :=
  exists c, In c candidates /\ hd_error (q c) = Some found.

End Matches.

(* ================================================================== *)
(** * Further vocabulary of the payment properties                     *)
(* ================================================================== *)

Module Payments.
Import Parse835.

(** A CAS segment the loop of [extract_payments] may decode. *)
Definition is_cas (seg : list string) : bool :=
  (hd "" seg =? "CAS")%string && Nat.leb 4 (List.length seg).

(** A DTM segment read while a payment is open whose date is given and does
    not parse. *)
Definition bad_date {B : Builtins} (seg : list string) : bool :=
  (hd "" seg =? "DTM")%string && Nat.leb 3 (List.length seg)
  && Py.truthy (safe_get seg 2 "")
  && negb (is_some (parse_date (safe_get seg 2 ""))).

Section WithBuiltins.
Context {B : Builtins}.

(** The two identifiers of a payment the matcher is given. *)
Definition control_numbers (p : PaymentRecord) : string * string :=
  (patient_control_number (clp (payment p)),
   payer_claim_control_number (clp (payment p))).

(** The same two identifiers, read off a CLP segment. *)
Definition segment_control_numbers (seg : list string) : string * string :=
  (safe_get seg 1 "", safe_get seg 7 "").

(** Number of adjustment entries a payment holds, at claim level and under
    its service lines. *)
Definition adjustment_count (p : PaymentRecord) : nat :=
  List.length (adjustments p)
  + list_sum (map (fun l => List.length (svc_adjustments l)) (service_lines p)).

(** Closed payments, then the open one. *)
Definition all_payments (st : State) : list PaymentRecord :=
  payments st ++ match current_payment st with
                 | Some cp => [cp]
                 | None => []
                 end.

(** The segments met while a payment is open that open no payment
    themselves; [open] tells whether one is open at the start. *)
Fixpoint payment_segments (open : bool) (segs : list (list string))
  : list (list string) :=
  match segs with
  | [] => []
  | seg :: rest =>
      if opens_payment seg then payment_segments true rest
      else if open then seg :: payment_segments open rest
      else payment_segments open rest
  end.

(** The CAS segments the loop of [extract_payments] decodes. *)
Definition decoded_cas (open : bool) (segs : list (list string))
  : list (list string) :=
  filter is_cas (payment_segments open segs).

(** The adjustments read from one CAS segment. *)
Definition entries_of (seg : list string) : list Adjustment :=
  fst (parse_cas_adjustments seg None).

(** A CLP segment whose status code the summary records as unknown. *)
Definition unknown_status (seg : list string) : bool :=
  opens_payment seg && Py.truthy (safe_get seg 2 "")
  && negb (Py.dict_mem CLP_STATUS_MAP (safe_get seg 2 "")).

(** An SVC segment of four elements or more whose procedure composite is
    empty. *)
Definition empty_procedure (seg : list string) : bool :=
  (hd "" seg =? "SVC")%string && Nat.leb 4 (List.length seg)
  && negb (Py.truthy (safe_get seg 1 "")).

(** The state keeps a service line to attach adjustments to whenever
    [current_svc] is set. *)
Definition svc_attached (st : State) : Prop :=
  current_svc st = true ->
  exists cp, current_payment st = Some cp /\ service_lines cp <> [].

(** The levels of the adjustments of a payment are those of the lists that
    hold them. *)
Definition levels_agree (p : PaymentRecord) : Prop :=
  Forall (fun a => level a = Some "claim") (adjustments p)
  /\ Forall (fun l => Forall (fun a => level a = Some "line")
                        (svc_adjustments l))
       (service_lines p).

(** The parse summary of a call that returned. *)
Definition returned_summary (r : result (list PaymentRecord * Summary))
  : option Summary :=
  match r with
  | Ok (_, s) => Some s
  | Raise _ => None
  end.

End WithBuiltins.

End Payments.

(* ================================================================== *)
(** * scripts/parse_835.py: a whole file                               *)
(* ================================================================== *)

Module Parse835File.
Import EdiUtils Parse835.

Section WithBuiltins.
Context {B : Builtins}.

(** What [parse_835_file] returns, but for [file_hash], the digest of the
    bytes of the file. *)
Record ParsedFile : Type := mkParsedFile {
  parsed_file_name : string;
  parsed_file_type : string;
  record_count : nat;
  parse_summary : Summary;
  segment_delimiter : string;
  element_delimiter : string;
  component_delimiter : string;
  parsed_payments : list PaymentRecord
}.

(** [parse_835_file(file_path)], given the base name of the path and the
    text read from it. *)
Definition parse_835_file (file_name content : string) : result ParsedFile :=
  let '(segments, delimiters) := parse_edi_content content in
  let component_sep := component delimiters in
  r <- extract_payments segments file_name component_sep ;;
  let '(payments, summary) := r in
  Ok {| parsed_file_name := file_name;
        parsed_file_type := "835";
        record_count := List.length payments;
        parse_summary := summary;
        segment_delimiter := segment delimiters;
        element_delimiter := element delimiters;
        component_delimiter := component delimiters;
        parsed_payments := payments |}.

End WithBuiltins.

End Parse835File.

(* ================================================================== *)
(** * scripts/parse_837p.py: claim blocks                              *)
(* ================================================================== *)

Module ClaimBlocks.

(** Truth value of a list. *)
Definition nonempty {A : Type} (l : list A) : bool :=
  match l with
  | [] => false
  | _ :: _ => true
  end.

(** The loop of [get_claim_blocks], over the segments left. *)
Fixpoint blocks_loop (blocks : list (list (list string)))
  (current : list (list string)) (segments : list (list string))
  : result (list (list (list string)) * list (list string)) :=
  match segments with
  | [] => Ok (blocks, current)
  | seg :: rest =>
      match seg with
      | [] => Raise IndexError
      | seg_id :: _ =>
          if (seg_id =? "HL")%string && Nat.leb 4 (List.length seg)
             && (nth 3 seg "" =? "22")%string
          then blocks_loop
                 (if nonempty current then blocks ++ [current] else blocks)
                 [seg] rest
          else if nonempty current
          then blocks_loop blocks (current ++ [seg]) rest
          else blocks_loop blocks current rest
      end
  end.

Definition get_claim_blocks (segments : list (list string))
  : result (list (list (list string))) :=
  r <- blocks_loop [] [] segments ;;
  let '(blocks, current) := r in
  Ok (if nonempty current then blocks ++ [current] else blocks).

(** ** Vocabulary of the block properties *)

(** A subscriber-level HL segment: it starts a block. *)
Definition starts_claim (seg : list string) : bool :=
  (hd "" seg =? "HL")%string && Nat.leb 4 (List.length seg)
  && (nth 3 seg "" =? "22")%string.

(** The segments from the first block start on. *)
Fixpoint from_first_claim (segments : list (list string))
  : list (list string) :=
  match segments with
  | [] => []
  | seg :: rest =>
      if starts_claim seg then segments else from_first_claim rest
  end.

(** A block start followed by segments that start no block. *)
Definition claim_block (block : list (list string)) : Prop :=
  exists first rest,
    block = first :: rest
    /\ starts_claim first = true
    /\ Forall (fun seg => starts_claim seg = false) rest.

End ClaimBlocks.

(* ================================================================== *)
(** * scripts/parse_837p.py: the diagnoses of a whole block            *)
(* ================================================================== *)

Module BlockDiagnoses.
Import Parse837p.

(** An LX segment that ends the header of a claim block. *)
Definition ends_header (seg : list string) : bool :=
  (hd "" seg =? "LX")%string && Nat.leb 2 (List.length seg).

(** The segments before the first LX segment of two elements or more. *)
Fixpoint header_of (block : list (list string)) : list (list string) :=
  match block with
  | [] => []
  | seg :: rest => if ends_header seg then [] else seg :: header_of rest
  end.

(** Qualifier and code of the composites of the HI segments, in order. *)
Definition hi_composites (component_sep : string)
  (segments : list (list string)) : list (string * string) :=
  flat_map
    (fun seg =>
       if (hd "" seg =? "HI")%string
       then composites component_sep (tl seg) else [])
    segments.

End BlockDiagnoses.

(* ================================================================== *)
(** * Python dictionaries with string keys and values                  *)
(* ================================================================== *)

(** A [dict] keeps its keys in the order they were first set. *)
Module PyDict.

Definition Dict : Type := list (string * string).

(** [d.get(k)] *)
Fixpoint lookup (d : Dict) (k : string) : option string :=
  match d with
  | [] => None
  | (k', v) :: d' => if (k' =? k)%string then Some v else lookup d' k
  end.

(** [d[k] = v] *)
Fixpoint set (d : Dict) (k v : string) : Dict :=
  match d with
  | [] => [(k, v)]
  | (k', v') :: d' =>
      if (k' =? k)%string then (k', v) :: d' else (k', v') :: set d' k v
  end.

(** [d.update(other)] *)
Definition update (d other : Dict) : Dict :=
  fold_left (fun acc kv => set acc (fst kv) (snd kv)) other d.

(** [bool(v)] for what [d.get(k)] returns. *)
Definition truthy (v : option string) : bool :=
  match v with
  | Some s => Py.truthy s
  | None => false
  end.

End PyDict.

(* ================================================================== *)
(** * scripts/parse_837p.py: file-level data                           *)
(* ================================================================== *)

Module FileMetadata.
Import PyDict.

(** [safe_get(lst, idx, default)] of parse_837p.py. *)
Definition safe_get (lst : list string) (idx : nat) (default : string)
  : string :=
  match nth_error lst idx with
  | Some x => x
  | None => default
  end.

(** The dictionary the NM1*85 branch builds. *)
Definition billing_provider_of (seg : list string) : Dict :=
  [ ("provider_role", "billing");
    ("entity_identifier_code", "85");
    ("entity_type_qualifier", safe_get seg 2 "");
    ("last_or_org_name", safe_get seg 3 "");
    ("first_name", safe_get seg 4 "");
    ("id_code_qualifier", safe_get seg 8 "");
    ("npi", safe_get seg 9 "") ].

(** One iteration of the loop of [extract_file_metadata], on [metadata] and
    [billing_provider]. *)
Definition step (st : Dict * option Dict) (seg : list string)
  : result (Dict * option Dict) :=
  let '(metadata, billing_provider) := st in
  match seg with
  | [] => Raise IndexError
  | seg_id :: _ =>
      let len := List.length seg in
      if (seg_id =? "ISA")%string && Nat.leb 16 len
      then Ok (set (set metadata "sender_id" (Py.strip (safe_get seg 6 "")))
                 "receiver_id" (Py.strip (safe_get seg 8 "")),
               billing_provider)
      else if (seg_id =? "GS")%string && Nat.leb 9 len
      then Ok (set (set (set metadata "transaction_type" (safe_get seg 1 ""))
                      "gs_sender" (safe_get seg 2 ""))
                 "gs_receiver" (safe_get seg 3 ""),
               billing_provider)
      else if (seg_id =? "ST")%string && Nat.leb 2 len
      then Ok (set metadata "transaction_set" (safe_get seg 1 ""),
               billing_provider)
      else if (seg_id =? "NM1")%string && (safe_get seg 1 "" =? "85")%string
              && Nat.leb 10 len
      then Ok (metadata, Some (billing_provider_of seg))
      else if (seg_id =? "PRV")%string && (safe_get seg 1 "" =? "BI")%string
              && ClaimBlocks.nonempty
                   (match billing_provider with Some d => d | None => [] end)
              && Nat.leb 4 len
      then Ok (metadata,
               option_map (fun d => set d "taxonomy_code" (safe_get seg 3 ""))
                 billing_provider)
      else Ok st
  end.

Fixpoint run (st : Dict * option Dict) (segments : list (list string))
  : result (Dict * option Dict) :=
  match segments with
  | [] => Ok st
  | seg :: rest => st' <- step st seg ;; run st' rest
  end.

Definition extract_file_metadata (segments : list (list string))
  (file_name : string) : result (Dict * option Dict) :=
  run ([("file_name", file_name)], None) segments.

(** ** Vocabulary of the metadata properties *)

Definition is_isa (seg : list string) : bool :=
  (hd "" seg =? "ISA")%string && Nat.leb 16 (List.length seg).

Definition is_gs (seg : list string) : bool :=
  (hd "" seg =? "GS")%string && Nat.leb 9 (List.length seg).

Definition is_st (seg : list string) : bool :=
  (hd "" seg =? "ST")%string && Nat.leb 2 (List.length seg).

(** An NM1*85 segment of ten elements or more. *)
Definition is_billing (seg : list string) : bool :=
  (hd "" seg =? "NM1")%string && (safe_get seg 1 "" =? "85")%string
  && Nat.leb 10 (List.length seg).

(** A PRV*BI segment of four elements or more. *)
Definition is_taxonomy (seg : list string) : bool :=
  (hd "" seg =? "PRV")%string && (safe_get seg 1 "" =? "BI")%string
  && Nat.leb 4 (List.length seg).

(** The last segment of a kind. *)
Definition last_such (p : list string -> bool)
  (segments : list (list string)) : option (list string) :=
  List.find p (rev segments).

End FileMetadata.

(* ================================================================== *)
(** * Sample documents                                                 *)
(* ================================================================== *)

Module Documents.

(** Two payments.  The first has a claim-level adjustment, a service line
    with an adjustment of its own and a date that does not parse; the second
    has a status code, a group code and a reason code the tables lack. *)
Definition remittance : list (list string) :=
  [ ["N1"; "PR"; "PAYER"; "XV"; "P01"];
    ["CAS"; "PR"; "1"; "20.00"];
    Sample.clp_segment;
    ["CAS"; "PR"; "1"; "20.00"];
    ["SVC"; "HC:99213"; "100.00"; "80.00"];
    ["CAS"; "CO"; "45"; "5.00"; "1"; "2"; "3.00"];
    ["DTM"; "232"; "2026XXXX"];
    ["CLP"; "PCN2"; "99"; "50.00"; "0.00"];
    ["CAS"; "ZZ"; "9999"; "1.00"] ].

(** No CLP segment at all. *)
Definition header_only : list (list string) :=
  [ ["N1"; "PR"; "PAYER"; "XV"; "P01"];
    ["CAS"; "PR"; "1"; "20.00"];
    ["SVC"; ""; "100.00"; "80.00"];
    ["DTM"; "405"; "2026XXXX"] ].

(** The segments of a claim file: a header, then two subscriber loops. *)
Definition claim_segments : list (list string) :=
  [ ["ST"; "837"; "0001"];
    ["HL"; "1"; ""; "20"; "1"];
    ["NM1"; "85"; "2"; "CLINIC"; ""; ""; ""; ""; "XX"; "1234567893"];
    ["HL"; "2"; "1"; "22"; "0"];
    ["CLM"; "A1"; "100"; ""; ""; "11:B:1"];
    ["HI"; "ABK:Z123"; "ABF:E119"; "X"];
    ["HI"; "ZZZ:U999"];
    ["LX"; "1"];
    ["SV1"; "HC:99213:25"; "100"; "UN"; "1"];
    ["HI"; "ABF:LATE"];
    ["HL"; "3"; "1"; "22"; "0"];
    ["CLM"; "B2"; "50"; ""; ""; "11:B:1"];
    ["LX"; "x"];
    ["SV1"; "HC:99214"; "50"; "UN"; "1"] ].

(** The blocks of [claim_segments]. *)
Definition claim_blocks : list (list (list string)) :=
  [ [ ["HL"; "2"; "1"; "22"; "0"];
      ["CLM"; "A1"; "100"; ""; ""; "11:B:1"];
      ["HI"; "ABK:Z123"; "ABF:E119"; "X"];
      ["HI"; "ZZZ:U999"];
      ["LX"; "1"];
      ["SV1"; "HC:99213:25"; "100"; "UN"; "1"];
      ["HI"; "ABF:LATE"] ];
    [ ["HL"; "3"; "1"; "22"; "0"];
      ["CLM"; "B2"; "50"; ""; ""; "11:B:1"];
      ["LX"; "x"];
      ["SV1"; "HC:99214"; "50"; "UN"; "1"] ] ].

End Documents.

(* ================================================================== *)
(** * Properties of [edi_utils]                                        *)
(* ================================================================== *)

Import EdiUtils.

Lemma strip_one (c : ascii) :
  Py.strip (one c) = if Py.isspace c then "" else one c.
Proof.
  unfold Py.strip, one; simpl.
  destruct (Py.isspace c) eqn:E; simpl; [reflexivity | now rewrite E].
Qed.

Lemma truthy_strip_one (c : ascii) :
  Py.truthy (Py.strip (one c)) = negb (Py.isspace c).
Proof.
  rewrite strip_one. destruct (Py.isspace c); reflexivity.
Qed.

Lemma char_at_get (s : string) : forall i c,
  get i s = Some c -> Py.char_at s i = one c.
Proof.
  unfold Py.char_at, one.
  induction s as [|a s IH]; intros [|i] c H; simpl in *; try discriminate.
  - injection H as ->. now destruct s.
  - now apply IH.
Qed.

Lemma detect_no_marker (content : string) :
  Py.find content "ISA" = None -> detect_delimiters content = defaults.
Proof.
  intros H. unfold detect_delimiters. rewrite H.
  now destruct (negb (Py.truthy content)).
Qed.

Lemma detect_too_short (content : string) (p : nat) :
  Py.find content "ISA" = Some p ->
  String.length content < p + 106 ->
  detect_delimiters content = defaults.
Proof.
  intros H L. unfold detect_delimiters. rewrite H.
  apply Nat.ltb_lt in L. rewrite L.
  now destruct (negb (Py.truthy content)).
Qed.

Lemma detect_envelope (content : string) (p : nat) (e c s : ascii) :
  envelope_at content p e c s ->
  detect_delimiters content =
  if Py.isspace e || Py.isspace s then defaults
  else {| segment := one s; element := one e;
          component := if Py.isspace c then ":" else one c;
          repetition := "^" |}.
Proof.
  intros (F & L & He & Hc & Hs). unfold detect_delimiters.
  rewrite F.
  assert (T : Py.truthy content = true).
  { destruct content; [simpl in L; lia | reflexivity]. }
  rewrite T; simpl negb; cbv iota.
  apply Nat.ltb_ge in L. rewrite L.
  rewrite (char_at_get _ _ _ He), (char_at_get _ _ _ Hc),
    (char_at_get _ _ _ Hs), !truthy_strip_one, !negb_involutive.
  destruct (Py.isspace e), (Py.isspace s), (Py.isspace c); reflexivity.
Qed.

Lemma truthy_true (s : string) : Py.truthy s = true <-> s <> "".
Proof.
  unfold Py.truthy. destruct s; simpl; split; congruence.
Qed.

Lemma truthy_false (s : string) : Py.truthy s = false <-> s = "".
Proof.
  unfold Py.truthy. destruct s; simpl; split; congruence.
Qed.

Lemma get_in_range (s : string) : forall i,
  i < String.length s -> exists c, get i s = Some c.
Proof.
  induction s as [|a s IH]; intros i L; simpl in L; [lia|].
  destruct i as [|i]; simpl; [now exists a | apply IH; lia].
Qed.

(** Every document falls under one of the three cases of detection. *)
Lemma detect_trichotomy (content : string) :
  Py.find content "ISA" = None
  \/ (exists p, Py.find content "ISA" = Some p
                /\ String.length content < p + 106)
  \/ (exists p e c s, envelope_at content p e c s).
Proof.
  destruct (Py.find content "ISA") as [p|] eqn:F; [|now left].
  right. destruct (Nat.lt_ge_cases (String.length content) (p + 106)) as [L|L].
  - left. now exists p.
  - right.
    destruct (get_in_range content (p + 3)) as [e He]; [lia|].
    destruct (get_in_range content (p + 104)) as [c Hc]; [lia|].
    destruct (get_in_range content (p + 105)) as [t Ht]; [lia|].
    exists p, e, c, t. unfold envelope_at; auto.
Qed.

Lemma invariant_defaults : delimiter_invariant defaults.
Proof.
  split.
  - repeat constructor; simpl; intuition discriminate.
  - repeat constructor.
    + now exists "~"%char.
    + now exists "*"%char.
    + now exists ":"%char.
    + now exists "^"%char.
Qed.

(** C4 (amended).  [detect_delimiters] returns the full default set when the
    marker ISA is absent, when the document ends before the 106 characters of
    the envelope, and when the element separator or the segment terminator
    read at offsets 3 and 105 is whitespace.  When both are not, it returns
    them as read, with the component separator read at offset 104 if that is
    not whitespace and [:] in its place if it is, and [^] for repetition: a
    well-formed envelope with non-whitespace delimiters yields exactly its
    three characters. *)
Theorem detect_delimiters_cases (content : string) :
  (Py.find content "ISA" = None -> detect_delimiters content = defaults)
  /\ (forall p,
        Py.find content "ISA" = Some p ->
        String.length content < p + 106 ->
        detect_delimiters content = defaults)
  /\ (forall p e c s,
        envelope_at content p e c s ->
        (Py.isspace e = true \/ Py.isspace s = true ->
         detect_delimiters content = defaults)
        /\ (Py.isspace e = false -> Py.isspace s = false ->
            Py.isspace c = true ->
            detect_delimiters content =
            {| segment := one s; element := one e;
               component := ":"; repetition := "^" |})
        /\ (Py.isspace e = false -> Py.isspace s = false ->
            Py.isspace c = false ->
            detect_delimiters content =
            {| segment := one s; element := one e;
               component := one c; repetition := "^" |})).
Proof.
  split; [apply detect_no_marker|].
  split; [apply detect_too_short|].
  intros p e c s H. rewrite (detect_envelope _ _ _ _ _ H).
  split; [|split].
  - intros [-> | ->]; [reflexivity | now rewrite orb_true_r].
  - now intros -> -> ->.
  - now intros -> -> ->.
Qed.

(** C10 (amended).  The set [detect_delimiters] returns holds four
    one-character strings; its segment terminator, element separator and
    component separator are not whitespace and its repetition separator is
    [^].  The default set is distinct and printable.  The characters read
    from an envelope are returned unchecked: the returned set is distinct and
    printable when they are, and differ from [^]. *)
Theorem detect_delimiters_invariant (content : string) :
  (exists s e c,
      segment (detect_delimiters content) = one s
      /\ element (detect_delimiters content) = one e
      /\ component (detect_delimiters content) = one c
      /\ Py.isspace s = false /\ Py.isspace e = false /\ Py.isspace c = false)
  /\ repetition (detect_delimiters content) = "^"
  /\ delimiter_invariant defaults
  /\ (forall p e c s,
        envelope_at content p e c s ->
        NoDup [s; e; c; "^"%char] ->
        Forall (fun x => Py.isprintable x = true /\ Py.isspace x = false)
          [s; e; c] ->
        delimiter_invariant (detect_delimiters content)).
Proof.
  assert (D : exists s e c,
             segment defaults = one s /\ element defaults = one e
             /\ component defaults = one c /\ Py.isspace s = false
             /\ Py.isspace e = false /\ Py.isspace c = false).
  { exists "~"%char, "*"%char, ":"%char. repeat split. }
  split; [|split; [|split; [apply invariant_defaults|]]].
  - destruct (detect_trichotomy content) as [F | [(p & F & L) | (p & e & c & s & H)]].
    + now rewrite (detect_no_marker _ F).
    + now rewrite (detect_too_short _ _ F L).
    + rewrite (detect_envelope _ _ _ _ _ H).
      destruct (Py.isspace e) eqn:Ee; [exact D|].
      destruct (Py.isspace s) eqn:Es; [exact D|]. simpl.
      destruct (Py.isspace c) eqn:Ec.
      * exists s, e, ":"%char. repeat split; assumption.
      * exists s, e, c. repeat split; assumption.
  - destruct (detect_trichotomy content) as [F | [(p & F & L) | (p & e & c & s & H)]].
    + now rewrite (detect_no_marker _ F).
    + now rewrite (detect_too_short _ _ F L).
    + rewrite (detect_envelope _ _ _ _ _ H).
      now destruct (Py.isspace e || Py.isspace s).
  - intros p e c s H N P. rewrite (detect_envelope _ _ _ _ _ H).
    inversion P as [|? ? [Ps Ss] P1]; subst.
    inversion P1 as [|? ? [Pe Se] P2]; subst.
    inversion P2 as [|? ? [Pc Sc] _]; subst.
    rewrite Ss, Se, Sc. simpl. split; simpl.
    + change ["^"] with (map one ["^"%char]).
      change (one s :: one e :: one c :: map one ["^"%char])
        with (map one [s; e; c; "^"%char]).
      apply Injective_map_NoDup; [|exact N].
      intros x y E. now injection E.
    + repeat constructor; [now exists s | now exists e | now exists c
                          | now exists "^"%char].
Qed.

(** C9 (amended).  [split_composite] returns the empty list for an empty
    value.  For any other value it splits on the declared separator when the
    value contains it, else on [:] when the value contains one, else on [>]
    when the value contains one, and else returns the value as the only
    component; "HC:99213:25" and "HC>99213>25" with declared separator [:]
    both yield HC, 99213, 25. *)
Theorem split_composite_cases (value component_sep : string) :
  (value = "" -> split_composite value component_sep = [])
  /\ (value <> "" -> component_sep <> "" ->
      Py.contains component_sep value = true ->
      split_composite value component_sep = Py.split value component_sep)
  /\ (value <> "" ->
      component_sep = "" \/ Py.contains component_sep value = false ->
      (Py.contains ":" value = true ->
       split_composite value component_sep = Py.split value ":")
      /\ (Py.contains ":" value = false -> Py.contains ">" value = true ->
          split_composite value component_sep = Py.split value ">")
      /\ (Py.contains ":" value = false -> Py.contains ">" value = false ->
          split_composite value component_sep = [value]))
  /\ split_composite "HC:99213:25" ":" = ["HC"; "99213"; "25"]
  /\ split_composite "HC>99213>25" ":" = ["HC"; "99213"; "25"].
Proof.
  unfold split_composite.
  split; [now intros ->|].
  split.
  { intros V S C. apply truthy_true in V, S. now rewrite V, S, C. }
  split; [|split; reflexivity].
  intros V S. apply truthy_true in V. rewrite V. simpl negb. cbv iota.
  assert (G : Py.truthy component_sep && Py.contains component_sep value = false).
  { destruct S as [-> | ->]; [reflexivity | apply andb_false_r]. }
  rewrite G.
  split; [|split].
  - now intros ->.
  - now intros -> ->.
  - now intros -> ->.
Qed.


(** The envelope of the unit tests is recovered character for character. *)
Lemma detect_delimiters_cases_witness :
  envelope_at Sample.isa_bar 0 "|" ":" "~"
  /\ detect_delimiters Sample.isa_bar =
     {| segment := "~"; element := "|"; component := ":"; repetition := "^" |}.
Proof.
  assert (H : envelope_at Sample.isa_bar 0 "|" ":" "~").
  { unfold envelope_at. repeat split; simpl; lia. }
  split; [exact H|].
  exact (proj2 (proj2 (proj2 (proj2 (detect_delimiters_cases Sample.isa_bar))
                         0 "|"%char ":"%char "~"%char H))
           eq_refl eq_refl eq_refl).
Defined.

(** An envelope whose component separator alone is blank does not yield the
    default set. *)
Lemma detect_delimiters_blank_component :
  envelope_at Sample.isa_blank_component 0 "|" " " "~"
  /\ Py.isspace " " = true
  /\ detect_delimiters Sample.isa_blank_component <> defaults.
Proof.
  split; [unfold envelope_at; repeat split; simpl; lia|].
  split; [reflexivity|].
  vm_compute. discriminate.
Qed.

Lemma detect_delimiters_invariant_witness :
  delimiter_invariant (detect_delimiters Sample.isa_bar).
Proof.
  apply (proj2 (proj2 (proj2 (detect_delimiters_invariant Sample.isa_bar)))
           0 "|"%char ":"%char "~"%char).
  - unfold envelope_at. repeat split; simpl; lia.
  - repeat constructor; simpl; intuition discriminate.
  - repeat constructor.
Defined.

(** With [^] between the elements of the envelope, the element and repetition
    separators returned coincide. *)
Lemma detect_delimiters_not_distinct :
  ~ delimiter_invariant (detect_delimiters Sample.isa_caret).
Proof.
  intros [N _].
  assert (E : detect_delimiters Sample.isa_caret =
              {| segment := "~"; element := "^"; component := ":";
                 repetition := "^" |}) by (vm_compute; reflexivity).
  rewrite E in N. simpl in N.
  apply NoDup_cons_iff in N as [_ N].
  apply NoDup_cons_iff in N as [N _].
  apply N. simpl. auto.
Qed.

Lemma split_composite_cases_witness :
  split_composite "HC>99213>25" ":" = Py.split "HC>99213>25" ">".
Proof.
  destruct (split_composite_cases "HC>99213>25" ":") as (_ & _ & H & _).
  destruct H as (_ & H & _).
  - discriminate.
  - right. reflexivity.
  - apply H; reflexivity.
Defined.

(** An empty value holds no separator, and is not returned as a component. *)
Lemma split_composite_empty_value :
  Py.contains ":" "" = false
  /\ Py.contains ">" "" = false
  /\ split_composite "" ":" <> [""].
Proof.
  repeat split. vm_compute. discriminate.
Qed.

(* ================================================================== *)
(** * Properties of [claim_matching]                                   *)
(* ================================================================== *)

Import PipelineModels ClaimMatching.

Lemma strip_keeps_zero (s : string) :
  exists r, Py.strip (String "0" s) = String "0" r.
Proof.
  unfold Py.strip. simpl.
  destruct (Py.rstrip s); eauto.
Qed.

Lemma normalize_keeps_zero (s : string) :
  exists r, normalize_claim_key (Some (String "0" s)) = String "0" r.
Proof.
  unfold normalize_claim_key.
  destruct (strip_keeps_zero s) as [r ->]. simpl.
  unfold re_sub_non_key. simpl Py.filter_chars.
  change (is_key_char "0") with true. cbv iota. eauto.
Qed.

Lemma lstrip_char_head (z : ascii) (s : string) :
  Py.lstrip_char z s = s \/ exists r, s = String z r.
Proof.
  destruct s as [|c s]; simpl; [now left|].
  destruct (Ascii.eqb_spec c z) as [-> | N]; [right; eauto | now left].
Qed.

Lemma lstrip_char_no_head (z : ascii) (s r : string) :
  Py.lstrip_char z s <> String z r.
Proof.
  induction s as [|c s IH]; simpl; [discriminate|].
  destruct (Ascii.eqb_spec c z) as [-> | N]; [exact IH | congruence].
Qed.

(** The zero-stripped key, when it differs from the key, differs from the
    normalized key too. *)
Lemma stripped_not_normalized (key : string) :
  Py.lstrip_char "0" key <> key ->
  normalize_claim_key (Some key) <> Py.lstrip_char "0" key.
Proof.
  intros N. destruct (lstrip_char_head "0" key) as [E | [r ->]]; [congruence|].
  destruct (normalize_keeps_zero r) as [r' ->].
  intros E. symmetry in E. revert E. apply lstrip_char_no_head.
Qed.

Ltac decide_eqb :=
  repeat match goal with
    | |- context [String.eqb ?a ?b] =>
        destruct (String.eqb_spec a b); subst; cbn -[String.eqb];
        try congruence
    end.

(** The list built by the chain of [if]s, over any four strings related as
    the key, its normalized form and the two zero-stripped forms are. *)
Lemma candidates_shape (key n z nz : string) :
  key <> "" ->
  (z <> key -> n <> z) ->
  (z = "" -> nz = "") ->
  (let c1 := if Py.truthy n && negb (Py.list_mem n [key])
             then [key] ++ [n] else [key] in
   if Py.truthy z && negb (z =? key)%string
   then if Py.truthy nz && negb (Py.list_mem nz (c1 ++ [z]))
        then (c1 ++ [z]) ++ [nz] else c1 ++ [z]
   else c1)
  = dedup (filter Py.truthy ([key; n] ++ (if (z =? key)%string then []
                                          else [z; nz]))).
Proof.
  intros K NZ ZE.
  unfold Py.truthy, Py.list_mem, dedup. cbn -[String.eqb].
  decide_eqb;
    repeat match goal with
      | H : ?a = ?a -> _ |- _ => specialize (H eq_refl)
      | H : ?a <> ?b -> _, N : ?a <> ?b |- _ => specialize (H N)
      end; subst; cbn -[String.eqb]; decide_eqb;
    try reflexivity; try congruence.
Qed.

Lemma candidates_of_blank (s : string) :
  Py.strip s = "" -> claim_key_candidates (Some s) = [].
Proof.
  intros E. unfold claim_key_candidates. now rewrite E.
Qed.

Lemma candidates_of_key (s : string) :
  Py.strip s <> "" ->
  exists more, claim_key_candidates (Some s) = Py.strip s :: more.
Proof.
  intros E. unfold claim_key_candidates.
  apply truthy_true in E. rewrite E. simpl negb. cbv iota zeta.
  repeat match goal with
    | |- context [if ?b then _ else _] => destruct b
    end; simpl; eauto.
Qed.

(** C3 (amended).  [claim_key_candidates] returns, in this order, the raw
    trimmed value, its normalized form, the zero-stripped value when it
    differs from the raw one and the normalized form of the zero-stripped
    value, leaving out every candidate that is empty and keeping each at its
    first occurrence only.  [None], and any value that is empty once
    trimmed, yields the empty list; for "00-ab 123" the list holds the raw
    value, "00AB123" and the zero-stripped "-ab 123". *)
Theorem claim_key_candidates_spec (value : option string) :
  claim_key_candidates value
  = dedup (filter Py.truthy (specified_candidates value))
  /\ claim_key_candidates None = []
  /\ (forall s, Py.strip s = "" -> claim_key_candidates (Some s) = [])
  /\ In "00-ab 123" (claim_key_candidates (Some "00-ab 123"))
  /\ In "00AB123" (claim_key_candidates (Some "00-ab 123"))
  /\ In "-ab 123" (claim_key_candidates (Some "00-ab 123")).
Proof.
  split; [|split; [reflexivity|split; [exact candidates_of_blank|]]].
  - destruct value as [v|]; [|reflexivity].
    unfold claim_key_candidates, specified_candidates.
    destruct (Py.truthy (Py.strip v)) eqn:T.
    + apply truthy_true in T. simpl negb. cbv iota.
      apply (candidates_shape (Py.strip v)); [exact T | |].
      * intros N E. revert E. now apply stripped_not_normalized.
      * now intros ->.
    + apply truthy_false in T. rewrite T. reflexivity.
  - vm_compute. intuition.
Qed.

(** The candidates of a lone hyphen: its empty normalized form is left out. *)
Lemma claim_key_candidates_omits_empty :
  claim_key_candidates (Some "-") = ["-"]
  /\ dedup (specified_candidates (Some "-")) = ["-"; ""]
  /\ claim_key_candidates (Some "-") <> dedup (specified_candidates (Some "-")).
Proof.
  repeat split. vm_compute. discriminate.
Qed.

(** ** The four strategies, one loop each *)

Lemma match_by_claim_id_miss (client : Client) (l : list string) :
  misses (headers_by_claim_id client) l -> match_by_claim_id client l = None.
Proof.
  induction 1 as [|c l E _ IH]; simpl; [reflexivity | now rewrite E].
Qed.

Lemma match_by_claim_id_hit (client : Client) (l : list string) c found :
  first_hit (headers_by_claim_id client) l c found ->
  match_by_claim_id client l
  = Some (mkMatchResult (Some found) "clp01" "MATCHED_CLAIM_ID").
Proof.
  intros (before & after & more & -> & M & E).
  induction M as [|x l Ex _ IH]; simpl; [now rewrite E | now rewrite Ex].
Qed.

Lemma match_by_original_claim_id_miss (client : Client) (l : list string) :
  misses (headers_by_original_claim_id client) l ->
  match_by_original_claim_id client l = None.
Proof.
  induction 1 as [|c l E _ IH]; simpl; [reflexivity | now rewrite E].
Qed.

Lemma match_by_original_claim_id_hit (client : Client) (l : list string)
  c found :
  first_hit (headers_by_original_claim_id client) l c found ->
  match_by_original_claim_id client l
  = Some (mkMatchResult (Some found) "clp07_original_claim_id"
            "MATCHED_ORIGINAL_CLAIM_ID").
Proof.
  intros (before & after & more & -> & M & E).
  induction M as [|x l Ex _ IH]; simpl; [now rewrite E | now rewrite Ex].
Qed.

Lemma match_by_qualifiers_miss (client : Client) (c : string)
  (qs : list string) :
  misses (fun q => references_by_qualifier_and_value client q c) qs ->
  match_by_qualifiers client c qs = None.
Proof.
  induction 1 as [|q qs E _ IH]; simpl; [reflexivity | now rewrite E].
Qed.

Lemma match_by_qualifiers_hit (client : Client) (c : string)
  (qs : list string) q found :
  first_hit (fun q => references_by_qualifier_and_value client q c) qs q found ->
  match_by_qualifiers client c qs
  = Some (mkMatchResult (Some found) "clp07_ref" ("MATCHED_REF_" ++ q)).
Proof.
  intros (before & after & more & -> & M & E).
  induction M as [|x l Ex _ IH]; simpl; [now rewrite E | now rewrite Ex].
Qed.

Lemma match_by_prioritized_ref_miss (client : Client) (qs l : list string) :
  no_qualified_ref client qs l ->
  match_by_prioritized_ref client qs l = None.
Proof.
  induction 1 as [|c l M _ IH]; simpl; [reflexivity|].
  now rewrite (match_by_qualifiers_miss _ _ _ M).
Qed.

Lemma match_by_prioritized_ref_hit (client : Client) (qs l : list string)
  c q found :
  first_qualified_ref client qs l c q found ->
  match_by_prioritized_ref client qs l
  = Some (mkMatchResult (Some found) "clp07_ref" ("MATCHED_REF_" ++ q)).
Proof.
  intros (before & after & -> & M & H).
  induction M as [|x l Mx _ IH]; simpl.
  - now rewrite (match_by_qualifiers_hit _ _ _ _ _ H).
  - now rewrite (match_by_qualifiers_miss _ _ _ Mx).
Qed.

Lemma match_by_any_ref_miss (client : Client) (l : list string) :
  misses (references_by_value client) l -> match_by_any_ref client l = None.
Proof.
  induction 1 as [|c l E _ IH]; simpl; [reflexivity | now rewrite E].
Qed.

Lemma match_by_any_ref_hit (client : Client) (l : list string) c found :
  first_hit (references_by_value client) l c found ->
  match_by_any_ref client l
  = Some (mkMatchResult (Some found) "clp07_ref" "MATCHED_REF_ANY").
Proof.
  intros (before & after & more & -> & M & E).
  induction M as [|x l Ex _ IH]; simpl; [now rewrite E | now rewrite Ex].
Qed.

(** A candidate with an answer makes some candidate the first with one. *)
Lemma first_hit_exists (q : string -> list Z) (l : list string) (c : string) :
  In c l -> q c <> [] -> exists c' found, first_hit q l c' found.
Proof.
  induction l as [|x l IH]; intros I N; [destruct I|].
  destruct (q x) as [|found more] eqn:E.
  - destruct I as [-> | I]; [congruence|].
    destruct (IH I N) as (c' & f & before & after & more & -> & M & H).
    exists c', f, (x :: before), after, more.
    repeat split; [|exact H]. now constructor.
  - exists x, found, [], l, more. repeat split; [constructor | exact E].
Qed.

Lemma claim_key_candidates_spec_witness :
  claim_key_candidates (Some "   ") = [].
Proof.
  apply (proj1 (proj2 (proj2 (claim_key_candidates_spec None)))).
  reflexivity.
Defined.

(** C2.  [match_claim_header] tries, in this order: the claim identifier
    against the patient-control candidates; the original claim identifier
    against the claim-control candidates; for each claim-control candidate in
    turn, each qualifier of the priority list in turn, against the reference
    entries; the reference value alone against the claim-control candidates.
    The first query that answers a row decides the result, and each strategy
    decides only when all the earlier ones found nothing.  Whenever a
    patient-control candidate matches a claim identifier, the strategy
    returned is "clp01", whatever the later strategies would find. *)
Theorem match_claim_header_order (client : Client)
  (qualifier_priority : list string)
  (pcn payer_claim_control_number : option string) :
  let run :=
    match_claim_header client qualifier_priority pcn payer_claim_control_number in
  let pcn_candidates := claim_key_candidates pcn in
  let clp07_candidates := claim_key_candidates payer_claim_control_number in
  (forall c found,
      first_hit (headers_by_claim_id client) pcn_candidates c found ->
      run = mkMatchResult (Some found) "clp01" "MATCHED_CLAIM_ID")
  /\ (misses (headers_by_claim_id client) pcn_candidates ->
      forall c found,
        first_hit (headers_by_original_claim_id client) clp07_candidates
          c found ->
        run = mkMatchResult (Some found) "clp07_original_claim_id"
                "MATCHED_ORIGINAL_CLAIM_ID")
  /\ (misses (headers_by_claim_id client) pcn_candidates ->
      misses (headers_by_original_claim_id client) clp07_candidates ->
      forall c qualifier found,
        first_qualified_ref client qualifier_priority clp07_candidates
          c qualifier found ->
        run = mkMatchResult (Some found) "clp07_ref"
                ("MATCHED_REF_" ++ qualifier))
  /\ (misses (headers_by_claim_id client) pcn_candidates ->
      misses (headers_by_original_claim_id client) clp07_candidates ->
      no_qualified_ref client qualifier_priority clp07_candidates ->
      forall c found,
        first_hit (references_by_value client) clp07_candidates c found ->
        run = mkMatchResult (Some found) "clp07_ref" "MATCHED_REF_ANY")
  /\ ((exists c, In c pcn_candidates /\ headers_by_claim_id client c <> []) ->
      strategy run = "clp01").
Proof.
  cbv zeta. unfold match_claim_header.
  split; [|split; [|split; [|split]]].
  - intros c found H. now rewrite (match_by_claim_id_hit _ _ _ _ H).
  - intros M1 c found H.
    rewrite (match_by_claim_id_miss _ _ M1).
    now rewrite (match_by_original_claim_id_hit _ _ _ _ H).
  - intros M1 M2 c q found H.
    rewrite (match_by_claim_id_miss _ _ M1).
    rewrite (match_by_original_claim_id_miss _ _ M2).
    now rewrite (match_by_prioritized_ref_hit _ _ _ _ _ _ H).
  - intros M1 M2 M3 c found H.
    rewrite (match_by_claim_id_miss _ _ M1).
    rewrite (match_by_original_claim_id_miss _ _ M2).
    rewrite (match_by_prioritized_ref_miss _ _ _ M3).
    now rewrite (match_by_any_ref_hit _ _ _ _ H).
  - intros (c & I & N).
    destruct (first_hit_exists _ _ _ I N) as (c' & found & H).
    now rewrite (match_by_claim_id_hit _ _ _ _ H).
Qed.

Lemma candidates_nil_iff (v : option string) :
  claim_key_candidates v = [] <-> absent v \/ unusable v.
Proof.
  split.
  - destruct v as [s|]; [|intros _; left; now left].
    destruct (string_dec (Py.strip s) "") as [E | N].
    + intros _. destruct (string_dec s "") as [-> | Ns].
      * left. now right.
      * right. now exists s.
    + destruct (candidates_of_key s N) as [more ->]. discriminate.
  - intros [[-> | ->] | (s & -> & _ & E)]; [reflexivity | reflexivity |].
    now apply candidates_of_blank.
Qed.

Lemma usable_candidates (v : option string) :
  usable v -> claim_key_candidates v <> [] /\ truthy v = true.
Proof.
  intros (s & -> & N). split.
  - destruct (candidates_of_key s N) as [more ->]. discriminate.
  - simpl. apply truthy_true. intros ->. now apply N.
Qed.

Lemma unusable_candidates (v : option string) :
  unusable v -> claim_key_candidates v = [] /\ truthy v = true.
Proof.
  intros (s & -> & N & E). split.
  - now apply candidates_of_blank.
  - simpl. now apply truthy_true.
Qed.

Lemma absent_candidates (v : option string) :
  absent v -> claim_key_candidates v = [] /\ truthy v = false.
Proof.
  intros [-> | ->]; split; reflexivity.
Qed.

Lemma key_cases (v : option string) : absent v \/ unusable v \/ usable v.
Proof.
  destruct v as [s|]; [|left; now left].
  destruct (string_dec (Py.strip s) "") as [E | N].
  - destruct (string_dec s "") as [-> | Ns].
    + left. now right.
    + right. left. now exists s.
  - right. right. now exists s.
Qed.

Lemma length_zero_cons {A : Type} (l : list A) :
  l <> [] -> Nat.eqb (List.length l) 0 = false.
Proof.
  destruct l; simpl; congruence.
Qed.

(** C7.  When no strategy finds a row, [match_claim_header] (a total
    function: it raises nothing) returns no claim identifier, the strategy
    "unmatched", and one reason code of a fixed set of five: UNUSABLE_CLP01
    when the patient-control value is present but blank, UNUSABLE_CLP07 when
    that is not so and the claim-control value is present but blank,
    NO_MATCH_CLP01_CLP07 when both are usable (or the patient-control value
    is and the other is absent), NO_MATCH_CLP07 when only the claim-control
    value is usable, NO_KEYS when neither is present. *)
Theorem match_claim_header_unmatched (client : Client)
  (qualifier_priority : list string)
  (pcn payer_claim_control_number : option string) :
  no_strategy_hits client qualifier_priority pcn payer_claim_control_number ->
  let run :=
    match_claim_header client qualifier_priority pcn payer_claim_control_number in
  claim_header_id run = None
  /\ strategy run = "unmatched"
  /\ In (reason_code run)
       ["UNUSABLE_CLP01"; "UNUSABLE_CLP07"; "NO_MATCH_CLP01_CLP07";
        "NO_MATCH_CLP07"; "NO_KEYS"]
  /\ (unusable pcn -> reason_code run = "UNUSABLE_CLP01")
  /\ (~ unusable pcn -> unusable payer_claim_control_number ->
      reason_code run = "UNUSABLE_CLP07")
  /\ (usable pcn -> ~ unusable payer_claim_control_number ->
      reason_code run = "NO_MATCH_CLP01_CLP07")
  /\ (absent pcn -> usable payer_claim_control_number ->
      reason_code run = "NO_MATCH_CLP07")
  /\ (absent pcn -> absent payer_claim_control_number ->
      reason_code run = "NO_KEYS").
Proof.
  intros (M1 & M2 & M3 & M4). cbv zeta. unfold match_claim_header.
  rewrite (match_by_claim_id_miss _ _ M1).
  rewrite (match_by_original_claim_id_miss _ _ M2).
  rewrite (match_by_prioritized_ref_miss _ _ _ M3).
  rewrite (match_by_any_ref_miss _ _ M4).
  clear M1 M2 M3 M4. unfold unmatched.
  destruct (key_cases pcn) as [K1 | [K1 | K1]];
    destruct (key_cases payer_claim_control_number) as [K2 | [K2 | K2]];
    try (destruct (absent_candidates _ K1) as [E1 T1]);
    try (destruct (unusable_candidates _ K1) as [E1 T1]);
    try (destruct (usable_candidates _ K1) as [E1 T1];
         apply length_zero_cons in E1);
    try (destruct (absent_candidates _ K2) as [E2 T2]);
    try (destruct (unusable_candidates _ K2) as [E2 T2]);
    try (destruct (usable_candidates _ K2) as [E2 T2];
         apply length_zero_cons in E2);
    rewrite ?E1, ?T1, ?E2, ?T2; simpl; clear E1 T1 E2 T2;
    (repeat split; simpl; auto 10; intros; try contradiction;
     repeat match goal with
       | H : absent _ |- _ => apply absent_candidates in H; destruct H
       | H : unusable _ |- _ => apply unusable_candidates in H; destruct H
       | H : usable _ |- _ => apply usable_candidates in H; destruct H
       end; congruence).
Qed.

Lemma match_claim_header_order_witness :
  strategy
    (match_claim_header
       (table_client [mkHeaderRow 10 "AB123" (Some "CTRL")]
          [mkReferenceRow 30 "D9" "CTRL"])
       default_reference_qualifier_priority (Some "AB123") (Some "CTRL"))
  = "clp01".
Proof.
  apply (proj2 (proj2 (proj2 (proj2 (match_claim_header_order _ _ _ _))))).
  exists "AB123". split; [now left | discriminate].
Defined.

Lemma match_claim_header_unmatched_witness :
  reason_code
    (match_claim_header (table_client [] [])
       default_reference_qualifier_priority (Some "A123") (Some "B456"))
  = "NO_MATCH_CLP01_CLP07".
Proof.
  assert (H : no_strategy_hits (table_client [] [])
                default_reference_qualifier_priority
                (Some "A123") (Some "B456")).
  { unfold no_strategy_hits, no_qualified_ref, misses.
    repeat split; repeat constructor. }
  destruct (match_claim_header_unmatched _ _ _ _ H)
    as (_ & _ & _ & _ & _ & R & _).
  apply R.
  - exists "A123". split; [reflexivity | discriminate].
  - intros (s & E & _ & B). injection E as <-. discriminate.
Defined.

(* ================================================================== *)
(** * Properties of [parse_835]                                        *)
(* ================================================================== *)

Import Parse835.

Section Parse835Facts.
Context {B : Builtins}.

Lemma safe_get_app (pre rest : list string) (k : nat) (d : string) :
  safe_get (pre ++ rest) (List.length pre + k) d = safe_get rest k d.
Proof.
  unfold safe_get. rewrite nth_error_app2 by lia.
  now replace (List.length pre + k - List.length pre) with k by lia.
Qed.

Lemma cas_loop_done (fuel : nat) (seg : list string) g gd idx acc summ :
  List.length seg <= idx ->
  fst (cas_loop fuel seg g gd idx acc summ) = acc.
Proof.
  intros L. destruct fuel; simpl; [reflexivity|].
  assert (E : Nat.ltb idx (List.length seg) = false) by now apply Nat.ltb_ge.
  now rewrite E.
Qed.

Lemma group_code_truthy (x : string) :
  Py.dict_mem ADJUSTMENT_GROUP_MAP x = true -> Py.truthy x = true.
Proof.
  destruct x; [discriminate | reflexivity].
Qed.

Lemma cas_loop_walk (fuel : nat) : forall seg g gd pre rest acc summ,
  seg = pre ++ rest ->
  List.length rest <= fuel ->
  2 <= List.length pre ->
  fst (cas_loop fuel seg g gd (List.length pre) acc summ)
  = acc ++ walk_triplets g gd (Nat.eqb (List.length pre) 2) rest.
Proof.
  induction fuel as [|fuel IH]; intros seg g gd pre rest acc summ -> L P.
  - destruct rest; [|simpl in L; lia]. simpl. now rewrite app_nil_r.
  - destruct rest as [|reason r1].
    { rewrite cas_loop_done; [now rewrite app_nil_r | rewrite length_app; simpl; lia]. }
    cbn [cas_loop walk_triplets].
    assert (E0 : Nat.ltb (List.length pre) (List.length (pre ++ reason :: r1)) = true).
    { apply Nat.ltb_lt. rewrite length_app. simpl. lia. }
    rewrite E0. cbn [negb].
    replace (safe_get (pre ++ reason :: r1) (List.length pre) "") with reason
      by (rewrite <- (Nat.add_0_r (List.length pre)) at 1; now rewrite safe_get_app).
    destruct (Py.truthy reason) eqn:T; cbn [negb]; [|now rewrite app_nil_r].
    destruct (Py.dict_mem ADJUSTMENT_GROUP_MAP reason && negb (Nat.eqb (List.length pre) 2)) eqn:G;
      [now rewrite app_nil_r|].
    rewrite !safe_get_app.
    destruct r1 as [|amount [|third r3]].
    + assert (E1 : Nat.ltb (List.length pre + 1) (List.length (pre ++ [reason])) = false)
        by (apply Nat.ltb_ge; rewrite length_app; simpl; lia).
      assert (E2 : Nat.ltb (List.length pre + 2) (List.length (pre ++ [reason])) = false)
        by (apply Nat.ltb_ge; rewrite length_app; simpl; lia).
      rewrite E1, E2. rewrite cas_loop_done; [reflexivity|].
      rewrite length_app; simpl; lia.
    + assert (E1 : Nat.ltb (List.length pre + 1) (List.length (pre ++ [reason; amount])) = true)
        by (apply Nat.ltb_lt; rewrite length_app; simpl; lia).
      assert (E2 : Nat.ltb (List.length pre + 2) (List.length (pre ++ [reason; amount])) = false)
        by (apply Nat.ltb_ge; rewrite length_app; simpl; lia).
      rewrite E1, E2. rewrite cas_loop_done; [reflexivity|].
      rewrite length_app; simpl; lia.
    + assert (E1 : Nat.ltb (List.length pre + 1)
                     (List.length (pre ++ reason :: amount :: third :: r3)) = true)
        by (apply Nat.ltb_lt; rewrite length_app; simpl; lia).
      assert (E2 : Nat.ltb (List.length pre + 2)
                     (List.length (pre ++ reason :: amount :: third :: r3)) = true)
        by (apply Nat.ltb_lt; rewrite length_app; simpl; lia).
      rewrite E1, E2. cbn [safe_get nth_error].
      destruct (Py.dict_mem ADJUSTMENT_GROUP_MAP third) eqn:G3; cbn [negb].
      * replace (List.length pre + 2)
          with (List.length (pre ++ [reason; amount]))
          by (rewrite length_app; simpl; lia).
        rewrite (IH _ g gd (pre ++ [reason; amount]) (third :: r3));
          [| now rewrite <- app_assoc | simpl in *; lia
           | rewrite length_app; simpl; lia ].
        cbn [walk_triplets].
        rewrite (group_code_truthy _ G3), G3. cbn [negb].
        replace (Nat.eqb (List.length (pre ++ [reason; amount])) 2) with false
          by (symmetry; apply Nat.eqb_neq; rewrite length_app; simpl; lia).
        cbn [andb negb]. now rewrite app_nil_r.
      * replace (List.length pre + 3)
          with (List.length (pre ++ [reason; amount; third]))
          by (rewrite length_app; simpl; lia).
        rewrite (IH _ g gd (pre ++ [reason; amount; third]) r3);
          [| now rewrite <- app_assoc | simpl in *; lia
           | rewrite length_app; simpl; lia ].
        replace (Nat.eqb (List.length (pre ++ [reason; amount; third])) 2)
          with false
          by (symmetry; apply Nat.eqb_neq; rewrite length_app; simpl; lia).
        now rewrite <- app_assoc.
Qed.

(** C1 (amended).  [parse_cas_adjustments] returns nothing for a segment of
    fewer than four elements.  Otherwise it walks the elements from index 2,
    reading a reason and an amount each turn; a third element is read as the
    integer quantity unless it is a recognized group code, in which case it
    is left out and the walk ends there: no entry follows it.  The segment
    CAS, CO, 45, 50.00, PR, 2, 25.00 thus decodes into the single entry
    (CO, 45, 50.00, no quantity). *)
Theorem parse_cas_adjustments_walk (seg : list string)
  (summary : option Summary) :
  (List.length seg < 4 -> fst (parse_cas_adjustments seg summary) = [])
  /\ (4 <= List.length seg ->
      fst (parse_cas_adjustments seg summary)
      = walk_triplets (safe_get seg 1 "")
          (Py.dict_get ADJUSTMENT_GROUP_MAP (safe_get seg 1 "") "Unknown")
          true (skipn 2 seg))
  /\ map adjustment_key
       (fst (parse_cas_adjustments
               ["CAS"; "CO"; "45"; "50.00"; "PR"; "2"; "25.00"] summary))
     = [("CO", "45", parse_amount "50.00", None)].
Proof.
  assert (W : 4 <= List.length seg ->
              fst (parse_cas_adjustments seg summary)
              = walk_triplets (safe_get seg 1 "")
                  (Py.dict_get ADJUSTMENT_GROUP_MAP (safe_get seg 1 "") "Unknown")
                  true (skipn 2 seg)).
  { intros L. unfold parse_cas_adjustments.
    assert (E : Nat.ltb (List.length seg) 4 = false) by now apply Nat.ltb_ge.
    rewrite E.
    destruct seg as [|a [|b rest]]; [simpl in L; lia | simpl in L; lia |].
    exact (cas_loop_walk (List.length (a :: b :: rest)) (a :: b :: rest)
             _ _ [a; b] rest [] _ eq_refl
             ltac:(simpl; lia) ltac:(simpl; lia)). }
  split; [|split; [exact W|]].
  - intros L. unfold parse_cas_adjustments.
    apply Nat.ltb_lt in L. now rewrite L.
  - destruct summary; reflexivity.
Qed.

Lemma step_dtm (file sep : string) (st : State) (cp : PaymentRecord)
  (qual d : string) (rest : list string) :
  current_payment st = Some cp ->
  step file sep st ("DTM" :: qual :: d :: rest)
  = Ok (payment_dates st cp ("DTM" :: qual :: d :: rest)).
Proof.
  intros H. unfold step. rewrite H. reflexivity.
Qed.

Lemma py_or_valid (v : string) (old : option string) :
  v <> "" -> py_or (Some v) old = Some v.
Proof.
  intros N. unfold py_or. apply truthy_true in N. now rewrite N.
Qed.

Lemma paid_date_replaced (file sep : string) (st : State)
  (cp : PaymentRecord) (qual d v : string) (rest : list string) :
  current_payment st = Some cp ->
  qual = "573" \/ qual = "050" ->
  parse_date d = Some v -> v <> "" ->
  exists st' cp',
    step file sep st ("DTM" :: qual :: d :: rest) = Ok st'
    /\ current_payment st' = Some cp'
    /\ payment_date (payment cp') = Some v.
Proof.
  intros H Q D N. rewrite (step_dtm _ _ _ _ _ _ _ H).
  eexists. eexists. split; [reflexivity|].
  unfold payment_dates. cbn [safe_get nth_error current_payment].
  split; [reflexivity|].
  destruct Q as [-> | ->]; simpl; rewrite D; now apply py_or_valid.
Qed.

(** C6 (amended).  While a payment is open, a DTM segment of three elements
    or more is routed by its qualifier: 573 and 050 write the payment's
    paid-date, 232 and 233 the statement-period start and end.  A paid-date
    that parses replaces the paid-date held so far, and one that does not
    parse leaves it as it is: of several valid paid-dates the last is kept. *)
Theorem dtm_routes_payment_dates (file sep : string) (st : State)
  (cp : PaymentRecord) (qual d : string) (rest : list string) :
  current_payment st = Some cp ->
  exists st' cp',
    step file sep st ("DTM" :: qual :: d :: rest) = Ok st'
    /\ current_payment st' = Some cp'
    /\ (qual = "573" \/ qual = "050" ->
        (forall v, parse_date d = Some v -> v <> "" ->
                   payment_date (payment cp') = Some v)
        /\ (parse_date d = None ->
            payment_date (payment cp') = payment_date (payment cp)))
    /\ (qual = "232" ->
        statement_start (payment cp') = Some (parse_date d)
        /\ payment_date (payment cp') = payment_date (payment cp))
    /\ (qual = "233" ->
        statement_end (payment cp') = Some (parse_date d)
        /\ payment_date (payment cp') = payment_date (payment cp))
    /\ (forall qual2 d2 rest2 v,
          qual2 = "573" \/ qual2 = "050" ->
          parse_date d2 = Some v -> v <> "" ->
          exists st2 cp2,
            step file sep st' ("DTM" :: qual2 :: d2 :: rest2) = Ok st2
            /\ current_payment st2 = Some cp2
            /\ payment_date (payment cp2) = Some v).
Proof.
  intros H. rewrite (step_dtm _ _ _ _ _ _ _ H).
  eexists. eexists. split; [reflexivity|].
  unfold payment_dates at 1. cbn [safe_get nth_error current_payment].
  split; [reflexivity|].
  split; [|split; [|split]].
  - intros Q. split.
    + intros v D N.
      destruct Q as [-> | ->]; simpl; rewrite D; now apply py_or_valid.
    + intros D. destruct Q as [-> | ->]; simpl; now rewrite D.
  - intros ->. now simpl.
  - intros ->. now simpl.
  - intros qual2 d2 rest2 v Q D N.
    eapply paid_date_replaced; eauto. reflexivity.
Qed.

Lemma run_app (file sep : string) (a b : list (list string)) : forall st,
  run file sep st (a ++ b)
  = bind (run file sep st a) (fun st' => run file sep st' b).
Proof.
  induction a as [|seg a IH]; intros st; simpl; [reflexivity|].
  destruct (step file sep st seg); simpl; [apply IH | reflexivity].
Qed.

Lemma step_clp (file sep : string) (st : State) (seg : list string) :
  opens_payment seg = true ->
  step file sep st seg = Ok (open_payment file st seg).
Proof.
  unfold opens_payment. intros H. apply andb_prop in H as [I L].
  destruct seg as [|seg_id rest]; [discriminate|].
  simpl in I. apply String.eqb_eq in I. subst seg_id.
  unfold step. rewrite L. reflexivity.
Qed.

(** A segment that opens no payment leaves the open payment open, with the
    CLP fields it was given. *)
Lemma step_keeps_open (file sep : string) (st st' : State)
  (cp : PaymentRecord) (seg : list string) :
  current_payment st = Some cp ->
  opens_payment seg = false ->
  step file sep st seg = Ok st' ->
  payments st' = payments st
  /\ exists cp', current_payment st' = Some cp'
                 /\ clp (payment cp') = clp (payment cp).
Proof.
  intros H N. unfold step. destruct seg as [|seg_id rest]; [discriminate|].
  unfold opens_payment in N. cbn [hd] in N.
  rewrite H. cbn [is_some negb].
  repeat match goal with
    | |- context [if ?b then _ else _] =>
        lazymatch b with
        | context [if _ then _ else _] => fail
        | _ => destruct b eqn:?
        end
    end.
  all: try congruence.
  all: try (intros E; injection E as <-; split; [reflexivity|];
            exists cp; split; [exact H | reflexivity]).
  - destruct (cas_of st (seg_id :: rest)) as [adjs s].
    intros E; injection E as <-. split; [reflexivity|].
    eexists; split; reflexivity.
  - unfold open_service_line.
    match goal with
    | |- bind ?r _ = _ -> _ => destruct r; simpl; [|discriminate]
    end.
    intros E; injection E as <-. split; [reflexivity|].
    eexists; split; reflexivity.
  - destruct (cas_of st (seg_id :: rest)) as [adjs s].
    intros E; injection E as <-. split; [reflexivity|].
    eexists; split; reflexivity.
  - intros E; injection E as <-. split; [reflexivity|].
    unfold payment_dates. cbn [current_payment].
    eexists. split; [reflexivity|].
    repeat match goal with
      | |- context [if ?b then _ else _] => destruct b
      end; reflexivity.
  - intros E; injection E as <-. split; [reflexivity|].
    eexists; split; reflexivity.
Qed.

Lemma run_keeps_open (file sep : string) (segs : list (list string)) :
  forall st st' cp,
    current_payment st = Some cp ->
    Forall (fun seg => opens_payment seg = false) segs ->
    run file sep st segs = Ok st' ->
    payments st' = payments st
    /\ exists cp', current_payment st' = Some cp'
                   /\ clp (payment cp') = clp (payment cp).
Proof.
  induction segs as [|seg segs IH]; intros st st' cp H F R; simpl in R.
  - injection R as <-. eauto.
  - inversion F as [|? ? N F']; subst.
    destruct (step file sep st seg) as [st1|] eqn:E; simpl in R; [|discriminate].
    destruct (step_keeps_open _ _ _ _ _ _ H N E) as (P1 & cp1 & H1 & C1).
    destruct (IH _ _ _ H1 F' R) as (P2 & cp2 & H2 & C2).
    split; [congruence|]. exists cp2. split; [exact H2 | congruence].
Qed.

(** X1.  On every run that returns, the payment opened by the last CLP
    segment is the last of the returned list, with the identifiers that
    segment gave it. *)
Theorem final_payment_flushed (file sep : string)
  (before after : list (list string)) (seg : list string)
  (ps : list PaymentRecord) :
  opens_payment seg = true ->
  Forall (fun s => opens_payment s = false) after ->
  returned_payments (extract_payments (before ++ seg :: after) file sep)
  = Some ps ->
  exists earlier cp,
    ps = earlier ++ [cp]
    /\ patient_control_number (clp (payment cp)) = safe_get seg 1 ""
    /\ claim_status_code (clp (payment cp)) = safe_get seg 2 ""
    /\ payer_claim_control_number (clp (payment cp)) = safe_get seg 7 "".
Proof.
  intros O F R. unfold extract_payments in R.
  rewrite run_app in R.
  destruct (run file sep initial_state before) as [st|] eqn:E1;
    simpl in R; [|discriminate].
  rewrite (step_clp _ _ _ _ O) in R. simpl in R.
  destruct (run file sep (open_payment file st seg) after) as [st2|] eqn:E2;
    simpl in R; [|discriminate].
  injection R as <-.
  destruct (run_keeps_open file sep after (open_payment file st seg) st2 _
              eq_refl F E2) as (_ & cp & H & C).
  rewrite H. exists (payments st2), cp.
  split; [reflexivity|]. now rewrite C.
Qed.

Lemma split_from_nonempty (sep : string) (s : string) : forall skip cur,
  Py.split_from sep skip cur s <> [].
Proof.
  induction s as [|c s IH]; intros skip cur; cbn [Py.split_from];
    [discriminate|].
  destruct skip; [|apply IH].
  destruct (prefix sep (String c s)); [discriminate | apply IH].
Qed.

Lemma split_composite_nonempty (value sep : string) :
  value <> "" -> split_composite value sep <> [].
Proof.
  intros V. unfold split_composite. apply truthy_true in V. rewrite V.
  simpl negb. cbv iota.
  repeat match goal with
    | |- context [if ?b then _ else _] => destruct b
    end; try apply split_from_nonempty; discriminate.
Qed.

Lemma step_total (file sep : string) (st : State) (seg : list string) :
  harmless seg = true -> exists st', step file sep st seg = Ok st'.
Proof.
  unfold harmless, step. destruct seg as [|seg_id rest]; [discriminate|].
  intros Hh.
  repeat match goal with
    | |- context [if ?b then _ else _] =>
        lazymatch b with
        | context [if _ then _ else _] => fail
        | _ => destruct b eqn:?
        end
    end.
  all: try (destruct (current_payment st) as [cp|] eqn:Hc).
  all: try (destruct (cas_of st (seg_id :: rest)) as [adjs s]).
  all: try (eexists; reflexivity).
  apply andb_prop in Heqb7 as [Heqb7 L]. apply andb_prop in Heqb7 as [I _].
  rewrite I, L in Hh. simpl in Hh. apply negb_true_iff, negb_false_iff in Hh.
  apply truthy_true in Hh.
  pose proof (split_composite_nonempty _ sep Hh) as NE.
  unfold open_service_line.
  destruct (split_composite (safe_get (seg_id :: rest) 1 "") sep)
    as [|p1 [|p2 parts]]; [congruence | |]; eexists; reflexivity.
Qed.

Lemma run_total (file sep : string) (segs : list (list string)) : forall st,
  Forall (fun seg => harmless seg = true) segs ->
  exists st', run file sep st segs = Ok st'.
Proof.
  induction segs as [|seg segs IH]; intros st F; simpl; [eauto|].
  inversion F as [|? ? Hh F']; subst.
  destruct (step_total file sep st seg Hh) as [st1 ->]. simpl. now apply IH.
Qed.

(** X2.  [extract_payments] returns on every document none of whose SVC
    segments of four elements or more has an empty first element. *)
Theorem extract_payments_returns (file sep : string)
  (segs : list (list string)) :
  Forall (fun seg => harmless seg = true) segs ->
  exists ps, returned_payments (extract_payments segs file sep) = Some ps.
Proof.
  intros F. unfold extract_payments.
  destruct (run_total file sep segs initial_state F) as [st ->]. simpl.
  eauto.
Qed.

(** C8.  A document that ends on a CLP segment followed by an SVC segment
    whose first element is empty: [split_composite] returns no component,
    [proc_parts[0]] raises [IndexError], and [extract_payments] returns no
    payment list at all, the open payment included.  These are the segments
    [parse_edi_content] reads from the text CLP*PCN1*1*100.00*80.00~ followed
    by SVC**100.00*80.00~. *)
Theorem extract_payments_raises_on_empty_composite :
  fst (parse_edi_content "CLP*PCN1*1*100.00*80.00~SVC**100.00*80.00~")
  = [["CLP"; "PCN1"; "1"; "100.00"; "80.00"]; ["SVC"; ""; "100.00"; "80.00"]]
  /\ extract_payments
       [["CLP"; "PCN1"; "1"; "100.00"; "80.00"]; ["SVC"; ""; "100.00"; "80.00"]]
       "f.835" ":"
     = Raise IndexError
  /\ returned_payments
       (extract_payments
          [["CLP"; "PCN1"; "1"; "100.00"; "80.00"];
           ["SVC"; ""; "100.00"; "80.00"]]
          "f.835" ":")
     = None.
Proof.
  repeat split.
Qed.

End Parse835Facts.

(** ** The parsers on sample segments *)

Lemma parse_cas_adjustments_walk_witness :
  map adjustment_key
    (fst (parse_cas_adjustments (B := Sample.runtime)
            ["CAS"; "ZZ"; "999"; "12.34"; "1"] None))
  = [("ZZ", "999", Some (Qmake 617 50), Some 1%Z)].
Proof.
  rewrite (proj1 (proj2 (parse_cas_adjustments_walk (B := Sample.runtime)
                           ["CAS"; "ZZ"; "999"; "12.34"; "1"] None)));
    [reflexivity | simpl; lia].
Defined.

(** The segment of the adjustment-triplet example does not decode into the
    two entries (CO, 45, 50.00) and (PR, 2, 25.00). *)
Lemma cas_second_group_not_decoded :
  map adjustment_key
    (fst (parse_cas_adjustments (B := Sample.runtime)
            ["CAS"; "CO"; "45"; "50.00"; "PR"; "2"; "25.00"] None))
  <> [("CO", "45", Some (Qmake 50 1), None);
      ("PR", "2", Some (Qmake 25 1), None)].
Proof.
  vm_compute. discriminate.
Qed.

Lemma dtm_routes_payment_dates_witness :
  exists st',
    step (B := Sample.runtime) "f.835" ":"
      (open_payment "f.835" initial_state Sample.clp_segment)
      ["DTM"; "573"; "20260101"] = Ok st'
    /\ option_map (fun cp => payment_date (payment cp)) (current_payment st')
       = Some (Some "2026-01-01").
Proof.
  destruct (dtm_routes_payment_dates (B := Sample.runtime) "f.835" ":"
              (open_payment "f.835" initial_state Sample.clp_segment)
              _ "573" "20260101" [] eq_refl)
    as (st' & cp' & E & H & P & _).
  exists st'. split; [exact E|].
  rewrite H. simpl. f_equal.
  apply (proj1 (P (or_introl eq_refl))); [reflexivity | discriminate].
Defined.

(** Two valid paid-dates under different qualifiers: the payment holds the
    second, not the first. *)
Lemma paid_date_last_valid_wins :
  parse_date (B := Sample.runtime) "20260101" = Some "2026-01-01"
  /\ parse_date (B := Sample.runtime) "20260202" = Some "2026-02-02"
  /\ option_map (map (fun r => payment_date (payment r)))
       (returned_payments
          (extract_payments (B := Sample.runtime)
             [Sample.clp_segment; ["DTM"; "573"; "20260101"];
              ["DTM"; "050"; "20260202"]]
             "f.835" ":"))
     = Some [Some "2026-02-02"]
  /\ option_map (map (fun r => payment_date (payment r)))
       (returned_payments
          (extract_payments (B := Sample.runtime)
             [Sample.clp_segment; ["DTM"; "573"; "20260101"];
              ["DTM"; "050"; "20260202"]]
             "f.835" ":"))
     <> Some [Some "2026-01-01"].
Proof.
  repeat split. vm_compute. discriminate.
Qed.

Lemma final_payment_flushed_witness :
  exists earlier cp,
    returned_payments
      (extract_payments (B := Sample.runtime)
         [["CLP"; "PCN0"; "4"; "10.00"; "0.00"]; Sample.clp_segment;
          ["CAS"; "PR"; "1"; "20.00"]]
         "f.835" ":")
    = Some (earlier ++ [cp])
    /\ patient_control_number (clp (payment cp)) = "PCN1".
Proof.
  destruct (final_payment_flushed (B := Sample.runtime) "f.835" ":"
              [["CLP"; "PCN0"; "4"; "10.00"; "0.00"]] [["CAS"; "PR"; "1"; "20.00"]]
              Sample.clp_segment _ eq_refl
              ltac:(repeat constructor) eq_refl)
    as (earlier & cp & E & P & _).
  exists earlier, cp. split; [now rewrite <- E | exact P].
Defined.

Lemma extract_payments_returns_witness :
  exists ps,
    returned_payments
      (extract_payments (B := Sample.runtime)
         [Sample.clp_segment; ["SVC"; "HC:99213:25"; "100.00"; "80.00"]] "f.835" ":")
    = Some ps.
Proof.
  apply (extract_payments_returns (B := Sample.runtime)).
  repeat constructor.
Defined.

(* ================================================================== *)
(** * Properties of [parse_837p]                                       *)
(* ================================================================== *)

Import Parse837p.

Lemma hi_elements_entries (sep : string) (elements : list string) :
  forall ds,
    hi_elements sep elements ds
    = ds ++ entries_after (List.length ds) (composites sep elements).
Proof.
  unfold composites.
  induction elements as [|element rest IH]; intros ds;
    cbn [hi_elements flat_map].
  - now rewrite app_nil_r.
  - destruct (Nat.leb 2 (List.length (split_composite element sep))).
    + rewrite IH, length_app, <- app_assoc. cbn [List.length app entries_after].
      now rewrite Nat.add_1_r.
    + apply IH.
Qed.

Lemma entries_typed_by_qualifier (l : list (string * string)) : forall n,
  Forall (fun d => diagnosis_type d
                   = Py.dict_get DIAGNOSIS_TYPE_MAP (code_qualifier d) "other")
    (entries_after n l).
Proof.
  induction l as [|[q c] l IH]; intros n; simpl; constructor;
    [reflexivity | apply IH].
Qed.

(** C5 (amended).  An HI segment met in header context adds one diagnosis
    entry for each of its composites that has two components or more, in
    order, numbered on from the entries already held; a composite with fewer
    components adds nothing.  The type of every entry, the first included,
    is the one the fixed table gives its own qualifier, and "other" when the
    table does not hold the qualifier.  Outside header context the segment
    adds nothing. *)
Theorem hi_segment_entries {B : Builtins} (sep : string) (st : Parse837p.State)
  (elements : list string) :
  (in_header st = true ->
   Parse837p.step sep st ("HI" :: elements)
   = Ok {| in_header := true;
           current_line_number := current_line_number st;
           diagnoses :=
             diagnoses st
             ++ entries_after (List.length (diagnoses st))
                  (composites sep elements) |})
  /\ (in_header st = false -> Parse837p.step sep st ("HI" :: elements) = Ok st)
  /\ Forall (fun d => diagnosis_type d
                      = Py.dict_get DIAGNOSIS_TYPE_MAP (code_qualifier d) "other")
       (entries_after (List.length (diagnoses st)) (composites sep elements)).
Proof.
  split; [|split; [|apply entries_typed_by_qualifier]].
  - intros H. unfold Parse837p.step. rewrite H. simpl.
    now rewrite hi_elements_entries.
  - intros H. unfold Parse837p.step. now rewrite H.
Qed.

Lemma hi_segment_entries_witness :
  Parse837p.step (B := Sample.runtime) ":" Parse837p.initial_state
    ["HI"; "ABK:Z123"; "ZZZ:U999"]
  = Ok {| in_header := true;
          current_line_number := None;
          diagnoses := [mkDiagnosis "Z123" "principal" "ABK" 1;
                        mkDiagnosis "U999" "other" "ZZZ" 2] |}.
Proof.
  rewrite (proj1 (hi_segment_entries (B := Sample.runtime) ":"
                    Parse837p.initial_state ["ABK:Z123"; "ZZZ:U999"]));
    reflexivity.
Defined.

(** A first composite under the qualifier ABF is typed "other", not
    "principal", and a composite of one component yields no entry. *)
Lemma hi_first_entry_by_qualifier :
  extract_claim_diagnoses (B := Sample.runtime)
    [["HI"; "ABF:J45"; "ABK"; "ABK:E11"]] ":"
  = Ok [mkDiagnosis "J45" "other" "ABF" 1;
        mkDiagnosis "E11" "principal" "ABK" 2]
  /\ first_type (hi_elements ":" ["ABF:J45"; "ABK"; "ABK:E11"] [])
     <> Some "principal"
  /\ List.length (hi_elements ":" ["ABF:J45"; "ABK"; "ABK:E11"] []) <> 3.
Proof.
  repeat split; vm_compute; discriminate.
Qed.

(* ================================================================== *)
(** * Further properties of [edi_utils]                                *)
(* ================================================================== *)

Import Tokens.

Lemma append_nil_r (s : string) : (s ++ "")%string = s.
Proof.
  induction s as [|c s IH]; simpl; [reflexivity | now rewrite IH].
Qed.

Lemma append_assoc (a b c : string) :
  ((a ++ b) ++ c)%string = (a ++ (b ++ c))%string.
Proof.
  induction a as [|x a IH]; simpl; [reflexivity | now rewrite IH].
Qed.

Lemma length_append (a b : string) :
  String.length (a ++ b)%string = String.length a + String.length b.
Proof.
  induction a as [|x a IH]; simpl; [reflexivity | now rewrite IH].
Qed.

Lemma join_cons (sep x : string) (l : list string) :
  l <> [] -> join sep (x :: l) = (x ++ sep ++ join sep l)%string.
Proof.
  destruct l; [congruence | reflexivity].
Qed.

Lemma prefix_append (sep s : string) :
  prefix sep s = true -> exists r, s = (sep ++ r)%string.
Proof.
  revert s. induction sep as [|c sep IH]; intros s H.
  - now exists s.
  - destruct s as [|d s]; simpl in H; [discriminate|].
    destruct (ascii_dec c d) as [-> | N]; [|discriminate].
    destruct (IH s H) as [r ->]. now exists r.
Qed.

Lemma split_from_skip (sep : string) (t : string) : forall s cur,
  Py.split_from sep (String.length t) cur (t ++ s) = Py.split_from sep 0 cur s.
Proof.
  induction t as [|c t IH]; intros s cur; [reflexivity|].
  simpl. apply IH.
Qed.

Lemma join_split_from (sep : string) (n : nat) :
  sep <> "" ->
  forall s cur, String.length s <= n ->
    join sep (Py.split_from sep 0 cur s) = (cur ++ s)%string.
Proof.
  intros N. induction n as [|n IH]; intros s cur L.
  - destruct s; [|simpl in L; lia]. simpl. now rewrite append_nil_r.
  - destruct s as [|c s]; [simpl; now rewrite append_nil_r|].
    cbn [Py.split_from].
    destruct (prefix sep (String c s)) eqn:P.
    + destruct (prefix_append _ _ P) as [r E].
      destruct sep as [|c' sep']; [congruence|].
      cbn [append] in E. injection E as E1 E2. subst c' s.
      replace (String.length (String c sep') - 1) with (String.length sep')
        by (simpl; lia).
      rewrite split_from_skip.
      rewrite join_cons by apply split_from_nonempty.
      rewrite IH; [reflexivity|].
      simpl in L. rewrite length_append in L. lia.
    + rewrite IH by (simpl in L; lia).
      rewrite append_assoc. reflexivity.
Qed.

(** Joining the pieces of a split with the separator gives the string back. *)
Lemma join_split (s sep : string) :
  sep <> "" -> join sep (Py.split s sep) = s.
Proof.
  intros N. unfold Py.split.
  now rewrite (join_split_from sep (String.length s) N s "" (Nat.le_refl _)).
Qed.

(** X3.  [split_composite] loses nothing of a non-empty value: it returns at
    least one component, and the components joined by the separator it split
    on, which is the declared one, [:] or [>], are the value. *)
Theorem split_composite_lossless (value component_sep : string) :
  value <> "" ->
  split_composite value component_sep <> []
  /\ exists sep,
       In sep [component_sep; ":"; ">"]
       /\ sep <> ""
       /\ join sep (split_composite value component_sep) = value.
Proof.
  intros V. split; [now apply split_composite_nonempty|].
  unfold split_composite. apply truthy_true in V. rewrite V.
  simpl negb. cbv iota.
  destruct (Py.truthy component_sep && Py.contains component_sep value) eqn:C.
  - apply andb_prop in C as [T _]. apply truthy_true in T.
    exists component_sep. split; [now left|]. split; [exact T|].
    now apply join_split.
  - destruct (Py.contains ":" value).
    + exists ":". split; [simpl; auto|]. split; [discriminate|].
      now apply join_split.
    + destruct (Py.contains ">" value).
      * exists ">". split; [simpl; auto|]. split; [discriminate|].
        now apply join_split.
      * exists ":". split; [simpl; auto|]. split; [discriminate|].
        reflexivity.
Qed.

Lemma split_composite_lossless_witness :
  exists sep,
    In sep [":"; ":"; ">"]
    /\ sep <> ""
    /\ join sep (split_composite "HC>99213>25:59" ":") = "HC>99213>25:59".
Proof.
  apply (proj2 (split_composite_lossless "HC>99213>25:59" ":"
                  ltac:(discriminate))).
Defined.

Lemma detect_separators_one (content : string) :
  exists t e,
    segment (detect_delimiters content) = one t
    /\ element (detect_delimiters content) = one e.
Proof.
  destruct (detect_trichotomy content)
    as [F | [(p & F & L) | (p & e & c & s & H)]].
  - rewrite (detect_no_marker _ F). now exists "~"%char, "*"%char.
  - rewrite (detect_too_short _ _ F L). now exists "~"%char, "*"%char.
  - rewrite (detect_envelope _ _ _ _ _ H).
    destruct (Py.isspace e || Py.isspace s);
      [now exists "~"%char, "*"%char | now exists s, e].
Qed.

Lemma free_of_filter (c : ascii) (keep : ascii -> bool) (s : string) :
  free_of c s = true -> free_of c (Py.filter_chars keep s) = true.
Proof.
  unfold free_of. induction s as [|x s IH]; simpl; [reflexivity|].
  intros H. apply andb_prop in H as [Hx Hs].
  destruct (keep x); simpl; [rewrite Hx; now apply IH | now apply IH].
Qed.

Lemma free_of_remove (c : ascii) (s : string) :
  free_of c (Py.remove_char c s) = true.
Proof.
  unfold free_of, Py.remove_char. induction s as [|x s IH]; simpl;
    [reflexivity|].
  destruct (Ascii.eqb x c) eqn:E; simpl; [exact IH | now rewrite E].
Qed.

Lemma clean_segment_no_breaks (seg : string) :
  free_of "010" (clean_segment seg) = true
  /\ free_of "013" (clean_segment seg) = true.
Proof.
  unfold clean_segment. split.
  - apply free_of_filter, free_of_remove.
  - apply free_of_remove.
Qed.

Lemma collect_segments_texts (sep : string) (raws : list string) :
  sep <> "" ->
  Forall (fun seg => seg <> []
                     /\ join sep seg <> ""
                     /\ free_of "010" (join sep seg) = true
                     /\ free_of "013" (join sep seg) = true)
    (collect_segments sep raws).
Proof.
  intros N. induction raws as [|raw raws IH]; simpl; [constructor|].
  destruct (Py.truthy (clean_segment raw)) eqn:T; [|exact IH].
  constructor; [|exact IH].
  rewrite (join_split _ _ N). apply truthy_true in T.
  split; [apply split_from_nonempty|]. split; [exact T|].
  apply clean_segment_no_breaks.
Qed.

(** X4.  Every segment [parse_edi_content] returns holds at least one
    element, and its text, the elements joined by the element separator in
    effect, is not empty and holds neither a line feed nor a carriage
    return.  The delimiters returned are the detected ones. *)
Theorem parse_edi_content_segments (content : string) :
  snd (parse_edi_content content) = detect_delimiters content
  /\ Forall (fun seg =>
               seg <> []
               /\ join (element (detect_delimiters content)) seg <> ""
               /\ free_of "010" (join (element (detect_delimiters content)) seg)
                  = true
               /\ free_of "013" (join (element (detect_delimiters content)) seg)
                  = true)
       (fst (parse_edi_content content)).
Proof.
  split; [reflexivity|].
  unfold parse_edi_content. cbn [fst].
  apply collect_segments_texts.
  destruct (detect_separators_one content) as (t & e & _ & ->). discriminate.
Qed.

Lemma prefix_one_head (c d : ascii) (s : string) :
  prefix (one c) (String d s) = Ascii.eqb c d.
Proof.
  unfold one. simpl.
  destruct (ascii_dec c d) as [-> | N].
  - rewrite Ascii.eqb_refl. now destruct s.
  - symmetry. now apply Ascii.eqb_neq.
Qed.

Lemma split_from_plain (c : ascii) (x : string) : forall cur rest,
  free_of c x = true ->
  Py.split_from (one c) 0 cur (x ++ rest)
  = Py.split_from (one c) 0 (cur ++ x) rest.
Proof.
  unfold free_of.
  induction x as [|d x IH]; intros cur rest F.
  - simpl. now rewrite append_nil_r.
  - simpl in F. apply andb_prop in F as [Fd Fx].
    cbn [append Py.split_from]. rewrite prefix_one_head.
    apply negb_true_iff in Fd. rewrite Ascii.eqb_sym, Fd.
    rewrite (IH _ _ Fx), append_assoc. reflexivity.
Qed.

Lemma split_from_at_sep (c : ascii) (cur rest : string) :
  Py.split_from (one c) 0 cur (String c rest)
  = cur :: Py.split_from (one c) 0 "" rest.
Proof.
  cbn [Py.split_from]. rewrite prefix_one_head, Ascii.eqb_refl. reflexivity.
Qed.

(** Splitting what was joined gives the parts back, when none holds the
    separator. *)
Lemma split_join (c : ascii) (l : list string) :
  l <> [] ->
  Forall (fun x => free_of c x = true) l ->
  Py.split (join (one c) l) (one c) = l.
Proof.
  unfold Py.split.
  induction l as [|x l IH]; intros N F; [congruence|].
  inversion F as [|? ? Fx Fl]; subst.
  destruct l as [|y l].
  - simpl. rewrite <- (append_nil_r x) at 1.
    now rewrite (split_from_plain _ _ _ _ Fx).
  - rewrite join_cons by discriminate.
    rewrite (split_from_plain _ _ _ _ Fx). cbn [append one].
    rewrite split_from_at_sep. f_equal. apply IH; [discriminate | exact Fl].
Qed.

Lemma free_of_append (c : ascii) (a b : string) :
  free_of c (a ++ b) = free_of c a && free_of c b.
Proof.
  unfold free_of. induction a as [|x a IH]; simpl; [reflexivity|].
  now rewrite IH, andb_assoc.
Qed.

Lemma free_of_join (c e : ascii) (l : list string) :
  c <> e ->
  Forall (fun x => free_of c x = true) l ->
  free_of c (join (one e) l) = true.
Proof.
  intros N. induction l as [|x l IH]; intros F; [reflexivity|].
  inversion F as [|? ? Fx Fl]; subst.
  destruct l as [|y l]; [exact Fx|].
  rewrite join_cons by discriminate.
  rewrite !free_of_append, Fx, (IH Fl). unfold free_of, one. simpl.
  apply Ascii.eqb_neq in N. rewrite Ascii.eqb_sym in N. now rewrite N.
Qed.

Lemma split_document (t e : ascii) (segs : list (list string)) :
  t <> e ->
  Forall (plain_segment t e) segs ->
  Py.split (document t e segs) (one t) = map (join (one e)) segs ++ [""].
Proof.
  intros N. unfold Py.split.
  induction segs as [|seg segs IH]; intros F; [reflexivity|].
  inversion F as [|? ? (_ & Fe & _ & _) Fs]; subst.
  cbn [document map app].
  rewrite split_from_plain.
  - rewrite split_from_at_sep. f_equal. now apply IH.
  - apply free_of_join; [exact N|].
    eapply Forall_impl; [|exact Fe]. now intros x [H _].
Qed.

Lemma collect_plain (t e : ascii) (segs : list (list string)) :
  Forall (plain_segment t e) segs ->
  collect_segments (one e) (map (join (one e)) segs ++ [""]) = segs.
Proof.
  induction segs as [|seg segs IH]; intros F; [reflexivity|].
  inversion F as [|? ? (Ne & Fe & C & T) Fs]; subst.
  cbn [map app collect_segments]. rewrite C.
  apply truthy_true in T. rewrite T.
  rewrite split_join; [now rewrite IH | exact Ne |].
  eapply Forall_impl; [|exact Fe]. now intros x [_ H].
Qed.

(** X5.  Tokenizing the text of a document gives its segments back, in
    order: when the delimiters detected in the text are its terminator and
    element separator, and each segment is plain (it has an element, no
    element holds either separator, and its text is not empty and is left
    unchanged by cleaning), [parse_edi_content] returns exactly the
    segments. *)
Theorem parse_edi_content_round_trip (t e : ascii)
  (segs : list (list string)) :
  t <> e ->
  Forall (plain_segment t e) segs ->
  segment (detect_delimiters (document t e segs)) = one t ->
  element (detect_delimiters (document t e segs)) = one e ->
  fst (parse_edi_content (document t e segs)) = segs.
Proof.
  intros N F St Se. unfold parse_edi_content. cbn [fst].
  rewrite St, Se, (split_document _ _ _ N F). now apply (collect_plain t).
Qed.

Lemma parse_edi_content_round_trip_witness :
  fst (parse_edi_content
         (document "~" "*"
            [["ST"; "835"; "0001"];
             ["CLP"; "PCN1"; "1"; "100.00"; "80.00"; ""; "MC"];
             ["SE"; "3"; "0001"]]))
  = [["ST"; "835"; "0001"];
     ["CLP"; "PCN1"; "1"; "100.00"; "80.00"; ""; "MC"];
     ["SE"; "3"; "0001"]].
Proof.
  apply parse_edi_content_round_trip.
  - discriminate.
  - unfold plain_segment.
    repeat constructor; try discriminate.
  - reflexivity.
  - reflexivity.
Defined.

(* ================================================================== *)
(** * Further properties of [claim_matching]                           *)
(* ================================================================== *)

Import Matches.

Lemma all_chars_filter (p : ascii -> bool) (s : string) :
  Py.all_chars p (Py.filter_chars p s) = true.
Proof.
  induction s as [|c s IH]; simpl; [reflexivity|].
  destruct (p c) eqn:E; simpl; [now rewrite E | exact IH].
Qed.

Lemma filter_chars_id (p : ascii -> bool) (s : string) :
  Py.all_chars p s = true -> Py.filter_chars p s = s.
Proof.
  induction s as [|c s IH]; simpl; [reflexivity|].
  intros H. apply andb_prop in H as [Hc Hs]. now rewrite Hc, (IH Hs).
Qed.

Lemma key_code (n : nat) :
  Py.between 65 90 n || Py.between 48 57 n = true ->
  (Py.between 9 13 n || Py.between 28 32 n || Nat.eqb n 133 || Nat.eqb n 160
   = false)
  /\ Py.between 97 122 n = false
  /\ Nat.eqb n 223 = false
  /\ Py.between 224 254 n = false.
Proof.
  unfold Py.between. intros H.
  apply orb_prop in H. rewrite !andb_true_iff, !Nat.leb_le in H.
  repeat split; apply not_true_iff_false;
    rewrite ?orb_true_iff, ?andb_true_iff, ?Nat.leb_le, ?Nat.eqb_eq; lia.
Qed.

Lemma key_char_not_space (c : ascii) :
  is_key_char c = true -> Py.isspace c = false.
Proof.
  intros H. apply (key_code (Py.code c) H).
Qed.

Lemma key_char_upper (c : ascii) :
  is_key_char c = true -> Py.upper_char c = one c.
Proof.
  intros H. destruct (key_code (Py.code c) H) as (_ & A & B & C).
  unfold Py.upper_char. cbv zeta. now rewrite A, B, C.
Qed.

Lemma upper_key_chars (s : string) :
  Py.all_chars is_key_char s = true -> Py.upper s = s.
Proof.
  induction s as [|c s IH]; simpl; [reflexivity|].
  intros H. apply andb_prop in H as [Hc Hs].
  now rewrite (key_char_upper _ Hc), (IH Hs).
Qed.

Lemma rstrip_key_chars (s : string) :
  Py.all_chars is_key_char s = true -> Py.rstrip s = s.
Proof.
  induction s as [|c s IH]; simpl; [reflexivity|].
  intros H. apply andb_prop in H as [Hc Hs]. rewrite (IH Hs).
  destruct s; [now rewrite (key_char_not_space _ Hc) | reflexivity].
Qed.

Lemma strip_key_chars (s : string) :
  Py.all_chars is_key_char s = true -> Py.strip s = s.
Proof.
  intros H. unfold Py.strip.
  assert (L : Py.lstrip s = s).
  { destruct s as [|c s]; [reflexivity|]. simpl in *.
    apply andb_prop in H as [Hc _]. now rewrite (key_char_not_space _ Hc). }
  rewrite L. now apply rstrip_key_chars.
Qed.

(** X6.  A normalized claim key holds only the characters A to Z and 0 to 9,
    and normalizing it again changes nothing. *)
Theorem normalize_claim_key_idempotent (value : option string) :
  Py.all_chars is_key_char (normalize_claim_key value) = true
  /\ normalize_claim_key (Some (normalize_claim_key value))
     = normalize_claim_key value.
Proof.
  assert (A : Py.all_chars is_key_char (normalize_claim_key value) = true).
  { destruct value; [apply all_chars_filter | reflexivity]. }
  split; [exact A|].
  unfold normalize_claim_key at 1.
  rewrite (strip_key_chars _ A), (upper_key_chars _ A).
  now apply filter_chars_id.
Qed.

(** The list built by the chain of [if]s holds no string twice, no empty
    string and at most four strings. *)
Lemma candidates_distinct (key n z nz : string) :
  key <> "" ->
  (z <> key -> n <> z) ->
  let l :=
    (let c1 := if Py.truthy n && negb (Py.list_mem n [key])
               then [key] ++ [n] else [key] in
     if Py.truthy z && negb (z =? key)%string
     then if Py.truthy nz && negb (Py.list_mem nz (c1 ++ [z]))
          then (c1 ++ [z]) ++ [nz] else c1 ++ [z]
     else c1) in
  NoDup l /\ Forall (fun c => c <> "") l /\ List.length l <= 4
  /\ hd_error l = Some key.
Proof.
  intros K NZ. unfold Py.truthy, Py.list_mem. cbn -[String.eqb].
  decide_eqb;
    repeat match goal with
      | H : ?a <> ?b -> _, N : ?a <> ?b |- _ => specialize (H N)
      end;
    (split; [repeat constructor; simpl; intuition congruence|]);
    (split; [repeat constructor; congruence|]);
    (split; [simpl; lia | reflexivity]).
Qed.

(** X7.  The candidate keys of any value are pairwise different, none is
    empty, and there are at most four of them; when the trimmed value is not
    empty it is the first candidate. *)
Theorem claim_key_candidates_distinct (value : option string) :
  NoDup (claim_key_candidates value)
  /\ Forall (fun c => c <> "") (claim_key_candidates value)
  /\ List.length (claim_key_candidates value) <= 4
  /\ (forall v, value = Some v -> Py.strip v <> "" ->
                hd_error (claim_key_candidates value) = Some (Py.strip v)).
Proof.
  destruct value as [v|].
  - unfold claim_key_candidates.
    destruct (Py.truthy (Py.strip v)) eqn:T.
    + apply truthy_true in T. simpl negb. cbv iota.
      destruct (candidates_distinct (Py.strip v)
                  (normalize_claim_key (Some (Py.strip v)))
                  (Py.lstrip_char "0" (Py.strip v))
                  (normalize_claim_key
                     (Some (Py.lstrip_char "0" (Py.strip v)))) T)
        as (A & B & C & D).
      { intros N E. revert E. now apply stripped_not_normalized. }
      repeat split; try assumption.
      intros v' E _. injection E as <-. exact D.
    + simpl. repeat split; try constructor; try lia.
      intros v' E N. injection E as <-. apply truthy_false in T. congruence.
  - simpl. repeat split; try constructor; try lia. discriminate.
Qed.

Lemma claim_key_candidates_distinct_witness :
  hd_error (claim_key_candidates (Some " 00-ab 123 ")) = Some "00-ab 123".
Proof.
  apply (proj2 (proj2 (proj2
           (claim_key_candidates_distinct (Some " 00-ab 123 "))))
           " 00-ab 123 " eq_refl).
  discriminate.
Defined.

(** ** What each loop returns *)

Lemma first_hit_answered (q : string -> list Z) (l : list string) c found :
  first_hit q l c found -> answered q l found.
Proof.
  intros (before & after & more & -> & _ & E).
  exists c. split; [apply in_elt | now rewrite E].
Qed.

Lemma first_hit_cases (q : string -> list Z) (l : list string) :
  misses q l \/ exists c found, first_hit q l c found.
Proof.
  induction l as [|x l IH]; [left; constructor|].
  destruct (q x) as [|found more] eqn:E.
  - destruct IH as [M | (c & f & before & after & more & -> & M & H)].
    + left. now constructor.
    + right. exists c, f, (x :: before), after, more.
      repeat split; [now constructor | exact H].
  - right. exists x, found, [], l, more. repeat split; [constructor | exact E].
Qed.

Lemma first_qualified_ref_cases (client : Client) (qs l : list string) :
  no_qualified_ref client qs l
  \/ exists c q found, first_qualified_ref client qs l c q found.
Proof.
  induction l as [|x l IH]; [left; constructor|].
  destruct (first_hit_cases
              (fun q => references_by_qualifier_and_value client q x) qs)
    as [M | (q & found & H)].
  - destruct IH as [M' | (c & q & f & before & after & -> & N & H)].
    + left. now constructor.
    + right. exists c, q, f, (x :: before), after.
      repeat split; [now constructor | exact H].
  - right. exists x, q, found, [], l. repeat split; [constructor | exact H].
Qed.

(** The result of [match_claim_header], by the first strategy that hits. *)
Lemma match_claim_header_cases (client : Client)
  (qualifier_priority : list string)
  (pcn payer_claim_control_number : option string) :
  let run :=
    match_claim_header client qualifier_priority pcn payer_claim_control_number in
  let ps := claim_key_candidates pcn in
  let cs := claim_key_candidates payer_claim_control_number in
  (exists c found,
      first_hit (headers_by_claim_id client) ps c found
      /\ run = mkMatchResult (Some found) "clp01" "MATCHED_CLAIM_ID")
  \/ (exists c found,
         first_hit (headers_by_original_claim_id client) cs c found
         /\ run = mkMatchResult (Some found) "clp07_original_claim_id"
                    "MATCHED_ORIGINAL_CLAIM_ID")
  \/ (exists c q found,
         first_qualified_ref client qualifier_priority cs c q found
         /\ run = mkMatchResult (Some found) "clp07_ref" ("MATCHED_REF_" ++ q))
  \/ (exists c found,
         first_hit (references_by_value client) cs c found
         /\ run = mkMatchResult (Some found) "clp07_ref" "MATCHED_REF_ANY")
  \/ (no_strategy_hits client qualifier_priority pcn payer_claim_control_number
      /\ run = unmatched pcn payer_claim_control_number ps cs).
Proof.
  cbv zeta. unfold match_claim_header.
  destruct (first_hit_cases (headers_by_claim_id client)
              (claim_key_candidates pcn)) as [M1 | (c & f & H)].
  2:{ left. exists c, f. split; [exact H|].
      now rewrite (match_by_claim_id_hit _ _ _ _ H). }
  rewrite (match_by_claim_id_miss _ _ M1). right.
  destruct (first_hit_cases (headers_by_original_claim_id client)
              (claim_key_candidates payer_claim_control_number))
    as [M2 | (c & f & H)].
  2:{ left. exists c, f. split; [exact H|].
      now rewrite (match_by_original_claim_id_hit _ _ _ _ H). }
  rewrite (match_by_original_claim_id_miss _ _ M2). right.
  destruct (first_qualified_ref_cases client qualifier_priority
              (claim_key_candidates payer_claim_control_number))
    as [M3 | (c & q & f & H)].
  2:{ left. exists c, q, f. split; [exact H|].
      now rewrite (match_by_prioritized_ref_hit _ _ _ _ _ _ H). }
  rewrite (match_by_prioritized_ref_miss _ _ _ M3). right.
  destruct (first_hit_cases (references_by_value client)
              (claim_key_candidates payer_claim_control_number))
    as [M4 | (c & f & H)].
  2:{ left. exists c, f. split; [exact H|].
      now rewrite (match_by_any_ref_hit _ _ _ _ H). }
  rewrite (match_by_any_ref_miss _ _ M4). right.
  split; [|reflexivity]. unfold no_strategy_hits. auto.
Qed.

Lemma unmatched_fields (pcn clp07 : option string) (ps cs : list string) :
  claim_header_id (unmatched pcn clp07 ps cs) = None
  /\ strategy (unmatched pcn clp07 ps cs) = "unmatched".
Proof.
  unfold unmatched.
  repeat match goal with
    | |- context [if ?b then _ else _] => destruct b
    end; split; reflexivity.
Qed.

(** X8.  The strategy [match_claim_header] returns is always one of
    [MATCH_STRATEGY_KEYS], the keys under which the loader tallies its
    results.  It is "unmatched" exactly when no claim identifier is returned,
    and exactly when none of the four strategies finds a row. *)
Theorem match_claim_header_strategy (client : Client)
  (qualifier_priority : list string)
  (pcn payer_claim_control_number : option string) :
  let run :=
    match_claim_header client qualifier_priority pcn payer_claim_control_number in
  In (strategy run) MATCH_STRATEGY_KEYS
  /\ (claim_header_id run = None <-> strategy run = "unmatched")
  /\ (strategy run = "unmatched" <->
      no_strategy_hits client qualifier_priority pcn payer_claim_control_number).
Proof.
  cbv zeta.
  destruct (match_claim_header_cases client qualifier_priority pcn
              payer_claim_control_number)
    as [(c & f & H & ->) | [(c & f & H & ->) | [(c & q & f & H & ->)
       | [(c & f & H & ->) | (N & ->)]]]]; cbn [strategy claim_header_id].
  - split; [simpl; auto|]. split; [split; discriminate|].
    split; [discriminate|]. intros (M & _).
    destruct H as (b & a & m & E & _ & Q). rewrite E in M.
    apply Forall_elt in M. congruence.
  - split; [simpl; auto|]. split; [split; discriminate|].
    split; [discriminate|]. intros (_ & M & _).
    destruct H as (b & a & m & E & _ & Q). rewrite E in M.
    apply Forall_elt in M. congruence.
  - split; [simpl; auto|]. split; [split; discriminate|].
    split; [discriminate|]. intros (_ & _ & M & _).
    destruct H as (b & a & E & _ & (b' & a' & m & E' & _ & Q)).
    rewrite E in M. apply Forall_elt in M. unfold misses in M.
    rewrite E' in M. apply Forall_elt in M. congruence.
  - split; [simpl; auto|]. split; [split; discriminate|].
    split; [discriminate|]. intros (_ & _ & _ & M).
    destruct H as (b & a & m & E & _ & Q). rewrite E in M.
    apply Forall_elt in M. congruence.
  - destruct (unmatched_fields pcn payer_claim_control_number
                (claim_key_candidates pcn)
                (claim_key_candidates payer_claim_control_number)) as [I S].
    rewrite I, S. split; [simpl; auto|].
    split; [split; reflexivity|]. split; [intros _; exact N | reflexivity].
Qed.

(** X9.  [match_claim_header] invents no identifier: the one it returns is
    the first row the claim store answered to the query of the strategy it
    names, for one of the candidate keys; under the reference strategy the
    qualifier in the reason code is one of the priority list. *)
Theorem match_claim_header_sound (client : Client)
  (qualifier_priority : list string)
  (pcn payer_claim_control_number : option string) (found : Z) :
  let run :=
    match_claim_header client qualifier_priority pcn payer_claim_control_number in
  let ps := claim_key_candidates pcn in
  let cs := claim_key_candidates payer_claim_control_number in
  claim_header_id run = Some found ->
  (strategy run = "clp01"
   /\ answered (headers_by_claim_id client) ps found)
  \/ (strategy run = "clp07_original_claim_id"
      /\ answered (headers_by_original_claim_id client) cs found)
  \/ (strategy run = "clp07_ref"
      /\ exists q,
           In q qualifier_priority
           /\ reason_code run = ("MATCHED_REF_" ++ q)%string
           /\ answered (fun c => references_by_qualifier_and_value client q c)
                cs found)
  \/ (strategy run = "clp07_ref"
      /\ reason_code run = "MATCHED_REF_ANY"
      /\ answered (references_by_value client) cs found).
Proof.
  cbv zeta.
  destruct (match_claim_header_cases client qualifier_priority pcn
              payer_claim_control_number)
    as [(c & f & H & ->) | [(c & f & H & ->) | [(c & q & f & H & ->)
       | [(c & f & H & ->) | (N & ->)]]]]; cbn [strategy claim_header_id
                                                  reason_code].
  - intros E; injection E as <-. left. split; [reflexivity|].
    eapply first_hit_answered; eauto.
  - intros E; injection E as <-. right; left. split; [reflexivity|].
    eapply first_hit_answered; eauto.
  - intros E; injection E as <-. right; right; left. split; [reflexivity|].
    destruct H as (b & a & E & _ & (b' & a' & m & E' & _ & Q)).
    exists q. split; [rewrite E'; apply in_elt|]. split; [reflexivity|].
    exists c. split; [rewrite E; apply in_elt | now rewrite Q].
  - intros E; injection E as <-. right; right; right.
    split; [reflexivity|]. split; [reflexivity|].
    eapply first_hit_answered; eauto.
  - destruct (unmatched_fields pcn payer_claim_control_number
                (claim_key_candidates pcn)
                (claim_key_candidates payer_claim_control_number)) as [I _].
    rewrite I. discriminate.
Qed.

Lemma match_claim_header_sound_witness :
  answered
    (headers_by_original_claim_id
       (table_client [mkHeaderRow 20 "DIFFERENT" (Some "PAYERCTRL123")] []))
    (claim_key_candidates (Some "PAYERCTRL123")) 20.
Proof.
  destruct (match_claim_header_sound
              (table_client [mkHeaderRow 20 "DIFFERENT" (Some "PAYERCTRL123")] [])
              default_reference_qualifier_priority
              (Some "NO_MATCH") (Some "PAYERCTRL123") 20 eq_refl)
    as [[S _] | [[_ A] | [[S _] | [S _]]]];
    [discriminate | exact A | discriminate | discriminate].
Defined.

(* ================================================================== *)
(** * Further properties of [parse_835]                                *)
(* ================================================================== *)

Import Parse835 Payments.

Section Parse835More.
Context {B : Builtins}.

Lemma parse_cas_adjustments_short (seg : list string)
  (summ : option Summary) :
  List.length seg < 4 -> parse_cas_adjustments seg summ = ([], summ).
Proof.
  intros L. unfold parse_cas_adjustments.
  apply Nat.ltb_lt in L. now rewrite L.
Qed.

Lemma parse_cas_adjustments_is_walk (seg : list string)
  (summ : option Summary) :
  4 <= List.length seg ->
  fst (parse_cas_adjustments seg summ)
  = walk_triplets (safe_get seg 1 "")
      (Py.dict_get ADJUSTMENT_GROUP_MAP (safe_get seg 1 "") "Unknown")
      true (skipn 2 seg).
Proof.
  intros L. unfold parse_cas_adjustments.
  assert (E : Nat.ltb (List.length seg) 4 = false) by now apply Nat.ltb_ge.
  rewrite E.
  destruct seg as [|a [|b rest]]; [simpl in L; lia | simpl in L; lia |].
  exact (cas_loop_walk (List.length (a :: b :: rest)) (a :: b :: rest)
           _ _ [a; b] rest [] _ eq_refl
           ltac:(simpl; lia) ltac:(simpl; lia)).
Qed.

(** The adjustments do not depend on whether a summary is kept. *)
Lemma parse_cas_adjustments_any_summary (seg : list string)
  (s1 s2 : option Summary) :
  fst (parse_cas_adjustments seg s1) = fst (parse_cas_adjustments seg s2).
Proof.
  destruct (Nat.lt_ge_cases (List.length seg) 4) as [L | L].
  - now rewrite !parse_cas_adjustments_short.
  - now rewrite !parse_cas_adjustments_is_walk.
Qed.

Lemma walk_triplets_entries (g gd : string) (n : nat) :
  forall first elements,
    List.length elements <= n ->
    Forall (fun a => adjustment_group_code a = g
                     /\ adjustment_group_desc a = gd
                     /\ carc_code a <> ""
                     /\ carc_description a
                        = Py.dict_get CARC_MAP (carc_code a) ""
                     /\ level a = None
                     /\ (first = false ->
                         Py.dict_mem ADJUSTMENT_GROUP_MAP (carc_code a) = false))
      (walk_triplets g gd first elements)
    /\ 3 * List.length (walk_triplets g gd first elements)
       <= List.length elements + 2.
Proof.
  induction n as [|n IH]; intros first elements L.
  - destruct elements; [|simpl in L; lia]. simpl. split; [constructor | lia].
  - destruct elements as [|reason r1]; [simpl; split; [constructor | lia]|].
    cbn [walk_triplets].
    destruct (Py.truthy reason) eqn:T; cbn [negb];
      [|simpl; split; [constructor | lia]].
    apply truthy_true in T.
    destruct (Py.dict_mem ADJUSTMENT_GROUP_MAP reason && negb first) eqn:G;
      [simpl; split; [constructor | lia]|].
    assert (G' : first = false ->
                 Py.dict_mem ADJUSTMENT_GROUP_MAP reason = false).
    { intros ->. now rewrite andb_true_r in G. }
    destruct r1 as [|amount [|third rest]].
    + split; [repeat constructor; assumption | simpl; lia].
    + split; [repeat constructor; assumption | simpl; lia].
    + destruct (Py.dict_mem ADJUSTMENT_GROUP_MAP third).
      * split; [repeat constructor; assumption | simpl; lia].
      * destruct (IH false rest) as [F C]; [simpl in L; lia|].
        split.
        -- constructor; [repeat split; assumption|].
           eapply Forall_impl; [|exact F].
           intros a (A1 & A2 & A3 & A4 & A5 & A6).
           repeat split; try assumption. intros _. now apply A6.
        -- simpl in *. lia.
Qed.

(** X10.  Every adjustment [parse_cas_adjustments] returns carries the group
    code of the segment and its description, a reason code that is not
    empty, with the description the table of reason codes gives it, and no
    level.  There are at most a third as many adjustments as the segment has
    elements. *)
Theorem parse_cas_adjustments_entries (seg : list string)
  (summ : option Summary) :
  Forall (fun a =>
            adjustment_group_code a = safe_get seg 1 ""
            /\ adjustment_group_desc a
               = Py.dict_get ADJUSTMENT_GROUP_MAP (safe_get seg 1 "") "Unknown"
            /\ carc_code a <> ""
            /\ carc_description a = Py.dict_get CARC_MAP (carc_code a) ""
            /\ level a = None)
    (fst (parse_cas_adjustments seg summ))
  /\ 3 * List.length (fst (parse_cas_adjustments seg summ))
     <= List.length seg.
Proof.
  destruct (Nat.lt_ge_cases (List.length seg) 4) as [L | L].
  - rewrite parse_cas_adjustments_short by exact L. simpl.
    split; [constructor | lia].
  - rewrite parse_cas_adjustments_is_walk by exact L.
    destruct (walk_triplets_entries (safe_get seg 1 "")
                (Py.dict_get ADJUSTMENT_GROUP_MAP (safe_get seg 1 "") "Unknown")
                (List.length (skipn 2 seg)) true (skipn 2 seg)
                (Nat.le_refl _)) as [F C].
    split.
    + eapply Forall_impl; [|exact F]. intros a (A1 & A2 & A3 & A4 & A5 & _).
      repeat split; assumption.
    + rewrite length_skipn in C. lia.
Qed.

Lemma in_set_add (x c : string) (l : list string) :
  In c (set_add x l) <-> c = x \/ In c l.
Proof.
  unfold set_add, Py.list_mem.
  destruct (existsb (fun y => (y =? x)%string) l) eqn:E.
  - split; [auto|]. intros [-> | H]; [|exact H].
    apply existsb_exists in E as (y & I & Q).
    apply String.eqb_eq in Q. now subst.
  - rewrite in_app_iff. simpl. intuition.
Qed.

Lemma nodup_set_add (x : string) (l : list string) :
  NoDup l -> NoDup (set_add x l).
Proof.
  intros N. unfold set_add, Py.list_mem.
  destruct (existsb (fun y => (y =? x)%string) l) eqn:E; [exact N|].
  apply NoDup_app; [exact N | repeat constructor; auto |].
  intros y I [Q | []]. subst y.
  assert (T : existsb (fun z => (z =? x)%string) l = true).
  { apply existsb_exists. exists x. split; [exact I | apply String.eqb_refl]. }
  congruence.
Qed.

(** What the loop of [parse_cas_adjustments] leaves in the summary. *)
Lemma cas_loop_summary (seg : list string) (g gd : string) (fuel : nat) :
  forall idx acc s,
  exists new s',
    cas_loop fuel seg g gd idx acc (Some s) = (acc ++ new, Some s')
    /\ warnings s' = warnings s
    /\ unknown_adjustment_groups s' = unknown_adjustment_groups s
    /\ unknown_clp_status_codes s' = unknown_clp_status_codes s
    /\ invalid_dates s' = invalid_dates s
    /\ (NoDup (unknown_carc_codes s) -> NoDup (unknown_carc_codes s'))
    /\ (forall c, In c (unknown_carc_codes s') <->
                  In c (unknown_carc_codes s)
                  \/ (In c (map carc_code new)
                      /\ Py.dict_mem CARC_MAP c = false)).
Proof.
  assert (Stop : forall acc s, exists new s',
             (acc, Some s) = (acc ++ new, Some s')
             /\ warnings s' = warnings s
             /\ unknown_adjustment_groups s' = unknown_adjustment_groups s
             /\ unknown_clp_status_codes s' = unknown_clp_status_codes s
             /\ invalid_dates s' = invalid_dates s
             /\ (NoDup (unknown_carc_codes s) -> NoDup (unknown_carc_codes s'))
             /\ (forall c, In c (unknown_carc_codes s') <->
                           In c (unknown_carc_codes s)
                           \/ (In c (map carc_code new)
                               /\ Py.dict_mem CARC_MAP c = false))).
  { intros acc s. exists [], s. rewrite app_nil_r.
    repeat split; auto. intros [H | [[] _]]. exact H. }
  induction fuel as [|fuel IH]; intros idx acc s; [apply Stop|].
  cbn [cas_loop].
  destruct (negb (Nat.ltb idx (List.length seg))); [apply Stop|].
  destruct (negb (Py.truthy (safe_get seg idx ""))) eqn:T; [apply Stop|].
  destruct (Py.dict_mem ADJUSTMENT_GROUP_MAP (safe_get seg idx "")
            && negb (Nat.eqb idx 2)); [apply Stop|].
  apply negb_false_iff in T. rewrite T. cbn [andb].
  match goal with
  | |- context [let '(qty, idx') := ?p in _] => destruct p as [qty idx']
  end.
  set (carc := safe_get seg idx "") in *.
  match goal with
  | |- context [cas_loop fuel seg g gd idx' (acc ++ [?e]) (if ?b then _ else _)] =>
      set (entry := e); destruct b eqn:U
  end.
  - destruct (IH idx' (acc ++ [entry]) (add_unknown_carc carc s))
      as (new & s' & E & W & G & C & D & N & I).
    exists (entry :: new), s'. rewrite E, <- app_assoc.
    repeat split; try assumption.
    + intros Hn. apply N. now apply nodup_set_add.
    + intros H. apply I in H as [H | [H U']].
      * apply in_set_add in H as [-> | H]; [|now left].
        right. split; [now left|]. now apply negb_true_iff.
      * right. split; [now right | exact U'].
    + intros [H | [[<- | H] U']]; apply I.
      * left. apply in_set_add. now right.
      * left. apply in_set_add. now left.
      * right. now split.
  - destruct (IH idx' (acc ++ [entry]) s)
      as (new & s' & E & W & G & C & D & N & I).
    exists (entry :: new), s'. rewrite E, <- app_assoc.
    repeat split; try assumption.
    + intros H. apply I in H as [H | [H U']]; [now left|].
      right. split; [now right | exact U'].
    + intros [H | [[<- | H] U']]; apply I.
      * now left.
      * apply negb_false_iff in U. simpl in U', U. congruence.
      * right. now split.
Qed.

(** What a call of [parse_cas_adjustments] with a summary records in it. *)
Lemma parse_cas_adjustments_records (seg : list string) (s : Summary) :
  exists s',
    snd (parse_cas_adjustments seg (Some s)) = Some s'
    /\ fst (parse_cas_adjustments seg (Some s))
       = fst (parse_cas_adjustments seg None)
    /\ warnings s' = warnings s
    /\ unknown_clp_status_codes s' = unknown_clp_status_codes s
    /\ invalid_dates s' = invalid_dates s
    /\ (forall c, In c (unknown_adjustment_groups s') <->
                  In c (unknown_adjustment_groups s)
                  \/ (4 <= List.length seg /\ c = safe_get seg 1 ""
                      /\ c <> ""
                      /\ Py.dict_mem ADJUSTMENT_GROUP_MAP c = false))
    /\ (forall c, In c (unknown_carc_codes s') <->
                  In c (unknown_carc_codes s)
                  \/ (In c (map carc_code
                              (fst (parse_cas_adjustments seg (Some s))))
                      /\ Py.dict_mem CARC_MAP c = false))
    /\ (NoDup (unknown_adjustment_groups s) ->
        NoDup (unknown_adjustment_groups s'))
    /\ (NoDup (unknown_carc_codes s) -> NoDup (unknown_carc_codes s')).
Proof.
  destruct (Nat.lt_ge_cases (List.length seg) 4) as [L | L].
  - rewrite !parse_cas_adjustments_short by exact L. exists s. simpl.
    repeat split; auto.
    + intros [H | (L' & _)]; [exact H | lia].
    + intros [H | [[] _]]. exact H.
  - pose proof (parse_cas_adjustments_any_summary seg (Some s) None) as Any.
    set (g := safe_get seg 1 "").
    set (s0 := if Py.truthy g && negb (Py.dict_mem ADJUSTMENT_GROUP_MAP g)
               then add_unknown_group g s else s).
    destruct (cas_loop_summary seg g
                (Py.dict_get ADJUSTMENT_GROUP_MAP g "Unknown")
                (List.length seg) 2 [] s0)
      as (new & s' & R & W & G & C & D & N & I).
    cbn [app] in R.
    assert (P : parse_cas_adjustments seg (Some s) = (new, Some s')).
    { unfold parse_cas_adjustments.
      assert (E : Nat.ltb (List.length seg) 4 = false) by now apply Nat.ltb_ge.
      rewrite E. fold g. rewrite <- R. unfold s0.
      now destruct (Py.truthy g && negb (Py.dict_mem ADJUSTMENT_GROUP_MAP g)). }
    rewrite P in *. cbn [fst snd] in *. exists s'.
    split; [reflexivity|]. split; [exact Any|].
    assert (Fields : warnings s0 = warnings s
                     /\ unknown_clp_status_codes s0 = unknown_clp_status_codes s
                     /\ invalid_dates s0 = invalid_dates s
                     /\ unknown_carc_codes s0 = unknown_carc_codes s).
    { unfold s0.
      destruct (Py.truthy g && negb (Py.dict_mem ADJUSTMENT_GROUP_MAP g));
        repeat split. }
    destruct Fields as (F1 & F2 & F3 & F4).
    split; [congruence|]. split; [congruence|]. split; [congruence|].
    split; [|split; [|split]].
    + intros c. rewrite G. unfold s0.
      destruct (Py.truthy g && negb (Py.dict_mem ADJUSTMENT_GROUP_MAP g)) eqn:U.
      * apply andb_prop in U as [U1 U2].
        apply truthy_true in U1. apply negb_true_iff in U2.
        cbn [add_unknown_group unknown_adjustment_groups].
        rewrite in_set_add. split.
        -- intros [-> | H]; [right; auto | now left].
        -- intros [H | (_ & -> & _)]; [now right | now left].
      * split; [now left|]. intros [H | (_ & -> & N1 & N2)]; [exact H|].
        apply truthy_true in N1. rewrite N1, N2 in U. discriminate.
    + intros c. rewrite I, F4. reflexivity.
    + rewrite G. unfold s0.
      destruct (Py.truthy g && negb (Py.dict_mem ADJUSTMENT_GROUP_MAP g));
        [apply nodup_set_add | auto].
    + rewrite <- F4. exact N.
Qed.

(** X11.  Called with a summary, [parse_cas_adjustments] returns the same
    adjustments as without one and records in it exactly what it did not
    recognize: the group code of a segment of four elements or more, when it
    is not empty and not in the table of group codes, and the reason code of
    every adjustment returned that is not in the table of reason codes.
    Nothing else of the summary changes, and a code is never recorded
    twice. *)
Theorem parse_cas_adjustments_summary (seg : list string) (s : Summary) :
  exists s',
    snd (parse_cas_adjustments seg (Some s)) = Some s'
    /\ fst (parse_cas_adjustments seg (Some s))
       = fst (parse_cas_adjustments seg None)
    /\ warnings s' = warnings s
    /\ unknown_clp_status_codes s' = unknown_clp_status_codes s
    /\ invalid_dates s' = invalid_dates s
    /\ (forall c, In c (unknown_adjustment_groups s') <->
                  In c (unknown_adjustment_groups s)
                  \/ (4 <= List.length seg /\ c = safe_get seg 1 ""
                      /\ c <> ""
                      /\ Py.dict_mem ADJUSTMENT_GROUP_MAP c = false))
    /\ (forall c, In c (unknown_carc_codes s') <->
                  In c (unknown_carc_codes s)
                  \/ (In c (map carc_code
                              (fst (parse_cas_adjustments seg (Some s))))
                      /\ Py.dict_mem CARC_MAP c = false))
    /\ (NoDup (unknown_adjustment_groups s) ->
        NoDup (unknown_adjustment_groups s'))
    /\ (NoDup (unknown_carc_codes s) -> NoDup (unknown_carc_codes s')).
Proof. exact (parse_cas_adjustments_records seg s). Qed.

Lemma cas_of_adjustments (st : State) (seg : list string) :
  fst (cas_of st seg) = fst (parse_cas_adjustments seg None).
Proof.
  unfold cas_of. cbn [fst]. apply parse_cas_adjustments_any_summary.
Qed.

Lemma cas_of_summary (st : State) (seg : list string) :
  warnings (snd (cas_of st seg)) = warnings (summary st)
  /\ unknown_clp_status_codes (snd (cas_of st seg))
     = unknown_clp_status_codes (summary st)
  /\ invalid_dates (snd (cas_of st seg)) = invalid_dates (summary st).
Proof.
  unfold cas_of. cbn [snd].
  destruct (parse_cas_adjustments_records seg (summary st))
    as (s' & -> & _ & W & C & D & _).
  auto.
Qed.

Ltac seg_name :=
  repeat match goal with
    | H : _ && _ = true |- _ => apply andb_prop in H as [? ?]
    end;
  try match goal with
    | H : (?x =? _)%string = true |- _ =>
        is_var x; apply String.eqb_eq in H; subst x
    end.

(** What one iteration of the loop of [extract_payments] does, by the kind
    of segment. *)
Lemma step_cases (file sep : string) (st st' : State) (seg : list string) :
  step file sep st seg = Ok st' ->
  (opens_payment seg = true /\ st' = open_payment file st seg)
  \/ (opens_payment seg = false
      /\ payments st' = payments st
      /\ ((current_payment st = None /\ current_payment st' = None
           /\ current_svc st' = current_svc st
           /\ summary st' = summary st)
          \/ exists cp cp',
               current_payment st = Some cp
               /\ current_payment st' = Some cp'
               /\ clp (payment cp') = clp (payment cp)
               /\ ((is_cas seg = true /\ current_svc st = false
                    /\ current_svc st' = false
                    /\ summary st' = snd (cas_of st seg)
                    /\ service_lines cp' = service_lines cp
                    /\ adjustments cp'
                       = adjustments cp
                         ++ map (set_level "claim")
                              (fst (parse_cas_adjustments seg None)))
                   \/ (is_cas seg = true /\ current_svc st = true
                       /\ current_svc st' = true
                       /\ summary st' = snd (cas_of st seg)
                       /\ adjustments cp' = adjustments cp
                       /\ service_lines cp'
                          = update_last
                              (append_svc_adjustments
                                 (map (set_level "line")
                                    (fst (parse_cas_adjustments seg None))))
                              (service_lines cp))
                   \/ (is_cas seg = false /\ bad_date seg = false
                       /\ current_svc st' = true
                       /\ summary st' = summary st
                       /\ adjustments cp' = adjustments cp
                       /\ exists svc,
                            svc_adjustments svc = []
                            /\ service_lines cp' = service_lines cp ++ [svc])
                   \/ (is_cas seg = false
                       /\ current_svc st' = current_svc st
                       /\ summary st'
                          = (if bad_date seg
                             then count_invalid_date (summary st)
                             else summary st)
                       /\ adjustments cp' = adjustments cp
                       /\ service_lines cp' = service_lines cp)))).
Proof.
  destruct (opens_payment seg) eqn:O.
  { rewrite (step_clp _ _ _ _ O). intros E; injection E as <-. now left. }
  intros R. right. split; [reflexivity|].
  destruct seg as [|seg_id rest]; [discriminate|].
  unfold opens_payment in O. cbn [hd] in O.
  unfold step in R. rewrite O in R.
  destruct (current_payment st) as [cp|] eqn:H; cbn [is_some negb] in R.
  - match goal with |- ?G => remember G as Concl eqn:HC end.
    revert R.
    repeat match goal with
      | |- context [if ?b then _ else _] =>
          lazymatch b with
          | context [if _ then _ else _] => fail
          | _ => destruct b eqn:?
          end
      end.
    all: subst Concl; unfold is_cas, bad_date; cbn [hd].
    all: try (solve [
      intros E; seg_name;
      match goal with F : false = true |- _ => discriminate F end ]).
    all: try (solve [
      intros E; seg_name; injection E as <-;
      split; [reflexivity|]; right; exists cp; eexists;
      split; [reflexivity|]; split; [first [exact H | reflexivity]|];
      repeat match goal with
        | Q : ?b = true |- context [?b] => rewrite Q
        end;
      unfold payment_dates; cbn;
      repeat match goal with
        | |- context [if ?b then _ else _] => destruct b
        end;
      (split; [reflexivity|]); right; right; right;
      repeat split; reflexivity ]).
    + (* claim-level CAS *)
      seg_name. destruct (cas_of st ("CAS" :: rest)) as [adjs s] eqn:C.
      intros E; injection E as <-. split; [reflexivity|]. right.
      exists cp; eexists. split; [reflexivity|]. split; [reflexivity|].
      split; [reflexivity|].
      left. cbn [with_current current_svc current_payment service_lines
                 adjustments summary].
      repeat split; try assumption;
        try (now destruct (current_svc st)).
      now rewrite <- cas_of_adjustments with (st := st), C.
    + (* SVC *)
      seg_name. unfold open_service_line, bind.
      match goal with
      | |- context [match ?r with Ok _ => _ | Raise _ => _ end] =>
          destruct r; [|discriminate]
      end.
      intros E; injection E as <-. split; [reflexivity|]. right.
      exists cp; eexists. split; [reflexivity|]. split; [reflexivity|].
      split; [reflexivity|].
      right; right; left. cbn. repeat split. eexists. split; [|reflexivity].
      reflexivity.
    + (* line-level CAS *)
      seg_name. destruct (cas_of st ("CAS" :: rest)) as [adjs s] eqn:C.
      intros E; injection E as <-. split; [reflexivity|]. right.
      exists cp; eexists. split; [reflexivity|]. split; [reflexivity|].
      split; [reflexivity|].
      right; left. cbn [with_current current_svc current_payment service_lines
                 adjustments summary].
      repeat split; try assumption.
      now rewrite <- cas_of_adjustments with (st := st), C.
    + (* no branch applies *)
      intros E; injection E as <-. split; [reflexivity|]. right.
      exists cp, cp. split; [reflexivity|]. split; [exact H|].
      split; [reflexivity|].
      right; right; right.
      assert (D : (seg_id =? "DTM")%string
                  && (3 <=? Datatypes.length (seg_id :: rest)) = false).
      { destruct (seg_id =? "DTM")%string; [|reflexivity].
        cbn in *; assumption. }
      rewrite D. cbn [andb]. repeat split.
      destruct (seg_id =? "CAS")%string; [|reflexivity].
      destruct (current_svc st); cbn in *; assumption.
  - revert R.
    repeat match goal with
      | |- context [if ?b then _ else _] =>
          lazymatch b with
          | context [if _ then _ else _] => fail
          | _ => destruct b eqn:?
          end
      end.
    all: intros E; injection E as <-; split; [reflexivity|]; left;
      repeat split; first [exact H | reflexivity].
Qed.

(** ** The payments of a document *)

Lemma all_payments_some (st : State) (cp : PaymentRecord) :
  current_payment st = Some cp -> all_payments st = payments st ++ [cp].
Proof. unfold all_payments. now intros ->. Qed.

Lemma all_payments_none (st : State) :
  current_payment st = None -> all_payments st = payments st.
Proof. unfold all_payments. intros ->. apply app_nil_r. Qed.

Lemma all_payments_open (file : string) (st : State) (seg : list string) :
  exists cp,
    current_payment (open_payment file st seg) = Some cp
    /\ all_payments (open_payment file st seg) = all_payments st ++ [cp]
    /\ control_numbers cp = segment_control_numbers seg
    /\ service_lines cp = [] /\ adjustments cp = [].
Proof.
  eexists. split; [reflexivity|]. split; [|repeat split].
  unfold all_payments, open_payment. cbn [payments current_payment].
  destruct (current_payment st); [reflexivity|].
  now rewrite app_nil_r.
Qed.

Lemma list_sum_snoc {A : Type} (f : A -> nat) (l : list A) (x : A) :
  list_sum (map f (l ++ [x])) = list_sum (map f l) + f x.
Proof. rewrite map_app, list_sum_app. simpl. lia. Qed.

Lemma update_last_sum {A : Type} (f : A -> A) (g : A -> nat) (n : nat)
  (l : list A) :
  (forall x, g (f x) = g x + n) -> l <> [] ->
  list_sum (map g (update_last f l)) = list_sum (map g l) + n.
Proof.
  intros F. induction l as [|x [|y l] IH]; intros N.
  - contradiction.
  - simpl. rewrite F. lia.
  - change (update_last f (x :: y :: l)) with (x :: update_last f (y :: l)).
    rewrite !(map_cons g x).
    change (list_sum (g x :: ?r)) with (g x + list_sum r).
    rewrite IH by discriminate. lia.
Qed.

Lemma update_last_forall {A : Type} (f : A -> A) (P : A -> Prop)
  (l : list A) :
  (forall x, P x -> P (f x)) -> Forall P l -> Forall P (update_last f l).
Proof.
  intros F. induction l as [|x [|y l] IH]; intros H.
  - constructor.
  - inversion H; subst. constructor; auto.
  - change (update_last f (x :: y :: l)) with (x :: update_last f (y :: l)).
    inversion H; subst. constructor; auto.
Qed.

Lemma update_last_nonempty {A : Type} (f : A -> A) (l : list A) :
  l <> [] -> update_last f l <> [].
Proof. destruct l as [|x [|y l]]; [contradiction | discriminate..]. Qed.

Lemma set_level_forall (l : string) (adjs : list Adjustment) :
  Forall (fun a => level a = Some l) (map (set_level l) adjs).
Proof. induction adjs; constructor; auto. Qed.

(** What one iteration does to the payments: a payment-opening CLP segment
    adds one payment, with its control numbers; any other segment keeps the
    control numbers, and adds the entries of a CAS segment it decodes to the
    open payment. *)
Lemma step_payments (file sep : string) (st st' : State)
  (seg : list string) :
  step file sep st seg = Ok st' ->
  svc_attached st ->
  svc_attached st'
  /\ is_some (current_payment st')
     = opens_payment seg || is_some (current_payment st)
  /\ map control_numbers (all_payments st')
     = map control_numbers (all_payments st)
       ++ (if opens_payment seg then [segment_control_numbers seg] else [])
  /\ list_sum (map adjustment_count (all_payments st'))
     = list_sum (map adjustment_count (all_payments st))
       + (if negb (opens_payment seg) && is_some (current_payment st)
             && is_cas seg
          then List.length (entries_of seg) else 0)
  /\ (Forall levels_agree (all_payments st) ->
      Forall levels_agree (all_payments st')).
Proof.
  intros R I.
  destruct (step_cases _ _ _ _ _ R)
    as [[O ->] | (O & P & [(H & H' & S & _) | (cp & cp' & H & H' & K & D)])];
    rewrite O; cbn [negb andb orb].
  - destruct (all_payments_open file st seg) as (cp & H & A & C & L & J).
    rewrite A, H. repeat split.
    + intros Q. discriminate Q.
    + rewrite map_app. cbn [map]. now rewrite C.
    + rewrite list_sum_snoc. unfold adjustment_count at 2. rewrite L, J.
      reflexivity.
    + intros F. apply Forall_app. split; [exact F|].
      constructor; [|constructor]. unfold levels_agree. rewrite L, J.
      split; constructor.
  - rewrite (all_payments_none _ H), (all_payments_none _ H'), P, H, H'.
    rewrite app_nil_r. repeat split; auto.
    intros Q. rewrite S in Q. destruct (I Q) as (cp & E & _). congruence.
  - rewrite (all_payments_some _ _ H), (all_payments_some _ _ H'), P, H, H'.
    rewrite app_nil_r, !list_sum_snoc, !map_app. cbn [is_some andb map].
    assert (C : control_numbers cp' = control_numbers cp)
      by (unfold control_numbers; now rewrite K).
    rewrite C. unfold adjustment_count, levels_agree, entries_of.
    destruct D as [(-> & S & S' & _ & L & J) | [(-> & S & S' & _ & J & L)
                  | [(-> & _ & S' & _ & J & svc & V & L)
                  | (-> & S' & _ & J & L)]]]; rewrite J, L.
    + repeat split.
      * intros Q. congruence.
      * rewrite length_app, length_map. lia.
      * intros F. apply Forall_app in F as [F1 F2].
        apply Forall_app. split; [exact F1|].
        inversion F2 as [|? ? [G1 G2] _]; subst.
        constructor; [|constructor]. cbn beta. rewrite ?J, ?L.
        split; [|exact G2].
        apply Forall_app. split; [exact G1 | apply set_level_forall].
    + destruct (I S) as (cp0 & E & N).
      assert (cp0 = cp) by congruence. subst cp0.
      repeat split.
      * intros _. exists cp'. split; [exact H'|]. rewrite L.
        now apply update_last_nonempty.
      * rewrite (update_last_sum _ _
                   (List.length (fst (parse_cas_adjustments seg None))));
          [lia | | exact N].
        intros x. cbn. now rewrite length_app, length_map.
      * intros F. apply Forall_app in F as [F1 F2].
        apply Forall_app. split; [exact F1|].
        inversion F2 as [|? ? [G1 G2] _]; subst.
        constructor; [|constructor]. cbn beta. rewrite ?J, ?L.
        split; [exact G1|].
        apply update_last_forall; [|exact G2].
        intros x Fx. cbn. apply Forall_app. split; [exact Fx|].
        apply set_level_forall.
    + repeat split.
      * intros _. exists cp'. split; [exact H'|]. rewrite L.
        now destruct (service_lines cp).
      * rewrite list_sum_snoc, V. simpl. lia.
      * intros F. apply Forall_app in F as [F1 F2].
        apply Forall_app. split; [exact F1|].
        inversion F2 as [|? ? [G1 G2] _]; subst.
        constructor; [|constructor]. cbn beta. rewrite ?J, ?L.
        split; [exact G1|].
        apply Forall_app. split; [exact G2|].
        constructor; [|constructor]. rewrite V. constructor.
    + repeat split.
      * intros Q. rewrite S' in Q. destruct (I Q) as (cp0 & E & N).
        assert (cp0 = cp) by congruence. subst cp0.
        exists cp'. split; [exact H'|]. now rewrite L.
      * lia.
      * intros F. apply Forall_app in F as [F1 F2].
        apply Forall_app. split; [exact F1|].
        inversion F2 as [|? ? [G1 G2] _]; subst.
        constructor; [|constructor]. cbn beta. rewrite ?J, ?L.
        split; assumption.
Qed.

Lemma svc_attached_initial : svc_attached initial_state.
Proof. intros Q. discriminate Q. Qed.

Lemma decoded_cas_cons (open : bool) (seg : list string)
  (rest : list (list string)) :
  list_sum (map (fun s => List.length (entries_of s))
              (decoded_cas open (seg :: rest)))
  = (if negb (opens_payment seg) && open && is_cas seg
     then List.length (entries_of seg) else 0)
    + list_sum (map (fun s => List.length (entries_of s))
                  (decoded_cas (opens_payment seg || open) rest)).
Proof.
  unfold decoded_cas. cbn [payment_segments].
  destruct (opens_payment seg); [reflexivity|].
  destruct open; [|reflexivity].
  cbn [negb andb orb filter]. now destruct (is_cas seg).
Qed.

Lemma run_payments (file sep : string) (segs : list (list string)) :
  forall st st',
    run file sep st segs = Ok st' ->
    svc_attached st ->
    svc_attached st'
    /\ map control_numbers (all_payments st')
       = map control_numbers (all_payments st)
         ++ map segment_control_numbers (filter opens_payment segs)
    /\ list_sum (map adjustment_count (all_payments st'))
       = list_sum (map adjustment_count (all_payments st))
         + list_sum (map (fun s => List.length (entries_of s))
                       (decoded_cas (is_some (current_payment st)) segs))
    /\ (Forall levels_agree (all_payments st) ->
        Forall levels_agree (all_payments st')).
Proof.
  induction segs as [|seg segs IH]; intros st st' R I.
  - injection R as <-. rewrite app_nil_r. repeat split; auto.
  - simpl in R.
    destruct (step file sep st seg) as [st1|] eqn:E; simpl in R;
      [|discriminate].
    destruct (step_payments _ _ _ _ _ E I) as (I1 & O1 & C1 & A1 & L1).
    destruct (IH _ _ R I1) as (I2 & C2 & A2 & L2).
    split; [exact I2|]. split; [|split].
    + rewrite C2, C1, <- app_assoc. f_equal. cbn [filter].
      now destruct (opens_payment seg).
    + rewrite A2, A1, decoded_cas_cons, O1. lia.
    + auto.
Qed.

Lemma finish_payments (st : State) : fst (finish st) = all_payments st.
Proof.
  unfold finish, all_payments. cbn [fst].
  destruct (current_payment st); [reflexivity|].
  now rewrite app_nil_r.
Qed.

Lemma extract_payments_run (file sep : string) (segs : list (list string))
  (ps : list PaymentRecord) (s : Summary) :
  extract_payments segs file sep = Ok (ps, s) ->
  exists st, run file sep initial_state segs = Ok st /\ finish st = (ps, s).
Proof.
  unfold extract_payments.
  destruct (run file sep initial_state segs) as [st|]; simpl;
    [|discriminate].
  intros E. exists st. split; [reflexivity | congruence].
Qed.

(** X12.  When [extract_payments] returns, it returns one payment for each
    CLP segment of five elements or more, in the order of the document, and
    each payment carries the patient control number and the payer claim
    control number of its segment. *)
Theorem extract_payments_one_per_clp (file sep : string)
  (segs : list (list string)) (ps : list PaymentRecord) (s : Summary) :
  extract_payments segs file sep = Ok (ps, s) ->
  map control_numbers ps
  = map segment_control_numbers (filter opens_payment segs)
  /\ List.length ps = List.length (filter opens_payment segs).
Proof.
  intros R. destruct (extract_payments_run _ _ _ _ _ R) as (st & E & F).
  destruct (run_payments _ _ _ _ _ E svc_attached_initial) as (_ & C & _).
  assert (P : ps = all_payments st)
    by (rewrite <- finish_payments, F; reflexivity).
  subst ps. simpl in C. split; [exact C|].
  now rewrite <- (length_map control_numbers), C, length_map.
Qed.

(** X13.  In what [extract_payments] returns, the adjustments held by a
    payment all have the level "claim", and the adjustments held by a
    service line all have the level "line". *)
Theorem extract_payments_levels (file sep : string)
  (segs : list (list string)) (ps : list PaymentRecord) (s : Summary) :
  extract_payments segs file sep = Ok (ps, s) ->
  Forall levels_agree ps.
Proof.
  intros R. destruct (extract_payments_run _ _ _ _ _ R) as (st & E & F).
  destruct (run_payments _ _ _ _ _ E svc_attached_initial) as (_ & _ & _ & L).
  assert (P : ps = all_payments st)
    by (rewrite <- finish_payments, F; reflexivity).
  subst ps. apply L. constructor.
Qed.

(** X14.  [extract_payments] neither drops nor repeats an adjustment: the
    payments it returns hold, at claim level and under their service lines
    together, as many adjustments as [parse_cas_adjustments] reads from the
    CAS segments of four elements or more that follow a payment-opening CLP
    segment. *)
Theorem extract_payments_keeps_adjustments (file sep : string)
  (segs : list (list string)) (ps : list PaymentRecord) (s : Summary) :
  extract_payments segs file sep = Ok (ps, s) ->
  list_sum (map adjustment_count ps)
  = list_sum (map (fun seg => List.length (entries_of seg))
                (decoded_cas false segs)).
Proof.
  intros R. destruct (extract_payments_run _ _ _ _ _ R) as (st & E & F).
  destruct (run_payments _ _ _ _ _ E svc_attached_initial) as (_ & _ & A & _).
  assert (P : ps = all_payments st)
    by (rewrite <- finish_payments, F; reflexivity).
  subst ps. exact A.
Qed.

(** ** The summary of a document *)

Lemma cas_of_records (st : State) (seg : list string) :
  is_cas seg = true ->
  warnings (snd (cas_of st seg)) = warnings (summary st)
  /\ unknown_clp_status_codes (snd (cas_of st seg))
     = unknown_clp_status_codes (summary st)
  /\ invalid_dates (snd (cas_of st seg)) = invalid_dates (summary st)
  /\ (forall c, In c (unknown_adjustment_groups (snd (cas_of st seg))) <->
                In c (unknown_adjustment_groups (summary st))
                \/ (c = safe_get seg 1 "" /\ c <> ""
                    /\ Py.dict_mem ADJUSTMENT_GROUP_MAP c = false))
  /\ (forall c, In c (unknown_carc_codes (snd (cas_of st seg))) <->
                In c (unknown_carc_codes (summary st))
                \/ (In c (map carc_code (entries_of seg))
                    /\ Py.dict_mem CARC_MAP c = false)).
Proof.
  intros K. unfold is_cas in K. apply andb_prop in K as [_ K].
  apply Nat.leb_le in K.
  unfold cas_of, entries_of. cbn [snd].
  destruct (parse_cas_adjustments_records seg (summary st))
    as (s' & -> & A & W & C & D & G & R & _).
  repeat split; auto.
  - intros H. apply G in H. tauto.
  - intros H. apply G. tauto.
  - intros H. apply R in H. rewrite A in H. exact H.
  - intros H. apply R. rewrite A. exact H.
Qed.

Lemma is_cas_no_date (seg : list string) :
  is_cas seg = true -> bad_date seg = false.
Proof.
  unfold is_cas, bad_date. intros K. apply andb_prop in K as [K _].
  apply String.eqb_eq in K. rewrite K. reflexivity.
Qed.

Lemma unknown_status_opens (seg : list string) :
  opens_payment seg = false -> unknown_status seg = false.
Proof. unfold unknown_status. now intros ->. Qed.

(** What one iteration does to the summary. *)
Lemma step_summary (file sep : string) (st st' : State) (seg : list string) :
  step file sep st seg = Ok st' ->
  is_some (current_payment st')
  = opens_payment seg || is_some (current_payment st)
  /\ warnings (summary st') = warnings (summary st)
  /\ invalid_dates (summary st')
     = invalid_dates (summary st)
       + (if negb (opens_payment seg) && is_some (current_payment st)
             && bad_date seg
          then 1 else 0)
  /\ (forall x, In x (unknown_clp_status_codes (summary st')) <->
                In x (unknown_clp_status_codes (summary st))
                \/ (unknown_status seg = true /\ x = safe_get seg 2 ""))
  /\ (forall c, In c (unknown_adjustment_groups (summary st')) <->
                In c (unknown_adjustment_groups (summary st))
                \/ (negb (opens_payment seg)
                    && is_some (current_payment st) && is_cas seg = true
                    /\ c = safe_get seg 1 "" /\ c <> ""
                    /\ Py.dict_mem ADJUSTMENT_GROUP_MAP c = false))
  /\ (forall c, In c (unknown_carc_codes (summary st')) <->
                In c (unknown_carc_codes (summary st))
                \/ (negb (opens_payment seg)
                    && is_some (current_payment st) && is_cas seg = true
                    /\ In c (map carc_code (entries_of seg))
                    /\ Py.dict_mem CARC_MAP c = false)).
Proof.
  intros R.
  destruct (step_cases _ _ _ _ _ R)
    as [[O ->] | (O & P & [(H & H' & _ & S) | (cp & cp' & H & H' & _ & D)])].
  - unfold unknown_status. rewrite O. cbn [negb andb orb].
    unfold open_payment. cbn [current_payment summary is_some].
    destruct (Py.truthy (safe_get seg 2 "")
              && negb (Py.dict_mem CLP_STATUS_MAP (safe_get seg 2 ""))).
    + cbn. split; [reflexivity|]. split; [reflexivity|]. split; [lia|].
      split; [|split]; intros x.
      * rewrite in_set_add. tauto.
      * split; [tauto|]. intros [K | (K & _)]; [exact K | discriminate K].
      * split; [tauto|]. intros [K | (K & _)]; [exact K | discriminate K].
    + split; [reflexivity|]. split; [reflexivity|]. split; [lia|].
      split; [|split]; intros x.
      * split; [tauto|]. intros [K | (K & _)]; [exact K | discriminate K].
      * split; [tauto|]. intros [K | (K & _)]; [exact K | discriminate K].
      * split; [tauto|]. intros [K | (K & _)]; [exact K | discriminate K].
  - rewrite (unknown_status_opens _ O), O, H, H', S. cbn.
    split; [reflexivity|]. split; [reflexivity|]. split; [lia|].
    split; [|split]; intros x;
      (split; [tauto|]; intros [K | (K & _)]; [exact K | discriminate K]).
  - rewrite (unknown_status_opens _ O), O, H, H'. cbn [negb andb orb is_some].
    destruct D as [(K & _ & _ & S & _) | [(K & _ & _ & S & _)
                  | [(K & Bd & _ & S & _) | (K & _ & S & _)]]]; rewrite S, K.
    + destruct (cas_of_records st seg K) as (W & C & Dt & G & Cc).
      rewrite (is_cas_no_date _ K), W, C, Dt.
      split; [reflexivity|]. split; [reflexivity|]. split; [lia|].
      split; [|split]; intros x.
      * split; [tauto|]. intros [Q | (Q & _)]; [exact Q | discriminate Q].
      * rewrite G. tauto.
      * rewrite Cc. tauto.
    + destruct (cas_of_records st seg K) as (W & C & Dt & G & Cc).
      rewrite (is_cas_no_date _ K), W, C, Dt.
      split; [reflexivity|]. split; [reflexivity|]. split; [lia|].
      split; [|split]; intros x.
      * split; [tauto|]. intros [Q | (Q & _)]; [exact Q | discriminate Q].
      * rewrite G. tauto.
      * rewrite Cc. tauto.
    + rewrite Bd.
      split; [reflexivity|]. split; [reflexivity|]. split; [lia|].
      split; [|split]; intros x;
        (split; [tauto|]; intros [Q | (Q & _)]; [exact Q | discriminate Q]).
    + destruct (bad_date seg); cbn;
        (split; [reflexivity|]; split; [reflexivity|]; split; [lia|];
         split; [|split]; intros x;
         (split; [tauto|]; intros [Q | (Q & _)]; [exact Q | discriminate Q])).
Qed.

Lemma in_insert_sorted (x y : string) (l : list string) :
  In y (insert_sorted x l) <-> y = x \/ In y l.
Proof.
  induction l as [|z l IH]; simpl.
  - intuition.
  - destruct (String.leb x z); simpl; [intuition|].
    rewrite IH. intuition.
Qed.

Lemma in_sorted (y : string) (l : list string) : In y (sorted l) <-> In y l.
Proof.
  unfold sorted. induction l as [|x l IH]; simpl; [reflexivity|].
  rewrite in_insert_sorted, IH. intuition.
Qed.

Lemma payment_segments_in (open : bool) (p : list string -> bool)
  (seg s : list string) (rest : list (list string)) :
  In s (filter p (payment_segments open (seg :: rest)))
  <-> (negb (opens_payment seg) && open && p seg = true /\ s = seg)
      \/ In s (filter p (payment_segments (opens_payment seg || open) rest)).
Proof.
  cbn [payment_segments].
  destruct (opens_payment seg); cbn [negb andb orb].
  - split; [tauto|]. intros [[Q _] | Q]; [discriminate Q | exact Q].
  - destruct open; cbn [filter].
    + destruct (p seg); cbn [In].
      * split; [intros [<- | Q]; auto | intros [[_ ->] | Q]; auto].
      * split; [tauto|]. intros [[Q _] | Q]; [discriminate Q | exact Q].
    + split; [tauto|]. intros [[Q _] | Q]; [discriminate Q | exact Q].
Qed.

Lemma payment_segments_count (open : bool) (p : list string -> bool)
  (seg : list string) (rest : list (list string)) :
  List.length (filter p (payment_segments open (seg :: rest)))
  = (if negb (opens_payment seg) && open && p seg then 1 else 0)
    + List.length
        (filter p (payment_segments (opens_payment seg || open) rest)).
Proof.
  cbn [payment_segments].
  destruct (opens_payment seg); cbn [negb andb orb]; [reflexivity|].
  destruct open; cbn [filter]; [|reflexivity].
  now destruct (p seg).
Qed.

Lemma run_summary (file sep : string) (segs : list (list string)) :
  forall st st',
    run file sep st segs = Ok st' ->
    warnings (summary st') = warnings (summary st)
    /\ invalid_dates (summary st')
       = invalid_dates (summary st)
         + List.length
             (filter bad_date
                (payment_segments (is_some (current_payment st)) segs))
    /\ (forall x, In x (unknown_clp_status_codes (summary st')) <->
                  In x (unknown_clp_status_codes (summary st))
                  \/ exists seg, In seg segs /\ unknown_status seg = true
                                 /\ x = safe_get seg 2 "")
    /\ (forall c, In c (unknown_adjustment_groups (summary st')) <->
                  In c (unknown_adjustment_groups (summary st))
                  \/ exists seg,
                       In seg (decoded_cas (is_some (current_payment st)) segs)
                       /\ c = safe_get seg 1 "" /\ c <> ""
                       /\ Py.dict_mem ADJUSTMENT_GROUP_MAP c = false)
    /\ (forall c, In c (unknown_carc_codes (summary st')) <->
                  In c (unknown_carc_codes (summary st))
                  \/ exists seg,
                       In seg (decoded_cas (is_some (current_payment st)) segs)
                       /\ In c (map carc_code (entries_of seg))
                       /\ Py.dict_mem CARC_MAP c = false).
Proof.
  induction segs as [|seg segs IH]; intros st st' R.
  - injection R as <-. simpl.
    split; [reflexivity|]. split; [lia|].
    split; [|split]; intros x;
      (split; [tauto|]; intros [Q | (s & [] & _)]; exact Q).
  - simpl in R.
    destruct (step file sep st seg) as [st1|] eqn:E; simpl in R;
      [|discriminate].
    destruct (step_summary _ _ _ _ _ E) as (O1 & W1 & D1 & S1 & G1 & C1).
    destruct (IH _ _ R) as (W2 & D2 & S2 & G2 & C2).
    rewrite O1 in D2, G2, C2.
    split; [congruence|]. split; [|split; [|split]].
    + rewrite D2, D1, payment_segments_count. lia.
    + intros x. rewrite S2, S1. split.
      * intros [[Q | (U & ->)] | (s & I & U & ->)]; [now left | right..].
        -- exists seg. split; [now left | auto].
        -- exists s. split; [now right | auto].
      * intros [Q | (s & [<- | I] & U & ->)]; [now left; left | |].
        -- left; right. auto.
        -- right. exists s. auto.
    + intros c. rewrite G2, G1. unfold decoded_cas. split.
      * intros [[Q | (U & T)] | (s & I & T)]; [now left | right..].
        -- exists seg. split; [|exact T].
           apply payment_segments_in. left. auto.
        -- exists s. split; [|exact T].
           apply payment_segments_in. now right.
      * intros [Q | (s & I & T)]; [now left; left|].
        apply payment_segments_in in I as [[U ->] | I].
        -- left; right. auto.
        -- right. exists s. auto.
    + intros c. rewrite C2, C1. unfold decoded_cas. split.
      * intros [[Q | (U & T)] | (s & I & T)]; [now left | right..].
        -- exists seg. split; [|exact T].
           apply payment_segments_in. left. auto.
        -- exists s. split; [|exact T].
           apply payment_segments_in. now right.
      * intros [Q | (s & I & T)]; [now left; left|].
        apply payment_segments_in in I as [[U ->] | I].
        -- left; right. auto.
        -- right. exists s. auto.
Qed.

Lemma finish_summary (st : State) :
  warnings (snd (finish st)) = warnings (summary st)
  /\ invalid_dates (snd (finish st)) = invalid_dates (summary st)
  /\ (forall x, In x (unknown_clp_status_codes (snd (finish st)))
                <-> In x (unknown_clp_status_codes (summary st)))
  /\ (forall x, In x (unknown_adjustment_groups (snd (finish st)))
                <-> In x (unknown_adjustment_groups (summary st)))
  /\ (forall x, In x (unknown_carc_codes (snd (finish st)))
                <-> In x (unknown_carc_codes (summary st))).
Proof.
  unfold finish. cbn. repeat split; intros H; now apply in_sorted.
Qed.

(** X15.  The summary [extract_payments] returns has no warning, counts in
    [invalid_dates] the DTM segments of three elements or more that follow a
    payment-opening CLP segment and give a date that does not parse, and
    lists in [unknown_clp_status_codes] exactly the status codes of the
    payment-opening CLP segments that are given and not in the table of
    status codes. *)
Theorem extract_payments_summary (file sep : string)
  (segs : list (list string)) (ps : list PaymentRecord) (s : Summary) :
  extract_payments segs file sep = Ok (ps, s) ->
  warnings s = []
  /\ invalid_dates s
     = List.length (filter bad_date (payment_segments false segs))
  /\ forall x, In x (unknown_clp_status_codes s) <->
               exists seg, In seg segs /\ unknown_status seg = true
                           /\ x = safe_get seg 2 "".
Proof.
  intros R. destruct (extract_payments_run _ _ _ _ _ R) as (st & E & F).
  destruct (run_summary _ _ _ _ _ E) as (W & D & S & _).
  destruct (finish_summary st) as (W' & D' & S' & _).
  rewrite F in W', D', S'. cbn [snd] in W', D', S'.
  split; [now rewrite W', W|]. split; [now rewrite D', D|].
  intros x. rewrite S', S. simpl. tauto.
Qed.

(** X16.  The summary [extract_payments] returns lists as unknown exactly
    the codes of the CAS segments it decodes (those of four elements or more
    that follow a payment-opening CLP segment) that the tables lack: the
    group code of such a segment when it is not empty, and the reason code
    of every adjustment read from it. *)
Theorem extract_payments_unknown_codes (file sep : string)
  (segs : list (list string)) (ps : list PaymentRecord) (s : Summary) :
  extract_payments segs file sep = Ok (ps, s) ->
  (forall c, In c (unknown_adjustment_groups s) <->
             exists seg, In seg (decoded_cas false segs)
                         /\ c = safe_get seg 1 "" /\ c <> ""
                         /\ Py.dict_mem ADJUSTMENT_GROUP_MAP c = false)
  /\ (forall c, In c (unknown_carc_codes s) <->
                exists seg, In seg (decoded_cas false segs)
                            /\ In c (map carc_code (entries_of seg))
                            /\ Py.dict_mem CARC_MAP c = false).
Proof.
  intros R. destruct (extract_payments_run _ _ _ _ _ R) as (st & E & F).
  destruct (run_summary _ _ _ _ _ E) as (_ & _ & _ & G & C).
  destruct (finish_summary st) as (_ & _ & _ & G' & C').
  rewrite F in G', C'. cbn [snd] in G', C'.
  split; intros c; [rewrite G', G | rewrite C', C]; simpl; tauto.
Qed.

(** ** When [extract_payments] raises *)

Lemma step_closed (file sep : string) (st : State) (seg : list string) :
  current_payment st = None -> seg <> [] ->
  exists st', step file sep st seg = Ok st'.
Proof.
  intros H N. destruct seg as [|seg_id rest]; [contradiction|].
  unfold step. rewrite H.
  repeat match goal with
    | |- context [if ?b then _ else _] =>
        lazymatch b with
        | context [if _ then _ else _] => fail
        | _ => destruct b
        end
    end; eexists; reflexivity.
Qed.

Lemma step_empty_procedure (file sep : string) (st : State)
  (seg : list string) :
  is_some (current_payment st) = true -> empty_procedure seg = true ->
  step file sep st seg = Raise IndexError.
Proof.
  intros H E. unfold empty_procedure in E.
  apply andb_prop in E as [E T]. apply andb_prop in E as [I L].
  destruct seg as [|seg_id rest]; [discriminate|].
  cbn [hd] in I. apply String.eqb_eq in I. subst seg_id.
  apply negb_true_iff, truthy_false in T.
  destruct (current_payment st) as [cp|] eqn:C; [|discriminate].
  unfold step. rewrite C. cbn [is_some negb]. rewrite L.
  cbn -[Nat.leb List.length safe_get open_service_line].
  unfold open_service_line. rewrite T. reflexivity.
Qed.

Lemma step_raises (file sep : string) (st : State) (seg : list string)
  (e : exn) :
  step file sep st seg = Raise e ->
  e = IndexError
  /\ (seg = []
      \/ (is_some (current_payment st) = true
          /\ empty_procedure seg = true)).
Proof.
  intros R. destruct seg as [|seg_id rest].
  { simpl in R. injection R as <-. auto. }
  destruct (harmless (seg_id :: rest)) eqn:Hh.
  { destruct (step_total file sep st _ Hh) as [st' E]. congruence. }
  destruct (current_payment st) as [cp|] eqn:H.
  - assert (E : empty_procedure (seg_id :: rest) = true).
    { unfold harmless in Hh. apply negb_false_iff in Hh. exact Hh. }
    rewrite (step_empty_procedure file sep st _) in R
      by (rewrite ?H; auto).
    injection R as <-. auto.
  - destruct (step_closed file sep st (seg_id :: rest) H) as [st' E];
      [discriminate | congruence].
Qed.

Lemma run_raises (file sep : string) (segs : list (list string)) :
  forall st,
    (exists e, run file sep st segs = Raise e)
    <-> In [] segs
        \/ exists seg,
             In seg (filter empty_procedure
                       (payment_segments (is_some (current_payment st))
                          segs)).
Proof.
  induction segs as [|seg segs IH]; intros st.
  - simpl. split; [intros [e E]; discriminate E | intros [[] | [s []]]].
  - cbn [run]. destruct (step file sep st seg) as [st1|e] eqn:E;
      cbn [bind].
    + destruct (step_summary _ _ _ _ _ E) as (O & _).
      rewrite IH, O. cbn [In]. split.
      * intros [I | (s & I)]; [left; now right | right].
        exists s. apply payment_segments_in. now right.
      * assert (N : seg <> []).
        { intros ->. simpl in E. discriminate E. }
        intros [[Q | I] | (s & I)]; [congruence | now left |].
        apply payment_segments_in in I as [[U ->] | I];
          [|right; now exists s].
        apply andb_prop in U as [U U3]. apply andb_prop in U as [_ U2].
        rewrite (step_empty_procedure file sep st _ U2 U3) in E.
        discriminate E.
    + split; [intros _ | intros _; now exists e].
      destruct (step_raises _ _ _ _ _ E) as (_ & [-> | (H & P)]).
      * left. now left.
      * right. exists seg. apply payment_segments_in. left.
        split; [|reflexivity].
        assert (O : opens_payment seg = false).
        { unfold empty_procedure in P. unfold opens_payment.
          destruct seg as [|seg_id rest]; [discriminate|].
          cbn [hd] in *. apply andb_prop in P as [P _].
          apply andb_prop in P as [P _]. apply String.eqb_eq in P.
          now subst seg_id. }
        now rewrite O, H, P.
Qed.

Lemma run_raises_index (file sep : string) (segs : list (list string)) :
  forall st e, run file sep st segs = Raise e -> e = IndexError.
Proof.
  induction segs as [|seg segs IH]; intros st e R; [discriminate|].
  cbn [run] in R. destruct (step file sep st seg) as [st1|e1] eqn:E;
    cbn [bind] in R.
  - eauto.
  - injection R as <-. now destruct (step_raises _ _ _ _ _ E).
Qed.

(** X17.  [extract_payments] raises on exactly two kinds of documents: those
    holding a segment with no element, and those holding, after a
    payment-opening CLP segment, an SVC segment of four elements or more
    whose procedure composite is empty.  The exception is always
    [IndexError]. *)
Theorem extract_payments_raises (file sep : string)
  (segs : list (list string)) :
  ((exists e, extract_payments segs file sep = Raise e)
   <-> In [] segs
       \/ exists seg, In seg (payment_segments false segs)
                      /\ empty_procedure seg = true)
  /\ forall e, extract_payments segs file sep = Raise e -> e = IndexError.
Proof.
  unfold extract_payments. split.
  - pose proof (run_raises file sep segs initial_state) as RR.
    cbn [initial_state current_payment is_some] in RR.
    transitivity (exists e, run file sep initial_state segs = Raise e).
    + destruct (run file sep initial_state segs) as [st|e]; cbn [bind].
      * split; intros [e E]; discriminate E.
      * split; intros _; now exists e.
    + rewrite RR. split.
      * intros [I | (s & I)]; [now left | right].
        exists s. now apply filter_In.
      * intros [I | (s & I)]; [now left | right].
        exists s. now apply filter_In.
  - intros e. destruct (run file sep initial_state segs) as [st|e1] eqn:E;
      cbn [bind]; [discriminate|].
    intros R; injection R as <-. exact (run_raises_index _ _ _ _ _ E).
Qed.

(** ** Documents without a payment *)

Lemma no_members {A : Type} (l : list A) : (forall x, ~ In x l) -> l = [].
Proof.
  destruct l as [|x l]; [reflexivity|]. intros H.
  exfalso. apply (H x). now left.
Qed.

Lemma payment_segments_closed (segs : list (list string)) :
  Forall (fun seg => opens_payment seg = false) segs ->
  payment_segments false segs = [] /\ filter opens_payment segs = [].
Proof.
  induction 1 as [|seg segs O F [IH1 IH2]]; simpl; [auto|].
  now rewrite O.
Qed.

(** X18.  A document none of whose segments is a CLP segment of five
    elements or more yields no payment and an empty summary, whatever its
    segments hold, as long as each has an element. *)
Theorem extract_payments_without_clp (file sep : string)
  (segs : list (list string)) :
  Forall (fun seg => seg <> [] /\ opens_payment seg = false) segs ->
  extract_payments segs file sep = Ok ([], mkSummary [] [] [] [] 0).
Proof.
  intros F.
  assert (F1 : Forall (fun seg => opens_payment seg = false) segs)
    by (eapply Forall_impl; [|exact F]; now intros seg [_ O]).
  assert (N : ~ In [] segs).
  { intros I. rewrite Forall_forall in F. now destruct (F _ I). }
  destruct (payment_segments_closed segs F1) as [P O].
  unfold extract_payments.
  destruct (run file sep initial_state segs) as [st|e] eqn:E; cbn [bind].
  - destruct (run_payments _ _ _ _ _ E svc_attached_initial) as (_ & C & _).
    destruct (run_summary _ _ _ _ _ E) as (W & D & S & G & K).
    unfold decoded_cas in G, K.
    cbn [initial_state current_payment is_some summary warnings
         invalid_dates unknown_clp_status_codes unknown_adjustment_groups
         unknown_carc_codes all_payments payments app map] in *.
    rewrite P in *. rewrite O in C. cbn [filter map List.length] in *.
    apply map_eq_nil in C.
    assert (S0 : unknown_clp_status_codes (summary st) = []).
    { apply no_members. intros x I. apply S in I as [[] | (s & I & U & _)].
      rewrite Forall_forall in F1.
      rewrite (unknown_status_opens _ (F1 _ I)) in U. discriminate U. }
    assert (G0 : unknown_adjustment_groups (summary st) = []).
    { apply no_members. intros x I. now apply G in I as [[] | (s & [] & _)]. }
    assert (K0 : unknown_carc_codes (summary st) = []).
    { apply no_members. intros x I. now apply K in I as [[] | (s & [] & _)]. }
    f_equal. rewrite (surjective_pairing (finish st)), finish_payments, C.
    f_equal. unfold finish. cbn [snd]. rewrite W, D, S0, G0, K0.
    reflexivity.
  - exfalso.
    assert (R : exists e, run file sep initial_state segs = Raise e)
      by now exists e.
    apply run_raises in R as [I | (s & I)]; [now apply N|].
    cbn [initial_state current_payment is_some] in I.
    rewrite P in I. exact I.
Qed.

(** ** A whole file *)

Import Parse835File.

Lemma parse_edi_content_no_empty (content : string) :
  ~ In [] (fst (parse_edi_content content)).
Proof.
  intros I.
  assert (F : Forall (fun seg : list string => seg <> [])
                (fst (parse_edi_content content))).
  { unfold parse_edi_content. cbn [fst].
    eapply Forall_impl;
      [|apply collect_segments_texts;
        destruct (detect_separators_one content) as (t & e & _ & ->);
        discriminate].
    now intros seg [N _]. }
  rewrite Forall_forall in F. now apply (F _ I).
Qed.

(** X19.  [parse_835_file] raises only on a file that holds, after a
    payment-opening CLP segment, an SVC segment of four elements or more
    with an empty procedure composite: [parse_edi_content] gives
    [extract_payments] no segment without an element.  When it returns, the
    record count is the number of CLP segments of five elements or more
    among the parsed segments, the payments carry their control numbers in
    order, and the delimiters reported are the detected ones. *)
Theorem parse_835_file_composes (file_name content : string) :
  ((exists e, parse_835_file file_name content = Raise e)
   <-> exists seg,
         In seg (payment_segments false (fst (parse_edi_content content)))
         /\ empty_procedure seg = true)
  /\ forall r,
       parse_835_file file_name content = Ok r ->
       record_count r
       = List.length (filter opens_payment (fst (parse_edi_content content)))
       /\ map control_numbers (parsed_payments r)
          = map segment_control_numbers
              (filter opens_payment (fst (parse_edi_content content)))
       /\ segment_delimiter r = segment (detect_delimiters content)
       /\ element_delimiter r = element (detect_delimiters content)
       /\ component_delimiter r = component (detect_delimiters content).
Proof.
  pose proof (parse_edi_content_no_empty content) as N.
  unfold parse_835_file.
  assert (D : snd (parse_edi_content content) = detect_delimiters content)
    by reflexivity.
  destruct (parse_edi_content content) as [segs d]. cbn [fst snd] in *.
  subst d. unfold extract_payments.
  pose proof (run_raises file_name (component (detect_delimiters content))
                segs initial_state) as RR.
  cbn [initial_state current_payment is_some] in RR.
  destruct (run file_name (component (detect_delimiters content))
              initial_state segs) as [st|e] eqn:E; cbn [bind].
  - split.
    + split; [intros [e Q]; destruct (finish st); discriminate Q|].
      intros (s & I & P). exfalso.
      assert (R : exists e, @Ok State st = Raise e).
      { apply RR. right. exists s. now apply filter_In. }
      destruct R as [e R]. discriminate R.
    + intros r. rewrite (surjective_pairing (finish st)), finish_payments.
      intros Q; injection Q as <-.
      cbn [record_count parsed_payments segment_delimiter element_delimiter
           component_delimiter].
      destruct (run_payments _ _ _ _ _ E svc_attached_initial)
        as (_ & C & _).
      simpl in C. split; [|auto].
      now rewrite <- (length_map control_numbers), C, length_map.
  - split; [|intros r Q; discriminate Q].
    split; [intros _ | intros _; now exists e].
    assert (R : exists e0, @Raise State e = Raise e0) by now exists e.
    apply RR in R as [I | (s & I)]; [now apply N in I|].
    exists s. now apply filter_In.
Qed.

End Parse835More.

(** ** The theorems on a sample remittance *)

(** Closes the branch where a call that returns would have raised. *)
Ltac returned E :=
  match type of E with
  | ?r = Raise _ =>
      let Q := fresh in
      assert (Q : is_some (returned_payments r) = true)
        by (vm_compute; reflexivity);
      rewrite E in Q; discriminate Q
  end.

Lemma extract_payments_one_per_clp_witness :
  exists ps s,
    extract_payments (B := Sample.runtime) Documents.remittance "f.835" ":"
    = Ok (ps, s)
    /\ map control_numbers ps = [("PCN1", "CTRL7"); ("PCN2", "")]
    /\ List.length ps = 2%nat.
Proof.
  destruct (extract_payments (B := Sample.runtime) Documents.remittance
              "f.835" ":") as [[ps s]|e] eqn:E;
    [|returned E].
  exists ps, s. split; [reflexivity|].
  exact (extract_payments_one_per_clp (B := Sample.runtime) "f.835" ":"
           Documents.remittance ps s E).
Defined.

Lemma extract_payments_levels_witness :
  exists ps s,
    extract_payments (B := Sample.runtime) Documents.remittance "f.835" ":"
    = Ok (ps, s)
    /\ Forall levels_agree ps.
Proof.
  destruct (extract_payments (B := Sample.runtime) Documents.remittance
              "f.835" ":") as [[ps s]|e] eqn:E;
    [|returned E].
  exists ps, s. split; [reflexivity|].
  exact (extract_payments_levels (B := Sample.runtime) "f.835" ":"
           Documents.remittance ps s E).
Defined.

Lemma extract_payments_keeps_adjustments_witness :
  exists ps s,
    extract_payments (B := Sample.runtime) Documents.remittance "f.835" ":"
    = Ok (ps, s)
    /\ list_sum (map adjustment_count ps) = 4%nat.
Proof.
  destruct (extract_payments (B := Sample.runtime) Documents.remittance
              "f.835" ":") as [[ps s]|e] eqn:E;
    [|returned E].
  exists ps, s. split; [reflexivity|].
  exact (extract_payments_keeps_adjustments (B := Sample.runtime) "f.835" ":"
           Documents.remittance ps s E).
Defined.

Lemma extract_payments_summary_witness :
  exists ps s,
    extract_payments (B := Sample.runtime) Documents.remittance "f.835" ":"
    = Ok (ps, s)
    /\ warnings s = [] /\ invalid_dates s = 1%nat
    /\ In "99" (unknown_clp_status_codes s).
Proof.
  destruct (extract_payments (B := Sample.runtime) Documents.remittance
              "f.835" ":") as [[ps s]|e] eqn:E;
    [|returned E].
  exists ps, s. split; [reflexivity|].
  destruct (extract_payments_summary (B := Sample.runtime) "f.835" ":"
              Documents.remittance ps s E) as (W & D & S).
  split; [exact W|]. split; [exact D|].
  apply S. exists ["CLP"; "PCN2"; "99"; "50.00"; "0.00"].
  split; [simpl; tauto | split; reflexivity].
Defined.

Lemma extract_payments_unknown_codes_witness :
  exists ps s,
    extract_payments (B := Sample.runtime) Documents.remittance "f.835" ":"
    = Ok (ps, s)
    /\ In "ZZ" (unknown_adjustment_groups s)
    /\ In "9999" (unknown_carc_codes s).
Proof.
  destruct (extract_payments (B := Sample.runtime) Documents.remittance
              "f.835" ":") as [[ps s]|e] eqn:E;
    [|returned E].
  exists ps, s. split; [reflexivity|].
  destruct (extract_payments_unknown_codes (B := Sample.runtime) "f.835" ":"
              Documents.remittance ps s E) as (G & C).
  split; [apply G | apply C]; exists ["CAS"; "ZZ"; "9999"; "1.00"].
  - split; [simpl; tauto|]. split; [reflexivity|].
    split; [discriminate | reflexivity].
  - split; [simpl; tauto|]. split; [simpl; tauto | reflexivity].
Defined.

Lemma extract_payments_without_clp_witness :
  extract_payments (B := Sample.runtime) Documents.header_only "f.835" ":"
  = Ok ([], mkSummary [] [] [] [] 0).
Proof.
  apply (extract_payments_without_clp (B := Sample.runtime)).
  repeat constructor; discriminate.
Defined.

(* ================================================================== *)
(** * Further properties of [parse_837p]                               *)
(* ================================================================== *)

Import ClaimBlocks.

Lemma blocks_loop_raises (segs : list (list string)) : forall blocks current,
  (exists e, blocks_loop blocks current segs = Raise e) <-> In [] segs.
Proof.
  induction segs as [|seg segs IH]; intros blocks current; cbn [blocks_loop].
  - split; [intros [e E]; discriminate E | intros []].
  - destruct seg as [|seg_id elements].
    + split; [intros _; now left | intros _; now exists IndexError].
    + repeat match goal with
        | |- context [if ?b then _ else _] => destruct b
        end; rewrite IH; cbn [In];
        (split; [auto | intros [Q | Q]; [discriminate Q | exact Q]]).
Qed.

Lemma blocks_loop_raises_index (segs : list (list string)) :
  forall blocks current e,
    blocks_loop blocks current segs = Raise e -> e = IndexError.
Proof.
  induction segs as [|seg segs IH]; intros blocks current e;
    cbn [blocks_loop]; [discriminate|].
  destruct seg as [|seg_id elements]; [now intros Q; injection Q|].
  repeat match goal with
    | |- context [if ?b then _ else _] => destruct b
    end; apply IH.
Qed.

Lemma claim_block_snoc (current : list (list string)) (seg : list string) :
  claim_block current -> starts_claim seg = false ->
  claim_block (current ++ [seg]).
Proof.
  intros (first & rest & -> & S & F) N.
  exists first, (rest ++ [seg]). split; [reflexivity|]. split; [exact S|].
  apply Forall_app. split; [exact F | now constructor].
Qed.

Lemma blocks_loop_partition (segs : list (list string)) :
  forall blocks current blocks' current',
    blocks_loop blocks current segs = Ok (blocks', current') ->
    Forall claim_block blocks ->
    (current = [] \/ claim_block current) ->
    Forall claim_block blocks'
    /\ (current' = [] \/ claim_block current')
    /\ concat blocks' ++ current'
       = concat blocks ++ current
         ++ (if nonempty current then segs else from_first_claim segs)
    /\ List.length blocks' + (if nonempty current' then 1 else 0)
       = List.length blocks + (if nonempty current then 1 else 0)
         + List.length (filter starts_claim segs).
Proof.
  induction segs as [|seg segs IH]; intros blocks current blocks' current' R
    FB FC; cbn [blocks_loop] in R.
  - injection R as <- <-. split; [exact FB|]. split; [exact FC|].
    split; [|simpl; lia].
    destruct current; cbn [nonempty from_first_claim];
      now rewrite ?app_nil_r.
  - destruct seg as [|seg_id elements]; [discriminate|].
    cbn [from_first_claim filter].
    change ((seg_id =? "HL")%string
            && (4 <=? Datatypes.length (seg_id :: elements))
            && (nth 3 (seg_id :: elements) "" =? "22")%string)
      with (starts_claim (seg_id :: elements)) in R.
    destruct (starts_claim (seg_id :: elements)) eqn:S.
    + assert (C1 : claim_block [seg_id :: elements]).
      { exists (seg_id :: elements), []. auto. }
      destruct current as [|c current]; cbn [nonempty] in *.
      * destruct (IH _ _ _ _ R FB (or_intror C1)) as (F1 & F2 & E & L).
        split; [exact F1|]. split; [exact F2|].
        cbn [nonempty app List.length] in *. split; [exact E | lia].
      * assert (FB' : Forall claim_block (blocks ++ [c :: current])).
        { apply Forall_app. split; [exact FB|].
          constructor; [|constructor]. now destruct FC. }
        destruct (IH _ _ _ _ R FB' (or_intror C1)) as (F1 & F2 & E & L).
        split; [exact F1|]. split; [exact F2|].
        cbn [nonempty app] in *. rewrite E, L, concat_app, length_app.
        cbn [concat List.length app]. rewrite app_nil_r, <- !app_assoc.
        split; [reflexivity | lia].
    + destruct current as [|c current]; cbn [nonempty] in *.
      * destruct (IH _ _ _ _ R FB FC) as (F1 & F2 & E & L).
        cbn [nonempty] in *. auto.
      * assert (FC' : claim_block ((c :: current) ++ [seg_id :: elements])).
        { apply claim_block_snoc; [|exact S]. now destruct FC. }
        destruct (IH _ _ _ _ R FB (or_intror FC')) as (F1 & F2 & E & L).
        split; [exact F1|]. split; [exact F2|].
        cbn [nonempty app] in *. rewrite E, L, <- !app_assoc.
        split; [reflexivity | lia].
Qed.

(** X20.  When [get_claim_blocks] returns, its blocks are the segments from
    the first subscriber-level HL segment on, cut before every such segment:
    every block starts with one and holds no other, there are as many blocks
    as such segments, and the blocks put end to end are those segments, none
    lost and none moved.  The segments before the first block are left
    out. *)
Theorem get_claim_blocks_partition (segs : list (list string))
  (blocks : list (list (list string))) :
  get_claim_blocks segs = Ok blocks ->
  concat blocks = from_first_claim segs
  /\ Forall claim_block blocks
  /\ List.length blocks = List.length (filter starts_claim segs).
Proof.
  unfold get_claim_blocks.
  destruct (blocks_loop [] [] segs) as [[bs cur]|e] eqn:R; cbn [bind];
    [|discriminate].
  intros Q; injection Q as <-.
  destruct (blocks_loop_partition _ _ _ _ _ R (Forall_nil _) (or_introl eq_refl))
    as (F1 & F2 & E & L).
  cbn [concat nonempty app List.length] in E, L.
  destruct cur as [|c cur]; cbn [nonempty] in *.
  - rewrite app_nil_r in E. split; [exact E|]. split; [exact F1 | lia].
  - rewrite concat_app, length_app. cbn [concat List.length].
    rewrite app_nil_r. split; [exact E|]. split; [|lia].
    apply Forall_app. split; [exact F1|].
    constructor; [|constructor]. now destruct F2.
Qed.

(** X21.  [get_claim_blocks] raises exactly on a segment list that holds a
    segment with no element, and then it raises [IndexError]. *)
Theorem get_claim_blocks_raises (segs : list (list string)) :
  ((exists e, get_claim_blocks segs = Raise e) <-> In [] segs)
  /\ forall e, get_claim_blocks segs = Raise e -> e = IndexError.
Proof.
  unfold get_claim_blocks. split.
  - rewrite <- (blocks_loop_raises segs [] []).
    destruct (blocks_loop [] [] segs) as [[bs cur]|e]; cbn [bind].
    + split; intros [e E]; discriminate E.
    + split; intros _; now exists e.
  - intros e. destruct (blocks_loop [] [] segs) as [[bs cur]|e1] eqn:R;
      cbn [bind]; [discriminate|].
    intros Q; injection Q as <-. exact (blocks_loop_raises_index _ _ _ _ R).
Qed.

Lemma get_claim_blocks_partition_witness :
  get_claim_blocks Documents.claim_segments = Ok Documents.claim_blocks
  /\ concat Documents.claim_blocks = skipn 3 Documents.claim_segments
  /\ Forall claim_block Documents.claim_blocks
  /\ List.length Documents.claim_blocks = 2.
Proof.
  split; [reflexivity|].
  exact (get_claim_blocks_partition Documents.claim_segments
           Documents.claim_blocks eq_refl).
Defined.

(** ** The diagnoses of a whole block *)

Import Parse837p BlockDiagnoses.

Section Parse837pMore.
Context {B : Builtins}.

Lemma entries_after_app (l1 l2 : list (string * string)) : forall n,
  entries_after n (l1 ++ l2)
  = entries_after n l1 ++ entries_after (n + List.length l1) l2.
Proof.
  induction l1 as [|[q c] l1 IH]; intros n; cbn [app entries_after List.length].
  - now rewrite Nat.add_0_r.
  - rewrite IH. do 3 f_equal. lia.
Qed.

Lemma entries_after_length (l : list (string * string)) : forall n,
  List.length (entries_after n l) = List.length l.
Proof.
  induction l as [|[q c] l IH]; intros n; simpl; [reflexivity|].
  now rewrite IH.
Qed.

Lemma entries_after_numbers (l : list (string * string)) : forall n,
  map sequence_number (entries_after n l) = seq (n + 1) (List.length l).
Proof.
  induction l as [|[q c] l IH]; intros n; simpl; [reflexivity|].
  rewrite IH. repeat f_equal; lia.
Qed.

(** What one iteration of the loop of [extract_claim] does to the
    diagnoses. *)
Lemma step_diagnoses (sep : string) (st st' : Parse837p.State)
  (seg : list string) :
  Parse837p.step sep st seg = Ok st' ->
  (in_header st = false ->
   in_header st' = false /\ diagnoses st' = diagnoses st)
  /\ (in_header st = true ->
      in_header st' = negb (ends_header seg)
      /\ diagnoses st'
         = diagnoses st
           ++ entries_after (List.length (diagnoses st))
                (hi_composites sep [seg])).
Proof.
  destruct seg as [|seg_id elements]; [discriminate|].
  unfold Parse837p.step, hi_composites, ends_header.
  cbn [hd tl flat_map]. rewrite app_nil_r.
  destruct (seg_id =? "HI")%string eqn:I.
  - apply String.eqb_eq in I. subst seg_id.
    destruct (in_header st) eqn:H; cbn [andb].
    + intros Q; injection Q as <-. split; [discriminate|]. intros _.
      split; [reflexivity|]. cbn [diagnoses]. apply hi_elements_entries.
    + cbn -[Nat.leb List.length].
      intros Q; injection Q as <-. split; [auto | discriminate].
  - cbn [andb]. destruct ((seg_id =? "LX")%string
                          && (2 <=? List.length (seg_id :: elements))) eqn:L.
    + intros Q; injection Q as <-. cbn. rewrite app_nil_r. auto.
    + match goal with
      | |- context [if ?b then _ else _] => destruct b
      end.
      * destruct (current_line_number st) as [n|].
        -- unfold bind. destruct (line_number n); [|discriminate].
           intros Q; injection Q as <-. cbn [negb entries_after].
           rewrite app_nil_r. split; auto.
        -- intros Q; injection Q as <-. cbn [negb entries_after].
           rewrite app_nil_r. split; auto.
      * intros Q; injection Q as <-. cbn [negb entries_after].
        rewrite app_nil_r. split; auto.
Qed.

Lemma run_after_header (sep : string) (block : list (list string)) :
  forall st st',
    Parse837p.run sep st block = Ok st' ->
    in_header st = false ->
    diagnoses st' = diagnoses st.
Proof.
  induction block as [|seg block IH]; intros st st' R H; cbn [Parse837p.run] in R.
  - now injection R as <-.
  - destruct (Parse837p.step sep st seg) as [st1|] eqn:E; cbn [bind] in R;
      [|discriminate].
    destruct (step_diagnoses _ _ _ _ E) as [S _].
    destruct (S H) as [H1 D1]. rewrite (IH _ _ R H1). exact D1.
Qed.

Lemma run_in_header (sep : string) (block : list (list string)) :
  forall st st',
    Parse837p.run sep st block = Ok st' ->
    in_header st = true ->
    diagnoses st'
    = diagnoses st
      ++ entries_after (List.length (diagnoses st))
           (hi_composites sep (header_of block)).
Proof.
  induction block as [|seg block IH]; intros st st' R H; cbn [Parse837p.run] in R.
  - injection R as <-. simpl. now rewrite app_nil_r.
  - destruct (Parse837p.step sep st seg) as [st1|] eqn:E; cbn [bind] in R;
      [|discriminate].
    destruct (step_diagnoses _ _ _ _ E) as [_ S].
    destruct (S H) as [H1 D1]. cbn [header_of].
    destruct (ends_header seg) eqn:L; cbn [negb] in H1.
    + rewrite (run_after_header _ _ _ _ R H1), D1.
      assert (N : hi_composites sep [seg] = []).
      { unfold hi_composites, ends_header in *. cbn [flat_map].
        destruct seg as [|seg_id elements]; [discriminate|]. cbn [hd] in *.
        apply andb_prop in L as [L _]. apply String.eqb_eq in L.
        now subst seg_id. }
      rewrite N. reflexivity.
    + rewrite (IH _ _ R H1), D1, <- app_assoc. f_equal.
      change (seg :: header_of block) with ([seg] ++ header_of block).
      unfold hi_composites. rewrite flat_map_app.
      fold (hi_composites sep [seg]).
      fold (hi_composites sep (header_of block)).
      rewrite entries_after_app, length_app, entries_after_length.
      reflexivity.
Qed.

(** X22.  The diagnoses [extract_claim] returns for a block are read from
    the HI segments that stand before the first LX segment of two elements
    or more, and from no other: one entry for each composite with two
    components or more, in the order of the block, numbered 1, 2, 3 and so
    on across the segments. *)
Theorem extract_claim_diagnoses_block (block : list (list string))
  (sep : string) (ds : list Diagnosis) :
  extract_claim_diagnoses block sep = Ok ds ->
  ds = entries_after 0 (hi_composites sep (header_of block))
  /\ map sequence_number ds = seq 1 (List.length ds).
Proof.
  unfold extract_claim_diagnoses.
  destruct (Parse837p.run sep Parse837p.initial_state block) as [st|] eqn:R;
    cbn [bind]; [|discriminate].
  intros Q; injection Q as <-.
  rewrite (run_in_header _ _ _ _ R eq_refl). cbn [Parse837p.initial_state
    diagnoses app List.length].
  split; [reflexivity|].
  now rewrite entries_after_numbers, entries_after_length.
Qed.

End Parse837pMore.

Lemma extract_claim_diagnoses_block_witness :
  exists ds,
    extract_claim_diagnoses (B := Sample.runtime)
      (nth 0 Documents.claim_blocks []) ":" = Ok ds
    /\ map code_qualifier ds = ["ABK"; "ABF"; "ZZZ"]
    /\ map diagnosis_code ds = ["Z123"; "E119"; "U999"]
    /\ map sequence_number ds = [1; 2; 3].
Proof.
  destruct (extract_claim_diagnoses (B := Sample.runtime)
              (nth 0 Documents.claim_blocks []) ":") as [ds|e] eqn:E;
    [|vm_compute in E; discriminate E].
  exists ds. split; [reflexivity|].
  destruct (extract_claim_diagnoses_block (B := Sample.runtime) _ _ _ E)
    as [D N].
  split; [now rewrite D|]. split; [now rewrite D|].
  rewrite N, D. reflexivity.
Defined.

(** ** Dictionaries *)

Import PyDict.

Lemma lookup_set_same (d : Dict) (k v : string) : lookup (set d k v) k = Some v.
Proof.
  induction d as [|[k' v'] d IH]; simpl.
  - now rewrite String.eqb_refl.
  - destruct (k' =? k)%string eqn:E; simpl; rewrite E; auto.
Qed.

Lemma lookup_set_other (d : Dict) (k k' v : string) :
  k' <> k -> lookup (set d k v) k' = lookup d k'.
Proof.
  intros N. induction d as [|[k0 v0] d IH]; simpl.
  - apply String.eqb_neq in N. rewrite String.eqb_sym in N. now rewrite N.
  - destruct (k0 =? k)%string eqn:E; simpl.
    + apply String.eqb_eq in E. subst k0.
      apply String.eqb_neq in N. rewrite String.eqb_sym in N. now rewrite N.
    + now rewrite IH.
Qed.

Lemma set_set (d : Dict) (k v1 v2 : string) :
  set (set d k v1) k v2 = set d k v2.
Proof.
  induction d as [|[k' v'] d IH]; simpl.
  - now rewrite String.eqb_refl.
  - destruct (k' =? k)%string eqn:E; simpl; rewrite E; [reflexivity|].
    now rewrite IH.
Qed.

Lemma set_nonempty (d : Dict) (k v : string) :
  ClaimBlocks.nonempty (set d k v) = true.
Proof.
  destruct d as [|[k' v'] d]; simpl; [reflexivity|].
  now destruct (k' =? k)%string.
Qed.

(** ** File-level data *)

Import FileMetadata.

Lemma find_snoc {A : Type} (p : A -> bool) (l : list A) (x : A) :
  List.find p (l ++ [x])
  = match List.find p l with
    | Some y => Some y
    | None => if p x then Some x else None
    end.
Proof.
  induction l as [|y l IH]; simpl; [reflexivity|].
  destruct (p y); [reflexivity | exact IH].
Qed.

Lemma last_such_cons (p : list string -> bool) (seg : list string)
  (rest : list (list string)) :
  last_such p (seg :: rest)
  = match last_such p rest with
    | Some s => Some s
    | None => if p seg then Some seg else None
    end.
Proof. unfold last_such. simpl. apply find_snoc. Qed.

Lemma metadata_raises (segs : list (list string)) : forall st,
  (exists e, FileMetadata.run st segs = Raise e) <-> In [] segs.
Proof.
  induction segs as [|seg segs IH]; intros st; cbn [FileMetadata.run].
  - split; [intros [e E]; discriminate E | intros []].
  - destruct seg as [|seg_id elements].
    + destruct st as [md bp]. cbn.
      split; [intros _; now left | intros _; now exists IndexError].
    + destruct st as [md bp]. unfold FileMetadata.step.
      repeat match goal with
        | |- context [if ?b then _ else _] => destruct b
        end; cbn [bind]; rewrite IH; cbn [In];
        (split; [auto | intros [Q | Q]; [discriminate Q | exact Q]]).
Qed.

(** What one iteration does to one key of [metadata]. *)
Definition reads (k : string) (p : list string -> bool)
  (f : list string -> string) (st st' : Dict * option Dict)
  (seg : list string) : Prop :=
  lookup (fst st') k = if p seg then Some (f seg) else lookup (fst st) k.

Lemma step_metadata (st st' : Dict * option Dict) (seg : list string) :
  FileMetadata.step st seg = Ok st' ->
  lookup (fst st') "file_name" = lookup (fst st) "file_name"
  /\ reads "sender_id" is_isa
       (fun s => Py.strip (FileMetadata.safe_get s 6 "")) st st' seg
  /\ reads "receiver_id" is_isa
       (fun s => Py.strip (FileMetadata.safe_get s 8 "")) st st' seg
  /\ reads "transaction_type" is_gs
       (fun s => FileMetadata.safe_get s 1 "") st st' seg
  /\ reads "gs_sender" is_gs
       (fun s => FileMetadata.safe_get s 2 "") st st' seg
  /\ reads "gs_receiver" is_gs
       (fun s => FileMetadata.safe_get s 3 "") st st' seg
  /\ reads "transaction_set" is_st
       (fun s => FileMetadata.safe_get s 1 "") st st' seg.
Proof.
  destruct st as [md bp]. destruct seg as [|seg_id elements]; [discriminate|].
  unfold FileMetadata.step, reads, is_isa, is_gs, is_st. cbn [hd fst].
  destruct ((seg_id =? "ISA")%string
            && (16 <=? List.length (seg_id :: elements))) eqn:C1.
  { apply andb_prop in C1 as [I L]. apply String.eqb_eq in I. subst seg_id.
    intros Q; injection Q as <-. cbn [fst andb String.eqb Ascii.eqb Bool.eqb].
    repeat first [rewrite lookup_set_same
                 | rewrite lookup_set_other by discriminate].
    repeat split. }
  destruct ((seg_id =? "GS")%string
            && (9 <=? List.length (seg_id :: elements))) eqn:C2.
  { apply andb_prop in C2 as [I L]. apply String.eqb_eq in I. subst seg_id.
    intros Q; injection Q as <-. cbn [fst andb String.eqb Ascii.eqb Bool.eqb].
    repeat first [rewrite lookup_set_same
                 | rewrite lookup_set_other by discriminate].
    repeat split. }
  destruct ((seg_id =? "ST")%string
            && (2 <=? List.length (seg_id :: elements))) eqn:C3.
  { apply andb_prop in C3 as [I L]. apply String.eqb_eq in I. subst seg_id.
    intros Q; injection Q as <-. cbn [fst andb String.eqb Ascii.eqb Bool.eqb].
    repeat first [rewrite lookup_set_same
                 | rewrite lookup_set_other by discriminate].
    repeat split. }
  intros Q.
  assert (F : fst st' = md).
  { revert Q.
    repeat match goal with
      | |- context [if ?b then _ else _] => destruct b
      end; intros Q; injection Q as <-; reflexivity. }
  rewrite F. repeat split.
Qed.

Lemma run_reads (k : string) (p : list string -> bool)
  (f : list string -> string) :
  (forall st st' seg, FileMetadata.step st seg = Ok st' ->
                      reads k p f st st' seg) ->
  forall segs st st',
    FileMetadata.run st segs = Ok st' ->
    lookup (fst st') k
    = match last_such p segs with
      | Some s => Some (f s)
      | None => lookup (fst st) k
      end.
Proof.
  intros S. induction segs as [|seg segs IH]; intros st st' R;
    cbn [FileMetadata.run] in R.
  - now injection R as <-.
  - destruct (FileMetadata.step st seg) as [st1|] eqn:E; cbn [bind] in R;
      [|discriminate].
    rewrite (IH _ _ R), last_such_cons, (S _ _ _ E).
    destruct (last_such p segs); [reflexivity|]. now destruct (p seg).
Qed.

Lemma run_file_name (segs : list (list string)) : forall st st',
  FileMetadata.run st segs = Ok st' ->
  lookup (fst st') "file_name" = lookup (fst st) "file_name".
Proof.
  induction segs as [|seg segs IH]; intros st st' R;
    cbn [FileMetadata.run] in R.
  - now injection R as <-.
  - destruct (FileMetadata.step st seg) as [st1|] eqn:E; cbn [bind] in R;
      [|discriminate].
    rewrite (IH _ _ R). now destruct (step_metadata _ _ _ E).
Qed.

(** X23.  [extract_file_metadata] raises exactly when a segment has no
    element.  When it returns, the metadata keep the file name, and each
    other key holds what the last segment of its kind gives: the sender and
    receiver of the last ISA segment of sixteen elements or more, stripped,
    the transaction type, sender and receiver of the last GS segment of nine
    elements or more, and the transaction set of the last ST segment of two
    elements or more.  A key whose kind of segment is missing is not set. *)
Theorem extract_file_metadata_last_wins (segs : list (list string))
  (file_name : string) :
  ((exists e, extract_file_metadata segs file_name = Raise e) <-> In [] segs)
  /\ forall md bp,
       extract_file_metadata segs file_name = Ok (md, bp) ->
       lookup md "file_name" = Some file_name
       /\ lookup md "sender_id"
          = option_map (fun s => Py.strip (FileMetadata.safe_get s 6 ""))
              (last_such is_isa segs)
       /\ lookup md "receiver_id"
          = option_map (fun s => Py.strip (FileMetadata.safe_get s 8 ""))
              (last_such is_isa segs)
       /\ lookup md "transaction_type"
          = option_map (fun s => FileMetadata.safe_get s 1 "")
              (last_such is_gs segs)
       /\ lookup md "gs_sender"
          = option_map (fun s => FileMetadata.safe_get s 2 "")
              (last_such is_gs segs)
       /\ lookup md "gs_receiver"
          = option_map (fun s => FileMetadata.safe_get s 3 "")
              (last_such is_gs segs)
       /\ lookup md "transaction_set"
          = option_map (fun s => FileMetadata.safe_get s 1 "")
              (last_such is_st segs).
Proof.
  unfold extract_file_metadata. split; [apply metadata_raises|].
  intros md bp R.
  split.
  { pose proof (run_file_name _ _ _ R) as F. cbn in F. exact F. }
  repeat split.
  all: match goal with
       | |- lookup _ ?k = option_map ?f (last_such ?p _) =>
           pose proof (run_reads k p f
                         (fun st st' seg E =>
                            ltac:(destruct (step_metadata st st' seg E)
                                    as (_ & A1 & A2 & A3 & A4 & A5 & A6);
                                  assumption))
                         _ _ _ R) as F;
           cbn [fst lookup String.eqb Ascii.eqb Bool.eqb] in F;
           rewrite F; now destruct (last_such p segs)
       end.
Qed.

Lemma metadata_run_app (a b : list (list string)) : forall st,
  FileMetadata.run st (a ++ b)
  = bind (FileMetadata.run st a) (fun st' => FileMetadata.run st' b).
Proof.
  induction a as [|seg a IH]; intros st; simpl; [reflexivity|].
  destruct (FileMetadata.step st seg); simpl; [apply IH | reflexivity].
Qed.

(** The billing provider, when there is one, is a dictionary with keys. *)
Definition provider_kept (st : Dict * option Dict) : Prop :=
  forall d, snd st = Some d -> ClaimBlocks.nonempty d = true.

Lemma step_billing (st st' : Dict * option Dict) (seg : list string) :
  FileMetadata.step st seg = Ok st' ->
  provider_kept st ->
  provider_kept st'
  /\ snd st'
     = if is_billing seg then Some (billing_provider_of seg)
       else if is_taxonomy seg
       then option_map
              (fun d => set d "taxonomy_code" (FileMetadata.safe_get seg 3 ""))
              (snd st)
       else snd st.
Proof.
  destruct st as [md bp]. destruct seg as [|seg_id elements]; [discriminate|].
  unfold FileMetadata.step, is_billing, is_taxonomy, provider_kept.
  cbn [hd snd]. intros R K.
  destruct ((seg_id =? "ISA")%string
            && (16 <=? List.length (seg_id :: elements))) eqn:C1.
  { apply andb_prop in C1 as [I L]. apply String.eqb_eq in I. subst seg_id.
    injection R as <-. cbn. auto. }
  destruct ((seg_id =? "GS")%string
            && (9 <=? List.length (seg_id :: elements))) eqn:C2.
  { apply andb_prop in C2 as [I L]. apply String.eqb_eq in I. subst seg_id.
    injection R as <-. cbn. auto. }
  destruct ((seg_id =? "ST")%string
            && (2 <=? List.length (seg_id :: elements))) eqn:C3.
  { apply andb_prop in C3 as [I L]. apply String.eqb_eq in I. subst seg_id.
    injection R as <-. cbn. auto. }
  destruct ((seg_id =? "NM1")%string
            && (FileMetadata.safe_get (seg_id :: elements) 1 "" =? "85")%string
            && (10 <=? List.length (seg_id :: elements))) eqn:C4.
  { injection R as <-. cbn [snd]. split; [|reflexivity].
    intros d Q. injection Q as <-. reflexivity. }
  destruct bp as [d|]; cbn [option_map ClaimBlocks.nonempty] in *.
  - rewrite (K d eq_refl) in R.
    destruct ((seg_id =? "PRV")%string
              && (FileMetadata.safe_get (seg_id :: elements) 1 "" =? "BI")%string)
      eqn:C5; cbn [andb] in *.
    + destruct (4 <=? List.length (seg_id :: elements)); injection R as <-;
        cbn [snd]; (split; [|reflexivity]); intros d' Q; injection Q as <-;
        [apply set_nonempty | now apply K].
    + injection R as <-. cbn [snd]. auto.
  - rewrite !andb_false_r in R. cbn [andb] in R. injection R as <-.
    cbn [snd]. split; [discriminate|].
    now destruct ((seg_id =? "PRV")%string
                  && (FileMetadata.safe_get (seg_id :: elements) 1 "" =? "BI")%string
                  && (4 <=? List.length (seg_id :: elements))).
Qed.

Lemma run_kept (segs : list (list string)) : forall st st',
  FileMetadata.run st segs = Ok st' -> provider_kept st -> provider_kept st'.
Proof.
  induction segs as [|seg segs IH]; intros st st' R K;
    cbn [FileMetadata.run] in R.
  - now injection R as <-.
  - destruct (FileMetadata.step st seg) as [st1|] eqn:E; cbn [bind] in R;
      [|discriminate].
    apply (IH _ _ R). now destruct (step_billing _ _ _ E K).
Qed.

Lemma run_taxonomy (segs : list (list string)) : forall st st',
  FileMetadata.run st segs = Ok st' ->
  provider_kept st ->
  Forall (fun s => is_billing s = false) segs ->
  snd st'
  = match last_such is_taxonomy segs with
    | Some prv =>
        option_map
          (fun d => set d "taxonomy_code" (FileMetadata.safe_get prv 3 ""))
          (snd st)
    | None => snd st
    end.
Proof.
  induction segs as [|seg segs IH]; intros st st' R K F;
    cbn [FileMetadata.run] in R.
  - now injection R as <-.
  - destruct (FileMetadata.step st seg) as [st1|] eqn:E; cbn [bind] in R;
      [|discriminate].
    inversion F as [|? ? N F']; subst.
    destruct (step_billing _ _ _ E K) as [K1 S1]. rewrite N in S1.
    rewrite (IH _ _ R K1 F'), last_such_cons, S1.
    destruct (last_such is_taxonomy segs) as [prv|];
      destruct (is_taxonomy seg); try reflexivity.
    destruct (snd st); cbn [option_map]; [|reflexivity].
    now rewrite set_set.
Qed.

(** X24.  The billing provider [extract_file_metadata] returns is read from
    the last NM1*85 segment of ten elements or more, and there is none when
    the file has no such segment.  Its taxonomy code is the one of the last
    PRV*BI segment of four elements or more that follows that NM1 segment;
    a PRV*BI segment that stands before it gives nothing. *)
Theorem extract_file_metadata_billing (segs : list (list string))
  (file_name : string) (md : Dict) (bp : option Dict) :
  extract_file_metadata segs file_name = Ok (md, bp) ->
  (Forall (fun s => is_billing s = false) segs -> bp = None)
  /\ forall before nm1 after,
       segs = before ++ nm1 :: after ->
       is_billing nm1 = true ->
       Forall (fun s => is_billing s = false) after ->
       bp = Some
              match last_such is_taxonomy after with
              | Some prv =>
                  set (billing_provider_of nm1) "taxonomy_code"
                    (FileMetadata.safe_get prv 3 "")
              | None => billing_provider_of nm1
              end.
Proof.
  unfold extract_file_metadata. intros R.
  assert (K0 : provider_kept ([("file_name", file_name)], None))
    by (intros d Q; discriminate Q).
  split.
  - intros F. pose proof (run_taxonomy _ _ _ R K0 F) as T. cbn [snd] in T.
    rewrite T. now destruct (last_such is_taxonomy segs).
  - intros before nm1 after -> N F.
    rewrite metadata_run_app in R.
    destruct (FileMetadata.run ([("file_name", file_name)], None) before)
      as [st1|] eqn:R1; cbn [bind] in R; [|discriminate].
    cbn [FileMetadata.run] in R.
    destruct (FileMetadata.step st1 nm1) as [st2|] eqn:E; cbn [bind] in R;
      [|discriminate].
    destruct (step_billing _ _ _ E (run_kept _ _ _ R1 K0)) as [K2 S2].
    rewrite N in S2.
    pose proof (run_taxonomy _ _ _ R K2 F) as T. cbn [snd] in T.
    rewrite T, S2. now destruct (last_such is_taxonomy after).
Qed.

Lemma extract_file_metadata_billing_witness :
  exists md bp,
    extract_file_metadata
      ([["PRV"; "BI"; "PXC"; "EARLY"]]
       ++ ["NM1"; "85"; "2"; "CLINIC"; ""; ""; ""; ""; "XX"; "1234567893"]
       :: [["PRV"; "BI"; "PXC"; "207Q00000X"]; ["PRV"; "PE"; "PXC"; "OTHER"]])
      "f.837" = Ok (md, bp)
    /\ option_map (fun d => lookup d "taxonomy_code") bp
       = Some (Some "207Q00000X")
    /\ option_map (fun d => lookup d "npi") bp = Some (Some "1234567893").
Proof.
  destruct (extract_file_metadata
              ([["PRV"; "BI"; "PXC"; "EARLY"]]
               ++ ["NM1"; "85"; "2"; "CLINIC"; ""; ""; ""; ""; "XX";
                   "1234567893"]
               :: [["PRV"; "BI"; "PXC"; "207Q00000X"];
                   ["PRV"; "PE"; "PXC"; "OTHER"]])
              "f.837") as [[md bp]|e] eqn:E;
    [|vm_compute in E; discriminate E].
  exists md, bp. split; [reflexivity|].
  rewrite (proj2 (extract_file_metadata_billing _ _ _ _ E)
             [["PRV"; "BI"; "PXC"; "EARLY"]]
             ["NM1"; "85"; "2"; "CLINIC"; ""; ""; ""; ""; "XX"; "1234567893"]
             [["PRV"; "BI"; "PXC"; "207Q00000X"];
              ["PRV"; "PE"; "PXC"; "OTHER"]]
             eq_refl eq_refl ltac:(repeat constructor)).
  split; reflexivity.
Defined.
